(** * ari-rtt-echo: the RTP worker, the metrics store and the channel lifecycle

  A shallow embedding of the Go sources of the ARI round-trip-latency
  service:

  - [internal/rtp]: [SequenceTracker], [LatencyTracker], [PacketPacer] and
    the per-channel [Worker];
  - [internal/metrics]: the [Metrics] store and its [GetGlobalStats] rollup;
  - [cmd/ari-service]: [PortManager], [ARIService.createChannel],
    [cleanupChannel] and [cleanupZombieChannels];
  - the RTP echo server: [EchoServer.processEchoWithPacing].

  Conventions.  Go's fixed-width integers are values of [Z] with the
  wrap-around of every arithmetic operation written out ([Word.wrap16],
  [Word.wrap32], [Word.wrap64]).  A [time.Time] is a number of nanoseconds
  on the monotonic clock; a function that calls [time.Now()] once takes
  the reading as an argument, and the packet handlers read a clock that
  they thread through ([Runtime.M]).  [float64] is Rocq's primitive
  binary64.  [sync.Map] and Go maps are [gmap]s; a panic is a result
  ([Runtime.Outcome]); a race of goroutines is a schedule over their
  atomic steps.  The engine (Asterisk) and the parser of the pion library
  are parameters. *)

From Stdlib Require Import ZArith List Lia Bool Floats.
From stdpp Require Import base option list gmap strings sets.
Import ListNotations.

Local Open Scope Z_scope.
Set Warnings "-clear-no-such-hyp".

(** ** Fixed-width integers *)

Module Word.

(** [uint16], [uint32]: arithmetic modulo 2^16 and 2^32. *)
Definition wrap16 (z : Z) : Z := z mod 65536.
Definition wrap32 (z : Z) : Z := z mod 4294967296.

(** [int64]: two's complement. *)
Definition wrap64 (z : Z) : Z :=
  (z + 9223372036854775808) mod 18446744073709551616 - 9223372036854775808.

Definition is_u32 (z : Z) : Prop := 0 <= z < 4294967296.
Definition is_i64 (z : Z) : Prop :=
  - 9223372036854775808 <= z < 9223372036854775808.

End Word.

(** ** internal/rtp: SequenceTracker *)

Module SequenceTracker.
Import Word.

Record t : Type := Build {
  lastOutgoingSeq : Z;  (* uint16 *)
  lastIncomingSeq : Z;  (* uint16 *)
  outgoingCount : Z;    (* uint32 *)
  incomingCount : Z;    (* uint32 *)
  droppedCount : Z      (* uint32 *)
}.

(** [&SequenceTracker{}]: every field is Go's zero value. *)
Definition NewSequenceTracker : t := Build 0 0 0 0 0.

Definition TrackOutgoing (s : t) (seq : Z) : t :=
  Build seq (lastIncomingSeq s) (wrap32 (outgoingCount s + 1))
        (incomingCount s) (droppedCount s).

(** The [uint32] expression of the "Wraparound occurred" branch,
    [(uint32(0xFFFF) - uint32(last)) + uint32(seq) - 1]. *)
Definition wraparound_dropped (last seq : Z) : Z :=
  wrap32 (wrap32 (wrap32 (65535 - last) + seq) - 1).

(** The [uint32] expression of the "Normal gap" branch,
    [uint32(seq) - uint32(last) - 1]. *)
Definition normal_dropped (last seq : Z) : Z :=
  wrap32 (wrap32 (seq - last) - 1).

(** [TrackIncoming] returns the updated tracker and the returned count.
    The branch that detects a gap returns before the assignment
    [s.lastIncomingSeq = seq] at the end of the function. *)
Definition TrackIncoming (s : t) (seq : Z) : t * Z :=
  let incoming := wrap32 (incomingCount s + 1) in
  let last := lastIncomingSeq s in
  if negb (last =? 0) then
    let expectedSeq := wrap16 (last + 1) in
    if negb (seq =? expectedSeq) then
      let dropped :=
        if seq <? last then wraparound_dropped last seq
        else normal_dropped last seq in
      (Build (lastOutgoingSeq s) last (outgoingCount s) incoming
             (wrap32 (droppedCount s + dropped)),
       dropped)
    else
      (Build (lastOutgoingSeq s) seq (outgoingCount s) incoming
             (droppedCount s), 0)
  else
    (Build (lastOutgoingSeq s) seq (outgoingCount s) incoming
           (droppedCount s), 0).

Definition GetStats (s : t) : Z * Z * Z :=
  (outgoingCount s, incomingCount s, droppedCount s).

(** A run of inbound updates: the final tracker and the value each update
    returned, in order. *)
Fixpoint TrackIncoming_all (s : t) (seqs : list Z) : t * list Z :=
  match seqs with
  | [] => (s, [])
  | seq :: rest =>
      let '(s1, d) := TrackIncoming s seq in
      let '(s2, ds) := TrackIncoming_all s1 rest in
      (s2, d :: ds)
  end.


(** A tracker whose last inbound sequence number is [last]. *)
Definition with_last (last : Z) : t := Build 0 last 0 0 0.

(** The sequence numbers of [n] packets that arrive in order, the first one
    [first]: each is the successor of the one before it modulo 2^16. *)
Fixpoint in_order (first : Z) (n : nat) : list Z :=
  match n with
  | O => []
  | S k => first :: in_order (wrap16 (first + 1)) k
  end.

End SequenceTracker.

(** ** package time *)

Module GoTime.
Import Word.

(** An instant of the monotonic clock, in nanoseconds.  [time.Now()] is
    never called here: its result is an argument of the caller. *)
Abbreviation Time := Z.

(** [time.Duration], an [int64] count of nanoseconds. *)
Abbreviation Duration := Z.

Definition Millisecond : Duration := 1000000.
Definition Second : Duration := 1000000000.

Definition maxDuration : Duration := 9223372036854775807.
Definition minDuration : Duration := - 9223372036854775808.

Definition Add (t : Time) (d : Duration) : Time := t + d.

(** [t.Sub(u)] saturates at the largest and smallest [Duration]. *)
Definition Sub (t u : Time) : Duration :=
  Z.max minDuration (Z.min maxDuration (t - u)).

Definition After (t u : Time) : bool := u <? t.
Definition Before (t u : Time) : bool := t <? u.

(** [time.Since(t)] is [time.Now().Sub(t)]. *)
Definition Since (now t : Time) : Duration := Sub now t.

(** [d.Milliseconds()]: [int64(d) / 1e6], truncated toward zero. *)
Definition Milliseconds (d : Duration) : Z := Z.quot d 1000000.

(** [time.Duration(n) * time.Second / time.Duration(rate)] in [int64]
    arithmetic. *)
Definition samples_to_duration (n rate : Z) : Duration :=
  Z.quot (wrap64 (n * Second)) rate.

End GoTime.

(** ** internal/rtp: LatencyTracker *)

Module LatencyTracker.
Import GoTime.

(** [sentTimes map[uint16]time.Time]. *)
Abbreviation t := (gmap Z Time).

Definition NewLatencyTracker : t := ∅.

(** [RecordSent]: store the send time, then delete every entry whose send
    time is before [now - 3s]. *)
Definition RecordSent (tr : t) (seq : Z) (sendTime now : Time) : t :=
  let cutoff := Add now (- 3 * Second) in
  filter (λ kv : Z * Time, Before kv.2 cutoff = false) (<[seq := sendTime]> tr).

(** [GetLatency]: the entry is read under the read lock, read again under
    the write lock and deleted; the result is [(latency, true)], or
    [(0, false)] when there is no entry. *)
Definition GetLatency (tr : t) (seq : Z) (now : Time) : t * (Duration * bool) :=
  match tr !! seq with
  | Some _ =>
      match tr !! seq with
      | Some sendTime => (delete seq tr, (Since now sendTime, true))
      | None => (tr, (0, false))
      end
  | None => (tr, (0, false))
  end.

End LatencyTracker.

(** ** internal/rtp: PacketPacer *)

Module PacketPacer.
Import Word GoTime.

Record t : Type := Build {
  baseTimestamp : Z;   (* uint32 *)
  baseTime : Time;
  sampleRate : Z       (* uint32 *)
}.

(** The zero [time.Time] of a pacer that has not set its base. *)
Definition zeroTime : Time := 0.

Definition NewPacketPacer (rate : Z) : t := Build 0 zeroTime rate.

(** [CalculateDelay]: the pacer after the call and the returned delay.
    [now] is the one reading of the clock the call makes.  The only
    constructor call in the service passes the rate 8000, so the division
    does not fault. *)
Definition CalculateDelay (p : t) (timestamp : Z) (now : Time) : t * Duration :=
  if baseTimestamp p =? 0 then
    (Build timestamp now (sampleRate p), 0)
  else
    let timestampDiff := wrap32 (timestamp - baseTimestamp p) in
    let expectedTime :=
      Add (baseTime p) (samples_to_duration timestampDiff (sampleRate p)) in
    if After expectedTime now then (p, Sub expectedTime now) else (p, 0).

(** The base of the pacer, as a pair. *)
Definition base (p : t) : Z * Time := (baseTimestamp p, baseTime p).

(** A run of calls, each with its timestamp and its clock reading. *)
Definition CalculateDelay_all (p : t) (calls : list (Z * Time)) : t :=
  fold_left (λ q c, fst (CalculateDelay q c.1 c.2)) calls p.

End PacketPacer.

(** ** float64 *)

Module Float64.

(** [float64(n)] for an integer [n]: round to nearest, ties to even. *)
Definition of_int (n : Z) : float :=
  SF2Prim (binary_normalize prec emax n 0 false).

(** [int(f)] for a finite [f]: truncation toward zero. *)
Definition to_int (f : float) : Z :=
  match Prim2SF f with
  | S754_finite s m e =>
      let v := if 0 <=? e then Z.pos m * 2 ^ e
               else Z.quot (Z.pos m) (2 ^ (- e)) in
      if s then - v else v
  | _ => 0
  end.

(** [math.Min] on the values the rollup passes to it (no NaN among them). *)
Definition min (x y : float) : float :=
  if PrimFloat.ltb y x then y else x.

(** The order of [sort.Float64s]: [x < y], or [x] is a NaN and [y] is not. *)
Definition less (x y : float) : bool :=
  PrimFloat.ltb x y || (PrimFloat.is_nan x && negb (PrimFloat.is_nan y)).

Fixpoint insert_sorted (x : float) (l : list float) : list float :=
  match l with
  | [] => [x]
  | y :: r => if less y x then y :: insert_sorted x r else x :: l
  end.

(** [sort.Float64s]: the list in increasing order. *)
Definition sort (l : list float) : list float :=
  fold_right insert_sorted [] l.

Definition sum (l : list float) : float :=
  fold_left PrimFloat.add l 0%float.

End Float64.

(** ** internal/metrics *)

Module Metrics.
Import Word GoTime.

Record ChannelMetrics : Type := BuildChannel {
  ChannelID : string;
  StartTime : Time;
  Latencies : list float;
  OutgoingPackets : Z;   (* int64 *)
  DroppedPackets : Z;    (* int64 *)
  LatePackets : Z        (* int64 *)
}.

Record t : Type := Build {
  channelMetrics : gmap string ChannelMetrics;  (* sync.Map *)
  totalChannels : Z;     (* int64 *)
  totalLatencies : Z     (* int64 *)
}.

Record GlobalStats : Type := BuildStats {
  TotalChannels : Z;
  ActiveChannels : Z;
  TotalLatencies : Z;
  P50Latency : float;
  P95Latency : float;
  P99Latency : float;
  MaxLatency : float;
  AvgLatency : float;
  LateRatio : float;
  PacketLossRatio : float;
  Timestamp : Time
}.

Definition NewMetrics : t := Build ∅ 0 0.

(** [channelMetrics.LoadOrStore(channelID, &ChannelMetrics{...})]: the entry
    of the channel, a fresh one when there is none. *)
Definition LoadOrStore (m : t) (channelID : string) (now : Time) : ChannelMetrics :=
  default (BuildChannel channelID now [] 0 0 0) (channelMetrics m !! channelID).

Definition store (m : t) (channelID : string) (c : ChannelMetrics) : t :=
  Build (<[channelID := c]> (channelMetrics m)) (totalChannels m) (totalLatencies m).

Definition RecordLatency (m : t) (channelID : string) (latencyMs : float)
    (now : Time) : t :=
  let c := LoadOrStore m channelID now in
  let appended := Latencies c ++ [latencyMs] in
  let kept :=
    if 10000 <? Z.of_nat (length appended) then drop 1000 appended
    else appended in
  let m1 := store m channelID
    (BuildChannel (ChannelID c) (StartTime c) kept (OutgoingPackets c)
       (DroppedPackets c) (LatePackets c)) in
  Build (channelMetrics m1) (totalChannels m1) (wrap64 (totalLatencies m1 + 1)).

Definition RecordDroppedPackets (m : t) (channelID : string) (count : Z)
    (now : Time) : t :=
  let c := LoadOrStore m channelID now in
  store m channelID
    (BuildChannel (ChannelID c) (StartTime c) (Latencies c) (OutgoingPackets c)
       (wrap64 (DroppedPackets c + count)) (LatePackets c)).

Definition RecordOutgoingPacket (m : t) (channelID : string) (now : Time) : t :=
  let c := LoadOrStore m channelID now in
  store m channelID
    (BuildChannel (ChannelID c) (StartTime c) (Latencies c)
       (wrap64 (OutgoingPackets c + 1)) (DroppedPackets c) (LatePackets c)).

Definition RecordLatePacket (m : t) (channelID : string) (now : Time) : t :=
  let c := LoadOrStore m channelID now in
  store m channelID
    (BuildChannel (ChannelID c) (StartTime c) (Latencies c) (OutgoingPackets c)
       (DroppedPackets c) (wrap64 (LatePackets c + 1))).

Definition MarkChannelStarted (m : t) (channelID : string) : t :=
  Build (channelMetrics m) (wrap64 (totalChannels m + 1)) (totalLatencies m).

(** The locals of [GetGlobalStats] that the [Range] callback updates. *)
Record Collected : Type := BuildCollected {
  allLatencies : list float;
  activeChannels : Z;
  totalDroppedPackets : Z;
  totalLatePackets : Z;
  totalPackets : Z
}.

Definition collect_one (acc : Collected) (c : ChannelMetrics) : Collected :=
  BuildCollected
    (allLatencies acc ++ Latencies c)
    (activeChannels acc + 1)
    (wrap64 (totalDroppedPackets acc + DroppedPackets c))
    (wrap64 (totalLatePackets acc + LatePackets c))
    (wrap64 (totalPackets acc + OutgoingPackets c)).

(** [m.channelMetrics.Range(...)]: one visit of every entry. *)
Definition collect (m : t) : Collected :=
  fold_left collect_one (map_to_list (channelMetrics m)).*2
    (BuildCollected [] 0 0 0 0).

(** The [float64] constants [0.95] and [0.99]. *)
Definition q95 : float := 0x1.e666666666666p-1%float.
Definition q99 : float := 0x1.fae147ae147aep-1%float.

Definition percentile_index (n : nat) (q : float) : nat :=
  Z.to_nat (Float64.to_int
    (Float64.min (PrimFloat.mul (Float64.of_int (Z.of_nat n)) q)
                 (Float64.of_int (Z.of_nat n - 1)))).

Definition GetGlobalStats (m : t) (now : Time) : GlobalStats :=
  let acc := collect m in
  let n := length (allLatencies acc) in
  if (0 <? n)%nat then
    let sorted := Float64.sort (allLatencies acc) in
    let at_index i := nth i sorted 0%float in
    let ratios :=
      if 0 <? totalPackets acc then
        (PrimFloat.div (Float64.of_int (totalLatePackets acc))
                       (Float64.of_int (totalPackets acc)),
         PrimFloat.div (Float64.of_int (totalDroppedPackets acc))
                       (Float64.of_int (totalPackets acc)))
      else (0%float, 0%float) in
    BuildStats (totalChannels m) (activeChannels acc) (totalLatencies m)
      (at_index (Z.to_nat (Float64.to_int
         (PrimFloat.mul (Float64.of_int (Z.of_nat n)) 0.5%float))))
      (at_index (percentile_index n q95))
      (at_index (percentile_index n q99))
      (at_index (n - 1)%nat)
      (PrimFloat.div (Float64.sum sorted) (Float64.of_int (Z.of_nat n)))
      ratios.1 ratios.2 now
  else
    BuildStats (totalChannels m) (activeChannels acc) (totalLatencies m)
      0%float 0%float 0%float 0%float 0%float 0%float 0%float now.

(** The calls of the store's interface. *)
Inductive Op : Type :=
| OpLatency (channelID : string) (latencyMs : float) (now : Time)
| OpDropped (channelID : string) (count : Z) (now : Time)
| OpOutgoing (channelID : string) (now : Time)
| OpLate (channelID : string) (now : Time)
| OpStarted (channelID : string).

Definition apply_op (m : t) (op : Op) : t :=
  match op with
  | OpLatency channelID latencyMs now => RecordLatency m channelID latencyMs now
  | OpDropped channelID count now => RecordDroppedPackets m channelID count now
  | OpOutgoing channelID now => RecordOutgoingPacket m channelID now
  | OpLate channelID now => RecordLatePacket m channelID now
  | OpStarted channelID => MarkChannelStarted m channelID
  end.

Definition apply_ops (m : t) (ops : list Op) : t := fold_left apply_op ops m.

(** The channel a call records a metric for. *)
Definition op_channel (op : Op) : option string :=
  match op with
  | OpLatency channelID _ _ | OpDropped channelID _ _
  | OpOutgoing channelID _ | OpLate channelID _ => Some channelID
  | OpStarted _ => None
  end.

(** The channels that recorded a metric in a run of calls. *)
Definition recorded (ops : list Op) : gset string :=
  list_to_set (omap op_channel ops).

(** The sum of a per-channel count over the channels of the store, and the
    latency samples the store holds. *)
Definition sum_of (count : ChannelMetrics -> Z) (m : t) : Z :=
  foldr Z.add 0 (count <$> (map_to_list (channelMetrics m)).*2).

Definition samples (m : t) : list float :=
  mjoin (Latencies <$> (map_to_list (channelMetrics m)).*2).

(** The ratio of two counts as the rollup computes it. *)
Definition ratio (a b : Z) : float :=
  PrimFloat.div (Float64.of_int a) (Float64.of_int b).

(** The late ratio in the words of the specification: the sum of the late
    counts over the sum of the outbound counts, zero when the denominator
    is zero. *)
Definition spec_late_ratio (m : t) : float :=
  if sum_of OutgoingPackets m =? 0 then 0%float
  else ratio (sum_of LatePackets m) (sum_of OutgoingPackets m).

Definition spec_loss_ratio (m : t) : float :=
  if sum_of OutgoingPackets m =? 0 then 0%float
  else ratio (sum_of DroppedPackets m) (sum_of OutgoingPackets m).

(** No channel holds more than 10000 latency samples. *)
Definition bounded (m : t) : Prop :=
  forall channelID c, channelMetrics m !! channelID = Some c ->
    Z.of_nat (length (Latencies c)) <= 10000.

(** What one call adds to the counters of the store and of the channel
    [id]. *)
Definition is_latency (op : Op) : bool :=
  match op with OpLatency _ _ _ => true | _ => false end.

Definition is_started (op : Op) : bool :=
  match op with OpStarted _ => true | _ => false end.

Definition outgoing_of (id : string) (op : Op) : Z :=
  match op with
  | OpOutgoing c _ => if String.eqb c id then 1 else 0
  | _ => 0
  end.

Definition late_of (id : string) (op : Op) : Z :=
  match op with
  | OpLate c _ => if String.eqb c id then 1 else 0
  | _ => 0
  end.

Definition dropped_of (id : string) (op : Op) : Z :=
  match op with
  | OpDropped c count _ => if String.eqb c id then count else 0
  | _ => 0
  end.

Definition total (f : Op -> Z) (ops : list Op) : Z :=
  foldr Z.add 0 (f <$> ops).

(** A counter of the entry of a channel, 0 when the channel has no entry. *)
Definition count_in (f : ChannelMetrics -> Z) (m : t) (id : string) : Z :=
  from_option f 0 (channelMetrics m !! id).

End Metrics.

(** ** The Go runtime as far as the worker uses it *)

Module Runtime.
Import GoTime.

(** A call either returns or panics. *)
Inductive Outcome (A : Type) : Type :=
| Returned (a : A)
| Panicked (msg : string).
Arguments Returned {A} a.
Arguments Panicked {A} msg.

(** A [chan struct{}] that is only ever closed. *)
Inductive chan_state : Type := ChanOpen | ChanClosed.

(** [close(c)]: closing a closed channel is a run-time panic. *)
Definition close (c : chan_state) : Outcome chan_state :=
  match c with
  | ChanOpen => Returned ChanClosed
  | ChanClosed => Panicked "close of closed channel"
  end.

(** What a handler does to the outside: datagrams written to the socket
    and pacing sleeps. *)
Inductive Event : Type :=
| WriteToUDP (data : list Z) (addr : string * Z)
| Sleep (d : Duration).

(** The environment of a handler: the monotonic clock, the time that
    passes before each of the coming clock readings, and the events so
    far (latest first). *)
Record Env : Type := BuildEnv {
  clock : Time;
  ticks : list Z;
  events : list Event
}.

Definition M (A : Type) : Type := Env -> A * Env.

Definition ret {A} (a : A) : M A := λ e, (a, e).

Definition bind {A B} (c : M A) (k : A -> M B) : M B :=
  λ e, let '(a, e1) := c e in k a e1.

(** [time.Now()]: the clock moves on by the next tick (never backwards)
    and is read. *)
Definition time_Now : M Time :=
  λ e, match ticks e with
       | [] => (clock e, e)
       | d :: rest =>
           let c := clock e + Z.max 0 d in
           (c, BuildEnv c rest (events e))
       end.

(** [time.Sleep(d)]. *)
Definition time_Sleep (d : Duration) : M unit :=
  λ e, (tt, BuildEnv (clock e + Z.max 0 d) (ticks e) (Sleep d :: events e)).

Definition emit (ev : Event) : M unit :=
  λ e, (tt, BuildEnv (clock e) (ticks e) (ev :: events e)).

End Runtime.

Notation "'let*' x ':=' c 'in' k" := (Runtime.bind c (λ x, k))
  (at level 10, x name, c at level 100, k at level 200).

(** ** internal/rtp: Worker *)

Module Worker.
Import Word GoTime Runtime.

(** The header fields the worker reads from a parsed datagram. *)
Record rtpPacket : Type := BuildRtp {
  SequenceNumber : Z;   (* uint16 *)
  Timestamp : Z         (* uint32 *)
}.

Record Packet : Type := BuildPacket {
  Data : list Z;
  ClientAddr : string * Z;
  IsFromAsterisk : bool;
  ReceiveTime : Time
}.

Record t : Type := Build {
  channelID : string;
  rtpPort : Z;
  echoAddr : string * Z;
  asteriskAddr : option (string * Z);
  latencyTracker : LatencyTracker.t;
  sequenceTracker : SequenceTracker.t;
  pacer : PacketPacer.t;
  baseTimestamp : Z;    (* uint32 *)
  baseTime : Time;
  stopChan : chan_state;
  wg : nat              (* goroutines the WaitGroup still waits for *)
}.

(** [NewWorker]: fresh trackers, a pacer at 8 kHz, an open stop channel;
    [asteriskAddr] is left nil. *)
Definition NewWorker (id : string) (port : Z) (echoHost : string)
    (echoPort : Z) : t :=
  Build id port (echoHost, echoPort) None LatencyTracker.NewLatencyTracker
    SequenceTracker.NewSequenceTracker (PacketPacer.NewPacketPacer 8000)
    0 PacketPacer.zeroTime ChanOpen 0.

Definition set_processing (w : t) (lt : LatencyTracker.t)
    (st : SequenceTracker.t) (p : PacketPacer.t) (bts : Z) (bt : Time) : t :=
  Build (channelID w) (rtpPort w) (echoAddr w) (asteriskAddr w) lt st p bts bt
    (stopChan w) (wg w).

Definition set_base (w : t) (bts : Z) (bt : Time) : t :=
  set_processing w (latencyTracker w) (sequenceTracker w) (pacer w) bts bt.

(** The base of the lateness check, as a pair. *)
Definition base (w : t) : Z * Time := (baseTimestamp w, baseTime w).

(** [Start]: when the socket is bound, the reader and the processor are
    started and the WaitGroup counts both. *)
Definition Start (w : t) (listen_ok : bool) : t :=
  if listen_ok then
    Build (channelID w) (rtpPort w) (echoAddr w) (asteriskAddr w)
      (latencyTracker w) (sequenceTracker w) (pacer w) (baseTimestamp w)
      (baseTime w) (stopChan w) (wg w + 2)
  else w.

(** [Stop]: [close(w.stopChan)], then [w.wg.Wait()]: both goroutines see
    the closed channel and return. *)
Definition Stop (w : t) : Outcome t :=
  match close (stopChan w) with
  | Panicked msg => Panicked msg
  | Returned c =>
      Returned (Build (channelID w) (rtpPort w) (echoAddr w) (asteriskAddr w)
        (latencyTracker w) (sequenceTracker w) (pacer w) (baseTimestamp w)
        (baseTime w) c 0)
  end.

(** [checkLatePacket(packet, receiveTime)]; [now] is the clock reading of
    its first branch. *)
Definition checkLatePacket (w : t) (packet : rtpPacket) (receiveTime now : Time)
    : t * bool :=
  if baseTimestamp w =? 0 then
    (set_base w (Timestamp packet) now, false)
  else
    let timestampDiff := wrap32 (Timestamp packet - baseTimestamp w) in
    let expectedTime :=
      Add (baseTime w) (samples_to_duration timestampDiff 8000) in
    let deadline := Add expectedTime (3 * Millisecond) in
    (w, After receiveTime deadline).

(** Every send time the correlator holds is at or before the clock. *)
Definition sent_before (w : t) (e : Env) : Prop :=
  forall seq sendTime,
    latencyTracker w !! seq = Some sendTime -> sendTime <= clock e.

Section Handlers.

(** In the handlers every [time.Now()] of the source is one [time_Now];
    a reading that the source takes on one branch only is taken on that
    branch only. *)

(** [rtp.Packet.Unmarshal] of the pion library: the parsed header, or
    nothing for a malformed datagram. *)
Variable Unmarshal : list Z -> option rtpPacket.

(** [handleOutgoingPacket]: a datagram from Asterisk, on its way to the
    echo server. *)
Definition handleOutgoingPacket (w : t) (m : Metrics.t) (packet : Packet)
    : M (t * Metrics.t) :=
  match Unmarshal (Data packet) with
  | None => ret (w, m)
  | Some rtpPacket =>
      let* tBase := (if baseTimestamp w =? 0 then time_Now else ret 0) in
      let w1 :=
        if baseTimestamp w =? 0 then set_base w (Timestamp rtpPacket) tBase
        else w in
      let* sendTime := time_Now in
      let* tSweep := time_Now in
      let lt := LatencyTracker.RecordSent (latencyTracker w1)
                  (SequenceNumber rtpPacket) sendTime tSweep in
      let st := SequenceTracker.TrackOutgoing (sequenceTracker w1)
                  (SequenceNumber rtpPacket) in
      let* tStore := time_Now in
      let m1 := Metrics.RecordOutgoingPacket m (channelID w) tStore in
      let* tPace := time_Now in
      let '(p, delay) :=
        PacketPacer.CalculateDelay (pacer w1) (Timestamp rtpPacket) tPace in
      let* _ := (if 0 <? delay then time_Sleep delay else ret tt) in
      let* _ := emit (WriteToUDP (Data packet) (echoAddr w)) in
      ret (set_processing w1 lt st p (baseTimestamp w1) (baseTime w1), m1)
  end.

(** [handleIncomingPacket]: a datagram from the echo server, on its way
    back to Asterisk. *)
Definition handleIncomingPacket (w : t) (m : Metrics.t) (packet : Packet)
    : M (t * Metrics.t) :=
  match Unmarshal (Data packet) with
  | None => ret (w, m)
  | Some rtpPacket =>
      let* tSince :=
        (if bool_decide (is_Some (latencyTracker w !! SequenceNumber rtpPacket))
         then time_Now else ret 0) in
      let '(lt, (latency, found)) :=
        LatencyTracker.GetLatency (latencyTracker w)
          (SequenceNumber rtpPacket) tSince in
      let* wm := (if found then
          let* tStore := time_Now in
          let m1 := Metrics.RecordLatency m (channelID w)
                      (Float64.of_int (Milliseconds latency)) tStore in
          let '(st, dropped) :=
            SequenceTracker.TrackIncoming (sequenceTracker w)
              (SequenceNumber rtpPacket) in
          let* tDrop := (if 0 <? dropped then time_Now else ret 0) in
          let m2 :=
            if 0 <? dropped
            then Metrics.RecordDroppedPackets m1 (channelID w) dropped tDrop
            else m1 in
          let* receiveTime := time_Now in
          let* tBase := (if baseTimestamp w =? 0 then time_Now else ret 0) in
          let '(w1, isLate) :=
            checkLatePacket
              (set_processing w lt st (pacer w) (baseTimestamp w) (baseTime w))
              rtpPacket receiveTime tBase in
          let* tLate := (if isLate then time_Now else ret 0) in
          let m3 :=
            if isLate then Metrics.RecordLatePacket m2 (channelID w) tLate
            else m2 in
          ret (w1, m3)
        else
          ret (set_processing w lt (sequenceTracker w) (pacer w)
                 (baseTimestamp w) (baseTime w), m)) in
      let* _ := (match asteriskAddr w with
            | Some addr => emit (WriteToUDP (Data packet) addr)
            | None => ret tt
            end) in
      ret wm
  end.

(** [packetProcessor]: one packet taken from the queue. *)
Definition process (w : t) (m : Metrics.t) (packet : Packet)
    : M (t * Metrics.t) :=
  if IsFromAsterisk packet then handleOutgoingPacket w m packet
  else handleIncomingPacket w m packet.

Fixpoint process_all (w : t) (m : Metrics.t) (packets : list Packet)
    : M (t * Metrics.t) :=
  match packets with
  | [] => ret (w, m)
  | packet :: rest =>
      let* wm := process w m packet in
      process_all wm.1 wm.2 rest
  end.

End Handlers.

(** The fixed 12-byte header layout: the sequence number in bytes 2-3 and
    the timestamp in bytes 4-7, both big-endian.  Used to run the handlers
    on concrete datagrams. *)
Definition parse_header (data : list Z) : option rtpPacket :=
  match data with
  | _ :: _ :: s1 :: s0 :: t3 :: t2 :: t1 :: t0 :: _ :: _ :: _ :: _ :: _ =>
      Some (BuildRtp (s1 * 256 + s0)
              (((t3 * 256 + t2) * 256 + t1) * 256 + t0))
  | _ => None
  end.

(** A datagram with the given sequence number and timestamp and an empty
    payload. *)
Definition datagram (seq ts : Z) : list Z :=
  [128; 0; seq / 256; seq mod 256;
   ts / 16777216; (ts / 65536) mod 256; (ts / 256) mod 256; ts mod 256;
   0; 0; 0; 1].



(** The datagrams written to the socket, latest first. *)
Definition writes (evs : list Event) : list (list Z * (string * Z)) :=
  omap (λ ev, match ev with
              | WriteToUDP data addr => Some (data, addr)
              | Sleep _ => None
              end) evs.

(** The packets of a run that come from Asterisk and parse. *)
Definition is_egress (Unmarshal : list Z -> option rtpPacket) (packet : Packet)
    : bool :=
  IsFromAsterisk packet &&
  match Unmarshal (Data packet) with Some _ => true | None => false end.

End Worker.

(** ** The RTP echo server *)

Module EchoServer.
Import Word GoTime Runtime.

(** The counters of the echo server, each an [int64]. *)
Record Metrics : Type := BuildMetrics {
  packetsEchoed : Z;
  bytesEchoed : Z;
  echoErrors : Z
}.

Record t : Type := Build {
  pacer : PacketPacer.t;
  metrics : Metrics
}.

(** [NewEchoServer]: the pacer runs at the rate of the flag
    [-sample-rate]. *)
Definition NewEchoServer (sampleRate : Z) : t :=
  Build (PacketPacer.NewPacketPacer sampleRate) (BuildMetrics 0 0 0).

(** [atomic.AddInt64(&s.metrics.echoErrors, 1)]. *)
Definition count_error (s : t) : t :=
  Build (pacer s)
    (BuildMetrics (packetsEchoed (metrics s)) (bytesEchoed (metrics s))
       (wrap64 (echoErrors (metrics s) + 1))).

Section Echo.

Variable Unmarshal : list Z -> option Worker.rtpPacket.

(** [processEchoWithPacing(data, clientAddr)]; [write_ok] tells whether
    [WriteToUDP] succeeds.  The pacer is the code of [PacketPacer]; its
    division by the sample rate is a run-time panic when the rate is 0,
    which the flag allows.  The last clock reading is the [time.Since] of
    the processing-time log. *)
Definition processEchoWithPacing (s : t) (data : list Z)
    (clientAddr : string * Z) (write_ok : bool) : M (Outcome t) :=
  let* startTime := time_Now in
  match Unmarshal data with
  | None => ret (Returned (count_error s))
  | Some packet =>
      if negb (PacketPacer.baseTimestamp (pacer s) =? 0) &&
         (PacketPacer.sampleRate (pacer s) =? 0)
      then ret (Panicked "runtime error: integer divide by zero")
      else
        let* now := time_Now in
        let '(p, delay) :=
          PacketPacer.CalculateDelay (pacer s) (Worker.Timestamp packet) now in
        let* _ := (if 0 <? delay then time_Sleep delay else ret tt) in
        if write_ok then
          let* _ := emit (WriteToUDP data clientAddr) in
          let echoed := wrap64 (packetsEchoed (metrics s) + 1) in
          let* _ := (if Z.rem echoed 10000 =? 0 then time_Now else ret 0) in
          ret (Returned
                 (Build p
                    (BuildMetrics echoed
                       (wrap64 (bytesEchoed (metrics s)
                                + Z.of_nat (length data)))
                       (echoErrors (metrics s)))))
        else ret (Returned (count_error (Build p (metrics s))))
  end.

(** The loop of [Start] over the datagrams it reads, each with its sender
    and the outcome of the write. *)
Fixpoint serve (s : t) (inputs : list (list Z * (string * Z) * bool))
    : M (Outcome t) :=
  match inputs with
  | [] => ret (Returned s)
  | (data, clientAddr, write_ok) :: rest =>
      let* r := processEchoWithPacing s data clientAddr write_ok in
      match r with
      | Panicked msg => ret (Panicked msg)
      | Returned s1 => serve s1 rest
      end
  end.

(** A datagram that is echoed: it parses and its write succeeds. *)
Definition is_echoed (input : list Z * (string * Z) * bool) : bool :=
  match Unmarshal input.1.1 with Some _ => input.2 | None => false end.

End Echo.

End EchoServer.

(** ** cmd/ari-service: PortManager *)

Module PortManager.

Record t : Type := Build {
  minPort : Z;
  maxPort : Z;
  ports : list bool   (* index = port - minPort *)
}.

(** [NewPortManager] for a range with [minPort <= maxPort + 1]; for a
    smaller [maxPort] the [make] of the source panics on the negative
    size. *)
Definition NewPortManager (minPort maxPort : Z) : t :=
  Build minPort maxPort (replicate (Z.to_nat (maxPort - minPort + 1)) false).

(** [GetPort]: the lowest free port is marked and returned;
    [ErrNoPortsAvailable] (here [None]) when every port is taken.  The loop
    of the source visits the indices [0 .. maxPort - minPort], which are
    the indices of [ports] in a pool built by [NewPortManager]. *)
Definition GetPort (pm : t) : t * option Z :=
  match list_find (λ used : bool, used = false) (ports pm) with
  | Some (idx, _) =>
      (Build (minPort pm) (maxPort pm) (<[idx := true]> (ports pm)),
       Some (minPort pm + Z.of_nat idx))
  | None => (pm, None)
  end.

Definition ReleasePort (pm : t) (port : Z) : t :=
  if (minPort pm <=? port) && (port <=? maxPort pm) then
    Build (minPort pm) (maxPort pm)
      (<[Z.to_nat (port - minPort pm) := false]> (ports pm))
  else pm.

(** The bitset covers the range of the pool, as [NewPortManager] builds
    it. *)
Definition wf (pm : t) : Prop :=
  length (ports pm) = Z.to_nat (maxPort pm - minPort pm + 1).

(** [getUsedPortCount] of the service. *)
Definition used (pm : t) : nat :=
  length (filter (λ b : bool, b = true) (ports pm)).

(** [pm.ports[port - pm.minPort]] for a port of the range; a port outside
    the range has no slot and is never marked. *)
Definition allocated (pm : t) (port : Z) : bool :=
  (minPort pm <=? port) && (port <=? maxPort pm) &&
  default false (ports pm !! Z.to_nat (port - minPort pm)).

End PortManager.

(** ** cmd/ari-service: the ARI client and the service *)

Module ARIService.
Import GoTime Runtime.

(** The requests the service sends to Asterisk through [ARIClient]. *)
Inductive Request : Type :=
| AnswerChannel (channelID : string)
| CreateBridge
| CreateExternalMedia (external_host : string) (port : Z) (channelId : string)
| AddChannelToBridge (bridgeID channelID : string)
| HangupChannel (channelID : string)
| DeleteBridge (bridgeID : string)
| GetChannel (channelID : string).

(** What a client call returns: the id of the object of the reply (empty
    for the calls that return only an error value), or the error text. *)
Inductive Response : Type :=
| Success (id : string)
| Failure (err : string).

(** What the service does to the outside, latest first. *)
Inductive Effect : Type :=
| Sent (r : Request)
| WorkerStarted (channelID : string)
| WorkerStopped (channelID : string)
| Slept (d : Duration).

Record Config : Type := BuildConfig {
  AppName : string;
  BindIP : string;
  EchoHost : string;
  EchoPort : option Z   (* [strconv.Atoi(config.EchoPort)], [None] on error *)
}.

(** The variables the cleanup closure of a handler captures. *)
Record Closure : Type := BuildClosure {
  c_worker : Worker.t;
  c_rtpPort : Z;
  c_externalMediaID : string;
  c_bridgeID : string
}.

Record ChannelHandler : Type := BuildHandler {
  channelID : string;
  externalMediaID : string;
  bridgeID : string;
  rtpPort : Z;
  worker : Worker.t;
  startTime : Time;
  cleanup : option Closure
}.

Record t : Type := Build {
  config : Config;
  portManager : PortManager.t;
  channels : gmap string ChannelHandler;   (* sync.Map *)
  metrics : Metrics.t;
  trace : list Effect
}.

Definition set_portManager (s : t) (pm : PortManager.t) : t :=
  Build (config s) pm (channels s) (metrics s) (trace s).
Definition set_channels (s : t) (c : gmap string ChannelHandler) : t :=
  Build (config s) (portManager s) c (metrics s) (trace s).
Definition set_metrics (s : t) (m : Metrics.t) : t :=
  Build (config s) (portManager s) (channels s) m (trace s).
Definition log_effect (s : t) (e : Effect) : t :=
  Build (config s) (portManager s) (channels s) (metrics s) (e :: trace s).

(** [strings.Contains(s, substr)]. *)
Definition Contains (s substr : string) : bool :=
  match String.index 0 substr s with Some _ => true | None => false end.

(** The errors and the results of the begin handler. *)
Inductive Error : Type :=
| ErrAnswer (err : string)
| ErrAnswerRetries (err : string)
| ErrGetPort
| ErrEchoPort
| ErrCreateBridge (err : string)
| ErrCreateExternalMedia (err : string)
| ErrAddChannel (err : string)
| ErrAddExternalMedia (err : string).

Section Service.

(** Asterisk: the reply to a request, given everything the service did
    before it. *)
Variable engine : list Effect -> Request -> Response.

Definition call (s : t) (r : Request) : t * Response :=
  (log_effect s (Sent r), engine (trace s) r).

(** [answerChannelWithRetry(channelID, maxRetries, retryDelay)]. *)
Fixpoint answerChannelWithRetry (s : t) (channelID : string)
    (maxRetries : nat) (retryDelay : Duration) (lastErr : string)
    : t * option Error :=
  match maxRetries with
  | O => (s, Some (ErrAnswerRetries lastErr))
  | S n =>
      let '(s1, r) := call s (AnswerChannel channelID) in
      match r with
      | Success _ => (s1, None)
      | Failure err =>
          if Contains err "Channel not found" then
            answerChannelWithRetry (log_effect s1 (Slept retryDelay))
              channelID n retryDelay err
          else (s1, Some (ErrAnswer err))
      end
  end.

(** The cleanup closure that [createChannel] stores in the handler. *)
Definition run_cleanup (c : Closure) (s : t) : Outcome t :=
  match Worker.Stop (c_worker c) with
  | Panicked msg => Panicked msg
  | Returned _ =>
      let s1 := log_effect s (WorkerStopped (Worker.channelID (c_worker c))) in
      let s2 := set_portManager s1
                  (PortManager.ReleasePort (portManager s1) (c_rtpPort c)) in
      let s3 := if String.eqb (c_externalMediaID c) "" then s2
                else (call s2 (HangupChannel (c_externalMediaID c))).1 in
      let s4 := if String.eqb (c_bridgeID c) "" then s3
                else (call s3 (DeleteBridge (c_bridgeID c))).1 in
      Returned s4
  end.

(** [createChannel]; [now] is the clock reading kept as the start time and
    [listen_ok] tells whether the worker's socket could be bound. *)
Definition createChannel (s : t) (channelID : string) (now : Time)
    (listen_ok : bool) : t * option Error :=
  match PortManager.GetPort (portManager s) with
  | (_, None) => (s, Some ErrGetPort)
  | (pm, Some rtpPort) =>
    let s0 := set_portManager s pm in
    let release (s' : t) : t :=
      set_portManager s' (PortManager.ReleasePort (portManager s') rtpPort) in
    match EchoPort (config s) with
    | None => (release s0, Some ErrEchoPort)
    | Some echoPort =>
      match call s0 CreateBridge with
      | (s1, Failure err) => (release s1, Some (ErrCreateBridge err))
      | (s1, Success bridge) =>
        match call s1 (CreateExternalMedia (BindIP (config s)) rtpPort
                         ("external-media-" +:+ channelID)) with
        | (s2, Failure err) => (release s2, Some (ErrCreateExternalMedia err))
        | (s2, Success externalMediaID) =>
          match call s2 (AddChannelToBridge bridge channelID) with
          | (s3, Failure err) => (release s3, Some (ErrAddChannel err))
          | (s3, Success _) =>
            match call s3 (AddChannelToBridge bridge externalMediaID) with
            | (s4, Failure err) => (release s4, Some (ErrAddExternalMedia err))
            | (s4, Success _) =>
              let worker :=
                Worker.Start
                  (Worker.NewWorker channelID rtpPort (EchoHost (config s))
                     echoPort)
                  listen_ok in
              let s5 := log_effect s4 (WorkerStarted channelID) in
              let handler :=
                BuildHandler channelID externalMediaID bridge rtpPort worker now
                  (Some (BuildClosure worker rtpPort externalMediaID bridge)) in
              let s6 := set_channels s5 (<[channelID := handler]> (channels s5)) in
              (set_metrics s6 (Metrics.MarkChannelStarted (metrics s6) channelID),
               None)
            end
          end
        end
      end
    end
  end.

(** [handleStasisStart] for an event that carries a channel id. *)
Definition handleStasisStart (s : t) (channelID : string) (now : Time)
    (listen_ok : bool) : t * option Error :=
  match answerChannelWithRetry s channelID 3 (100 * Millisecond) "" with
  | (s1, Some err) => (s1, Some err)
  | (s1, None) => createChannel s1 channelID now listen_ok
  end.

(** [channels.LoadAndDelete(channelID)], one atomic operation of
    [sync.Map]. *)
Definition LoadAndDelete (s : t) (channelID : string)
    : t * option ChannelHandler :=
  (set_channels s (delete channelID (channels s)), channels s !! channelID).

Definition cleanupChannel (s : t) (channelID : string) : Outcome t :=
  match LoadAndDelete s channelID with
  | (s1, None) => Returned s1
  | (s1, Some handler) =>
      match cleanup handler with
      | Some c => run_cleanup c s1
      | None => Returned s1
      end
  end.

(** [handleStasisEnd] for an event that carries a channel id. *)
Definition handleStasisEnd (s : t) (channelID : string) : Outcome t :=
  cleanupChannel s channelID.

(** The test of [cleanupZombieChannels] on the error of [GetChannel]. *)
Definition is_not_found (err : string) : bool :=
  Contains err "404" || Contains err "not found" ||
  Contains err "Channel not found".

(** One call of the [Range] callback of [cleanupZombieChannels]. *)
Definition scrub_one (s : t) (channelID : string) : Outcome t :=
  match call s (GetChannel channelID) with
  | (s1, Success _) => Returned s1
  | (s1, Failure err) =>
      if is_not_found err then cleanupChannel s1 channelID else Returned s1
  end.

Fixpoint scrub_all (s : t) (ids : list string) : Outcome t :=
  match ids with
  | [] => Returned s
  | channelID :: rest =>
      match scrub_one s channelID with
      | Panicked msg => Panicked msg
      | Returned s1 => scrub_all s1 rest
      end
  end.

(** [cleanupZombieChannels]: [Range] over the handlers tracked when the
    scrub starts. *)
Definition cleanupZombieChannels (s : t) : Outcome t :=
  scrub_all s (map_to_list (channels s)).*1.

(** *** Concurrent calls of [cleanupChannel]

    A call of [cleanupChannel] takes two steps: the atomic
    [LoadAndDelete], then (for the call that found the handler) the
    cleanup closure. *)
Inductive Thread : Type :=
| Ready (channelID : string)
| Loaded (found : option ChannelHandler)
| Finished.

Definition step_thread (s : t) (th : Thread) : Outcome (t * Thread) :=
  match th with
  | Ready channelID =>
      let '(s1, found) := LoadAndDelete s channelID in
      Returned (s1, Loaded found)
  | Loaded (Some handler) =>
      match cleanup handler with
      | Some c =>
          match run_cleanup c s with
          | Panicked msg => Panicked msg
          | Returned s1 => Returned (s1, Finished)
          end
      | None => Returned (s, Finished)
      end
  | Loaded None => Returned (s, Finished)
  | Finished => Returned (s, Finished)
  end.

(** A goroutine of the race.  The handler of an end event runs
    [cleanupChannel] for its channel.  The zombie scrubber visits the
    channel ids of [todo] one after the other: it looks the channel up
    and, when the lookup fails with a not-found error, runs
    [cleanupChannel] for it, as [scrub_one] does; [th] is the call of
    [cleanupChannel] it is in ([Finished] between two visits). *)
Inductive Goroutine : Type :=
| EndEvent (th : Thread)
| Scrubber (todo : list string) (th : Thread).

Definition step_goroutine (s : t) (g : Goroutine) : Outcome (t * Goroutine) :=
  match g with
  | EndEvent th =>
      match step_thread s th with
      | Panicked msg => Panicked msg
      | Returned (s1, th1) => Returned (s1, EndEvent th1)
      end
  | Scrubber todo Finished =>
      match todo with
      | [] => Returned (s, g)
      | channelID :: rest =>
          match call s (GetChannel channelID) with
          | (s1, Success _) => Returned (s1, Scrubber rest Finished)
          | (s1, Failure err) =>
              Returned (s1, Scrubber rest
                              (if is_not_found err then Ready channelID
                               else Finished))
          end
      end
  | Scrubber todo th =>
      match step_thread s th with
      | Panicked msg => Panicked msg
      | Returned (s1, th1) => Returned (s1, Scrubber todo th1)
      end
  end.

(** A schedule names the goroutine that takes the next step. *)
Fixpoint run (schedule : list nat) (s : t) (goroutines : list Goroutine)
    : Outcome (t * list Goroutine) :=
  match schedule with
  | [] => Returned (s, goroutines)
  | i :: rest =>
      match goroutines !! i with
      | None => run rest s goroutines
      | Some g =>
          match step_goroutine s g with
          | Panicked msg => Panicked msg
          | Returned (s1, g1) => run rest s1 (<[i := g1]> goroutines)
          end
      end
  end.

End Service.

(** How often the worker of a channel was stopped. *)
Definition is_stop (channelID : string) (e : Effect) : bool :=
  match e with
  | WorkerStopped c => String.eqb c channelID
  | _ => false
  end.

Definition stops (channelID : string) (tr : list Effect) : nat :=
  length (List.filter (is_stop channelID) tr).

(** The requests that undo a bridge or a channel. *)
Definition is_teardown (e : Effect) : bool :=
  match e with
  | Sent (HangupChannel _) | Sent (DeleteBridge _) => true
  | _ => false
  end.

(** What the answer loop adds to the trace: answer requests and the sleeps
    between them. *)
Definition answer_effect (channelID : string) (e : Effect) : Prop :=
  e = Sent (AnswerChannel channelID) \/ exists d, e = Slept d.


(** A handler as [createChannel] stores it under [channelID]: it has its
    cleanup closure, for the worker of that channel, not stopped yet. *)
Definition handler_ok (channelID : string) (h : ChannelHandler) : Prop :=
  exists c, cleanup h = Some c /\
            Worker.channelID (c_worker c) = channelID /\
            Worker.stopChan (c_worker c) = ChanOpen.

Definition wf_channels (s : ARIService.t) : Prop :=
  forall channelID h, channels s !! channelID = Some h -> handler_ok channelID h.











(** An answer request. *)
Definition is_answer (e : Effect) : bool :=
  match e with Sent (AnswerChannel _) => true | _ => false end.

Definition is_request (e : Effect) : bool :=
  match e with Sent _ => true | _ => false end.

(** The test of the zombie scrub on the reply to the lookup of a channel:
    the channel is gone when the lookup fails with a not-found error. *)
Definition gone (reply : Response) : bool :=
  match reply with
  | Failure err => is_not_found err
  | Success _ => false
  end.

(** The requests of the cleanup closure, latest first: the hangup of the
    external media channel, then the deletion of the bridge, each only
    for an id that is not empty. *)
Definition teardown_requests (media bridge : string) : list Effect :=
  (if String.eqb bridge "" then [] else [Sent (DeleteBridge bridge)]) ++
  (if String.eqb media "" then [] else [Sent (HangupChannel media)]).

End ARIService.

(** ** Concrete packets, stores and services *)

Module Scenario.
Import GoTime Runtime ARIService.

(** A packet from Asterisk with sequence number [seq] and timestamp [ts]. *)
Definition outgoing (seq ts : Z) : Worker.Packet :=
  Worker.BuildPacket (Worker.datagram seq ts) ("127.0.0.1", 10000) true 0.

(** Its return from the echo server. *)
Definition incoming (seq ts : Z) : Worker.Packet :=
  Worker.BuildPacket (Worker.datagram seq ts) ("127.0.0.1", 4000) false 0.

(** A clock that starts at 0 and moves 1 ms between two readings. *)
Definition every_millisecond : Env := BuildEnv 0 (repeat Millisecond 20) [].

(** A store in which one channel has sent four packets and counted one
    late and one lost packet, and no latency was recorded. *)
Definition counts_without_samples : Metrics.t :=
  Metrics.apply_ops Metrics.NewMetrics
    [Metrics.OpOutgoing "c1" 0; Metrics.OpOutgoing "c1" 0;
     Metrics.OpOutgoing "c1" 0; Metrics.OpOutgoing "c1" 0;
     Metrics.OpLate "c1" 0; Metrics.OpDropped "c1" 1 0].

(** A service with the three ports 4500-4502 and no call. *)
Definition service0 : ARIService.t :=
  Build (BuildConfig "ari-app" "127.0.0.1" "127.0.0.1" (Some 4000))
    (PortManager.NewPortManager 4500 4502) ∅ Metrics.NewMetrics [].

(** An Asterisk that grants every request. *)
Definition engine_ok (_ : list Effect) (r : Request) : Response :=
  match r with
  | CreateBridge => Success "bridge-1"
  | CreateExternalMedia _ _ channelId => Success channelId
  | _ => Success ""
  end.

(** An Asterisk that creates the bridge and refuses the external media. *)
Definition engine_no_media (_ : list Effect) (r : Request) : Response :=
  match r with
  | CreateBridge => Success "bridge-1"
  | CreateExternalMedia _ _ _ => Failure "ARI API error: 500 - "
  | _ => Success ""
  end.

(** An Asterisk that creates the bridge and the external media and refuses
    to add a channel to the bridge. *)
Definition engine_no_attach (_ : list Effect) (r : Request) : Response :=
  match r with
  | CreateBridge => Success "bridge-1"
  | CreateExternalMedia _ _ channelId => Success channelId
  | AddChannelToBridge _ _ => Failure "ARI API error: 500 - "
  | _ => Success ""
  end.

(** The service after the begin events of three calls. *)
Definition service3 : ARIService.t :=
  let s1 := (handleStasisStart engine_ok service0 "ch1" 0 true).1 in
  let s2 := (handleStasisStart engine_ok s1 "ch2" 0 true).1 in
  (handleStasisStart engine_ok s2 "ch3" 0 true).1.

(** An Asterisk that does not know the channel of any answer request. *)
Definition engine_not_found (_ : list Effect) (r : Request) : Response :=
  match r with
  | AnswerChannel _ => Failure "ARI API error: 404 - Channel not found"
  | _ => Success ""
  end.

(** An Asterisk on which the channel ch2 has ended and the lookup of ch3
    fails with a server error. *)
Definition engine_ch2_gone (_ : list Effect) (r : Request) : Response :=
  match r with
  | GetChannel channelID =>
      if String.eqb channelID "ch2"
      then Failure "ARI API error: 404 - Channel not found"
      else if String.eqb channelID "ch3"
      then Failure "ARI API error: 500 - Internal Server Error"
      else Success channelID
  | _ => Success ""
  end.

(** The service after [createChannel] for the call ch1, and the handler it
    holds. *)
Definition service1 : ARIService.t :=
  (createChannel engine_ok service0 "ch1" 0 true).1.

Definition handler1 : ChannelHandler :=
  let w := Worker.Start (Worker.NewWorker "ch1" 4500 "127.0.0.1" 4000) true in
  BuildHandler "ch1" "external-media-ch1" "bridge-1" 4500 w 0
    (Some (BuildClosure w 4500 "external-media-ch1" "bridge-1")).

End Scenario.

(** * Properties *)

(** ** Fixed-width integers *)

Section WordFacts.
Import Word.


Lemma wrap32_id z : is_u32 z -> wrap32 z = z.
Proof. intros H. apply Z.mod_small. exact H. Qed.

Lemma wrap64_id z : is_i64 z -> wrap64 z = z.
Proof.
  intros [Hlo Hhi]. unfold wrap64. rewrite Z.mod_small; lia.
Qed.

(** Wrapping is a ring morphism: a sum accumulated with wrap-around is the
    wrapped mathematical sum. *)
Lemma wrap64_add_l a b : wrap64 (wrap64 a + b) = wrap64 (a + b).
Proof.
  unfold wrap64. f_equal.
  replace ((a + 9223372036854775808) mod 18446744073709551616
           - 9223372036854775808 + b + 9223372036854775808)
    with ((a + 9223372036854775808) mod 18446744073709551616 + b) by lia.
  rewrite Zplus_mod_idemp_l. f_equal. lia.
Qed.

End WordFacts.

(** ** SequenceTracker *)

Section SequenceTrackerFacts.
Import Word SequenceTracker.



(** A duplicate of the last sequence number takes the "Normal gap" branch,
    where [uint32(seq) - uint32(last) - 1] underflows. *)
Lemma normal_dropped_duplicate last : normal_dropped last last = 4294967295.
Proof. unfold normal_dropped. rewrite Z.sub_diag. reflexivity. Qed.

(** The branch that reports a gap leaves the last-seen number as it was;
    the other branches advance it. *)
Lemma TrackIncoming_last s seq :
  lastIncomingSeq (TrackIncoming s seq).1 =
    if negb (lastIncomingSeq s =? 0)
       && negb (seq =? wrap16 (lastIncomingSeq s + 1))
    then lastIncomingSeq s else seq.
Proof.
  unfold TrackIncoming.
  destruct (lastIncomingSeq s =? 0); simpl; [reflexivity|].
  destruct (seq =? wrap16 (lastIncomingSeq s + 1)); reflexivity.
Qed.

(** The boundary of the specification: after 0xFFFE the update 0x0000
    reports no gap, although 0xFFFF is missing. *)
Lemma TrackIncoming_wrap_boundary :
  (TrackIncoming (with_last 65534) 0).2 = 0.
Proof. reflexivity. Qed.

(** With the last-seen number 0 the tracker takes every update for the
    first one and reports no gap. *)
Lemma TrackIncoming_after_zero s seq :
  lastIncomingSeq s = 0 -> TrackIncoming s seq = 
    (Build (lastOutgoingSeq s) seq (outgoingCount s)
       (wrap32 (incomingCount s + 1)) (droppedCount s), 0).
Proof. intros H. unfold TrackIncoming. rewrite H. reflexivity. Qed.




(** In the branch that reports a gap the last-seen number is not advanced,
    so the next update is measured from the old number again. *)
Lemma TrackIncoming_gap_keeps_last s seq :
  lastIncomingSeq s <> 0 -> seq <> wrap16 (lastIncomingSeq s + 1) ->
  lastIncomingSeq (TrackIncoming s seq).1 = lastIncomingSeq s.
Proof.
  intros Hz Hne. rewrite TrackIncoming_last.
  apply Z.eqb_neq in Hz, Hne. rewrite Hz, Hne. reflexivity.
Qed.

(** C4 (the code at the failing input).  The updates 5, 8, 9: the update 8
    reports the gap of 6 and 7; the last-seen number stays 5, so the update
    9 reports 3 packets (6 and 7 once more, and 8, which arrived) where
    nothing new is missing, and the tracker's total is 5. *)
Theorem TrackIncoming_counts_gap_again :
  TrackIncoming_all NewSequenceTracker [5; 8; 9] = (Build 0 5 0 3 5, [0; 2; 3]).
Proof. reflexivity. Qed.

End SequenceTrackerFacts.

(** ** PacketPacer and the lateness base *)

Section BaseFacts.
Import Word GoTime Runtime PacketPacer Scenario.

(** Once the base timestamp is not 0, [CalculateDelay] leaves the base
    alone. *)
Lemma CalculateDelay_keeps_base p timestamp now :
  baseTimestamp p <> 0 -> (CalculateDelay p timestamp now).1 = p.
Proof.
  intros H. unfold CalculateDelay.
  apply Z.eqb_neq in H. rewrite H.
  destruct (After _ now); reflexivity.
Qed.

Lemma CalculateDelay_all_keeps_base p calls :
  baseTimestamp p <> 0 -> CalculateDelay_all p calls = p.
Proof.
  intros H. unfold CalculateDelay_all.
  induction calls as [|c calls IH]; simpl; [reflexivity|].
  rewrite CalculateDelay_keeps_base by exact H. exact IH.
Qed.

(** The first call with a timestamp other than 0 sets the base to that
    timestamp and the reading of the clock. *)
Lemma CalculateDelay_first rate timestamp now :
  base (CalculateDelay (NewPacketPacer rate) timestamp now).1 = (timestamp, now).
Proof. reflexivity. Qed.

Lemma checkLatePacket_keeps_base w packet receiveTime now :
  Worker.baseTimestamp w <> 0 ->
  (Worker.checkLatePacket w packet receiveTime now).1 = w.
Proof.
  intros H. unfold Worker.checkLatePacket.
  apply Z.eqb_neq in H. rewrite H. reflexivity.
Qed.

(** C7 (the code at the failing input).  The first outbound packet has the
    media timestamp 0, the second 160.  The pacer called at the instants
    100 and 200 has the base (0, 100) after the first call and
    (160, 200) after the second; the lateness check has the same defect;
    and in the worker, with a clock reading every millisecond, both bases
    are set by the first packet (at 1 ms and 5 ms) and set again by the
    second (at 6 ms and 10 ms). *)
Theorem base_set_again_after_timestamp_zero :
  let p1 := (CalculateDelay (NewPacketPacer 8000) 0 100).1 in
  let p2 := (CalculateDelay p1 160 200).1 in
  let c0 := Worker.NewWorker "c1" 4500 "127.0.0.1" 4000 in
  let c1 := (Worker.checkLatePacket c0 (Worker.BuildRtp 1000 0) 100 100).1 in
  let c2 := (Worker.checkLatePacket c1 (Worker.BuildRtp 1001 160) 200 200).1 in
  let r1 := Worker.handleOutgoingPacket Worker.parse_header c0
              Metrics.NewMetrics (outgoing 1000 0) every_millisecond in
  let r2 := Worker.handleOutgoingPacket Worker.parse_header r1.1.1 r1.1.2
              (outgoing 1001 160) r1.2 in
  (base p1 = (0, 100) /\ base p2 = (160, 200)) /\
  (Worker.base c1 = (0, 100) /\ Worker.base c2 = (160, 200)) /\
  (Worker.base r1.1.1 = (0, 1000000) /\
   base (Worker.pacer r1.1.1) = (0, 5000000) /\
   Worker.base r2.1.1 = (160, 6000000) /\
   base (Worker.pacer r2.1.1) = (160, 10000000)).
Proof. vm_compute. repeat split; reflexivity. Qed.

End BaseFacts.

(** ** Worker.Stop *)

Section StopFacts.
Import Runtime Worker.

Lemma Stop_closed w :
  stopChan w = ChanClosed -> Stop w = Panicked "close of closed channel".
Proof. intros H. unfold Stop. rewrite H. reflexivity. Qed.

(** C6 (counterexample).  A started worker is stopped twice: the first
    call returns, the second panics. *)
Lemma Stop_twice_counterexample :
  let w := Start (NewWorker "c1" 4500 "127.0.0.1" 4000) true in
  exists w1, Stop w = Returned w1 /\
             Stop w1 = Panicked "close of closed channel".
Proof. eexists. split; reflexivity. Qed.

(** C6 (amended).  The first stop of a worker returns, with the stop
    channel closed and no goroutine left to wait for; a stop of the worker
    it leaves is not a no-op: it panics on closing the closed channel. *)
Theorem Stop_only_once (w : t) :
  stopChan w = ChanOpen ->
  exists w1, Stop w = Returned w1 /\ stopChan w1 = ChanClosed /\
             wg w1 = 0%nat /\
             Stop w1 = Panicked "close of closed channel".
Proof.
  intros H. unfold Stop at 1. rewrite H. simpl.
  eexists. split; [reflexivity|]. repeat split.
Qed.

Lemma Stop_only_once_witness :
  let w := Start (NewWorker "c1" 4500 "127.0.0.1" 4000) true in
  stopChan w = ChanOpen /\
  exists w1, Stop w = Returned w1 /\ stopChan w1 = ChanClosed /\
             wg w1 = 0%nat /\
             Stop w1 = Panicked "close of closed channel".
Proof.
  split; [reflexivity|].
  apply (Stop_only_once (Start (NewWorker "c1" 4500 "127.0.0.1" 4000) true)).
  reflexivity.
Defined.

End StopFacts.

(** ** The metrics store *)

Section MetricsFacts.
Import Word GoTime Metrics Scenario.

Lemma wrap64_range z : is_i64 (wrap64 z).
Proof.
  unfold is_i64, wrap64.
  pose proof (Z.mod_pos_bound (z + 9223372036854775808)
                18446744073709551616 ltac:(lia)).
  lia.
Qed.

(** The accumulators of the [Range] callback, field by field. *)
Lemma collect_allLatencies l acc :
  allLatencies (fold_left collect_one l acc) =
  allLatencies acc ++ mjoin (Latencies <$> l).
Proof.
  revert acc. induction l as [|c l IH]; intros acc; simpl.
  - by rewrite app_nil_r.
  - rewrite IH. simpl. by rewrite <- app_assoc.
Qed.

Lemma collect_activeChannels l acc :
  activeChannels (fold_left collect_one l acc) =
  activeChannels acc + Z.of_nat (length l).
Proof.
  revert acc. induction l as [|c l IH]; intros acc.
  - simpl. lia.
  - cbn [fold_left length]. rewrite IH, Nat2Z.inj_succ.
    unfold collect_one. cbn [activeChannels]. lia.
Qed.

(** A count accumulated with [int64] additions from 0 is the mathematical
    sum as long as that sum is an [int64]. *)
Lemma wrapped_sum (count : ChannelMetrics -> Z) (field : Collected -> Z) l :
  (forall acc c, field (collect_one acc c) = wrap64 (field acc + count c)) ->
  forall acc,
  is_i64 (field acc) ->
  is_i64 (field (fold_left collect_one l acc)) /\
  wrap64 (field (fold_left collect_one l acc)) =
  wrap64 (field acc + foldr Z.add 0 (count <$> l)).
Proof.
  intros Hstep. induction l as [|c l IH]; intros acc Hacc.
  - simpl. split; [exact Hacc|]. f_equal. lia.
  - rewrite fmap_cons. cbn [fold_left foldr].
    destruct (IH (collect_one acc c)) as [Hr He].
    { rewrite Hstep. apply wrap64_range. }
    split; [exact Hr|]. rewrite He, Hstep, wrap64_add_l. f_equal. lia.
Qed.

Lemma collect_sum (count : ChannelMetrics -> Z) (field : Collected -> Z) m :
  (forall acc c, field (collect_one acc c) = wrap64 (field acc + count c)) ->
  field (BuildCollected [] 0 0 0 0) = 0 ->
  is_i64 (sum_of count m) ->
  field (collect m) = sum_of count m.
Proof.
  intros Hstep H0 Hsum. unfold collect.
  destruct (wrapped_sum count field (map_to_list (channelMetrics m)).*2 Hstep
              (BuildCollected [] 0 0 0 0)) as [Hr He].
  { rewrite H0. unfold is_i64. lia. }
  rewrite H0 in He. simpl in He.
  rewrite <- (wrap64_id _ Hr), He. apply wrap64_id. exact Hsum.
Qed.

Lemma collect_samples m : allLatencies (collect m) = samples m.
Proof. unfold collect. by rewrite collect_allLatencies. Qed.

Lemma collect_size m :
  activeChannels (collect m) = Z.of_nat (size (channelMetrics m)).
Proof.
  unfold collect. rewrite collect_activeChannels.
  cbn [activeChannels]. rewrite length_fmap, length_map_to_list. lia.
Qed.

Lemma GetGlobalStats_ActiveChannels m now :
  ActiveChannels (GetGlobalStats m now) = Z.of_nat (size (channelMetrics m)).
Proof.
  unfold GetGlobalStats.
  destruct (0 <? length (allLatencies (collect m)))%nat; simpl;
    apply collect_size.
Qed.

(** The two ratios of the rollup, as a function of what was collected. *)
Lemma GetGlobalStats_ratios_collected m now :
  let acc := collect m in
  (LateRatio (GetGlobalStats m now), PacketLossRatio (GetGlobalStats m now)) =
  if (0 <? length (allLatencies acc))%nat && (0 <? totalPackets acc)
  then (ratio (totalLatePackets acc) (totalPackets acc),
        ratio (totalDroppedPackets acc) (totalPackets acc))
  else (0%float, 0%float).
Proof.
  intros acc. unfold GetGlobalStats. fold acc.
  destruct (0 <? length (allLatencies acc))%nat; simpl; [|reflexivity].
  destruct (0 <? totalPackets acc); reflexivity.
Qed.

(** C3 (counterexample).  In that store the sums are 4 outbound, 1 late
    and 1 dropped packet, so the ratios of the specification are 0.25; the
    rollup reports 0 for both, because it computes the ratios only when a
    latency sample is held. *)
Lemma GetGlobalStats_ratio_counterexample :
  let m := counts_without_samples in
  let g := GetGlobalStats m 0 in
  sum_of OutgoingPackets m = 4 /\ sum_of LatePackets m = 1 /\
  sum_of DroppedPackets m = 1 /\ samples m = [] /\
  spec_late_ratio m = 0.25%float /\ spec_loss_ratio m = 0.25%float /\
  LateRatio g = 0%float /\ PacketLossRatio g = 0%float /\
  PrimFloat.eqb (LateRatio g) (spec_late_ratio m) = false /\
  PrimFloat.eqb (PacketLossRatio g) (spec_loss_ratio m) = false.
Proof. vm_compute. repeat split; reflexivity. Qed.

(** C3 (amended).  When the sums of the per-channel counts are [int64]
    values: if the store holds a latency sample and the sum of the outbound
    counts is positive, the late ratio is the sum of the late counts over
    the sum of the outbound counts and the loss ratio is the sum of the
    dropped counts over it; otherwise (no sample held, or no outbound
    packet) both ratios are zero. *)
Theorem GetGlobalStats_ratios (m : t) (now : Time) :
  is_i64 (sum_of OutgoingPackets m) ->
  is_i64 (sum_of LatePackets m) ->
  is_i64 (sum_of DroppedPackets m) ->
  let g := GetGlobalStats m now in
  if (0 <? length (samples m))%nat && (0 <? sum_of OutgoingPackets m)
  then LateRatio g = ratio (sum_of LatePackets m) (sum_of OutgoingPackets m) /\
       PacketLossRatio g =
         ratio (sum_of DroppedPackets m) (sum_of OutgoingPackets m)
  else LateRatio g = 0%float /\ PacketLossRatio g = 0%float.
Proof.
  intros Hout Hlate Hdrop g.
  pose proof (GetGlobalStats_ratios_collected m now) as H. cbv zeta in H.
  rewrite collect_samples in H.
  rewrite (collect_sum OutgoingPackets totalPackets m) in H
    by (reflexivity || assumption).
  rewrite (collect_sum LatePackets totalLatePackets m) in H
    by (reflexivity || assumption).
  rewrite (collect_sum DroppedPackets totalDroppedPackets m) in H
    by (reflexivity || assumption).
  subst g.
  destruct ((0 <? length (samples m))%nat && (0 <? sum_of OutgoingPackets m));
    injection H as H1 H2; split; assumption.
Qed.

(** The amended claim on a store with one sample, four outbound packets
    and one late packet. *)
Lemma GetGlobalStats_ratios_witness :
  let m := apply_op counts_without_samples (OpLatency "c1" 20%float 0) in
  is_i64 (sum_of OutgoingPackets m) /\ is_i64 (sum_of LatePackets m) /\
  is_i64 (sum_of DroppedPackets m) /\
  LateRatio (GetGlobalStats m 0) = ratio 1 4.
Proof.
  set (m := apply_op counts_without_samples (OpLatency "c1" 20%float 0)).
  assert (Ho : sum_of OutgoingPackets m = 4) by (vm_compute; reflexivity).
  assert (Hl : sum_of LatePackets m = 1) by (vm_compute; reflexivity).
  assert (Hd : sum_of DroppedPackets m = 1) by (vm_compute; reflexivity).
  assert (H1 : is_i64 (sum_of OutgoingPackets m))
    by (rewrite Ho; unfold is_i64; lia).
  assert (H2 : is_i64 (sum_of LatePackets m))
    by (rewrite Hl; unfold is_i64; lia).
  assert (H3 : is_i64 (sum_of DroppedPackets m))
    by (rewrite Hd; unfold is_i64; lia).
  cbv zeta. repeat (split; [assumption|]).
  pose proof (GetGlobalStats_ratios m 0 H1 H2 H3) as H. cbv zeta in H.
  assert (Hs : ((0 <? length (samples m))%nat
                && (0 <? sum_of OutgoingPackets m)) = true)
    by (vm_compute; reflexivity).
  rewrite Hs, Hl, Ho in H. exact (proj1 H).
Defined.

(** Every recording call stores the entry of its channel and removes
    none. *)
Lemma dom_store m channelID c :
  dom (channelMetrics (store m channelID c)) =
  {[ channelID ]} ∪ dom (channelMetrics m).
Proof. unfold store. cbn [channelMetrics]. apply dom_insert_L. Qed.

Lemma dom_apply_op m op :
  dom (channelMetrics (apply_op m op)) =
  dom (channelMetrics m) ∪ list_to_set (C := gset string) (omap op_channel [op]).
Proof.
  destruct op; cbn [apply_op omap op_channel list_to_set];
    unfold RecordLatency, RecordDroppedPackets, RecordOutgoingPacket,
      RecordLatePacket, MarkChannelStarted;
    cbn [channelMetrics]; rewrite ?dom_store; set_solver.
Qed.

Lemma recorded_cons op ops :
  recorded (op :: ops) =
  list_to_set (C := gset string) (omap op_channel [op]) ∪ recorded ops.
Proof. unfold recorded. destruct op; simpl; set_solver. Qed.

Lemma dom_apply_ops ops : forall m,
  dom (channelMetrics (apply_ops m ops)) = dom (channelMetrics m) ∪ recorded ops.
Proof.
  induction ops as [|op ops IH]; intros m.
  - unfold apply_ops, recorded. simpl. set_solver.
  - change (apply_ops m (op :: ops)) with (apply_ops (apply_op m op) ops).
    rewrite IH, dom_apply_op, recorded_cons. set_solver.
Qed.

Lemma size_channelMetrics_apply_ops m ops :
  (size (channelMetrics m) <= size (channelMetrics (apply_ops m ops)))%nat.
Proof.
  rewrite <- !(size_dom (D := gset string)).
  apply subseteq_size. rewrite dom_apply_ops. set_solver.
Qed.

End MetricsFacts.

(** ** LatencyTracker and the ingress path *)

Section CorrelatorFacts.
Import Word GoTime Runtime LatencyTracker.

Lemma GetLatency_found (tr : LatencyTracker.t) seq sent now :
  tr !! seq = Some sent ->
  GetLatency tr seq now = (delete seq tr, (Since now sent, true)).
Proof. intros H. unfold GetLatency. rewrite H. reflexivity. Qed.

Lemma GetLatency_missing (tr : LatencyTracker.t) seq now :
  tr !! seq = None -> GetLatency tr seq now = (tr, (0, false)).
Proof. intros H. unfold GetLatency. rewrite H. reflexivity. Qed.

(** A consumed entry is gone: the next lookup of the sequence number finds
    nothing. *)
Lemma GetLatency_consumed (tr : LatencyTracker.t) seq now now' :
  GetLatency (GetLatency tr seq now).1 seq now' =
  ((GetLatency tr seq now).1, (0, false)).
Proof.
  destruct (tr !! seq) as [sent|] eqn:H.
  - rewrite (GetLatency_found _ _ _ _ H). cbn [fst].
    apply GetLatency_missing. apply lookup_delete_eq.
  - rewrite (GetLatency_missing _ _ _ H). cbn [fst].
    apply GetLatency_missing. exact H.
Qed.

(** What [RecordSent] leaves in the map: the new entry and the old ones,
    without those sent more than 3 s before the sweep. *)
Lemma RecordSent_lookup (tr : LatencyTracker.t) seq sendTime now k sent :
  RecordSent tr seq sendTime now !! k = Some sent <->
  (if decide (k = seq) then sent = sendTime else tr !! k = Some sent) /\
  now - 3 * Second <= sent.
Proof.
  unfold RecordSent. cbv zeta. rewrite map_lookup_filter_Some. cbn [snd].
  unfold Before, Add. rewrite Z.ltb_ge.
  destruct (decide (k = seq)) as [->|Hne].
  - rewrite lookup_insert_eq. split.
    + intros [[= ->] H]. split; [reflexivity|lia].
    + intros [-> H]. split; [reflexivity|lia].
  - rewrite lookup_insert_ne by congruence. split.
    + intros [H1 H2]. split; [exact H1|lia].
    + intros [H1 H2]. split; [exact H1|lia].
Qed.

(** An entry older than 3 s does not survive a [RecordSent]. *)
Lemma RecordSent_aged_out (tr : LatencyTracker.t) seq sendTime now k sent :
  k <> seq -> tr !! k = Some sent -> sent < now - 3 * Second ->
  RecordSent tr seq sendTime now !! k = None.
Proof.
  intros Hne Hk Hold.
  destruct (RecordSent tr seq sendTime now !! k) as [sent'|] eqn:E;
    [|reflexivity].
  apply RecordSent_lookup in E. destruct E as [E1 E2].
  destruct (decide (k = seq)); [contradiction|].
  assert (sent' = sent) as -> by congruence. lia.
Qed.



(** The entry of a channel after each recording call. *)
Lemma RecordLatency_entry m channelID latencyMs now :
  exists c,
    Metrics.channelMetrics (Metrics.RecordLatency m channelID latencyMs now)
      !! channelID = Some c /\
    last (Metrics.Latencies c) = Some latencyMs /\
    Metrics.totalLatencies (Metrics.RecordLatency m channelID latencyMs now) =
      wrap64 (Metrics.totalLatencies m + 1).
Proof.
  unfold Metrics.RecordLatency, Metrics.store.
  cbn [Metrics.channelMetrics Metrics.totalLatencies].
  rewrite lookup_insert_eq. eexists. split; [reflexivity|].
  cbn [Metrics.Latencies]. split; [|reflexivity].
  set (l := Metrics.Latencies (Metrics.LoadOrStore m channelID now)).
  destruct (10000 <? Z.of_nat (length (l ++ [latencyMs]))) eqn:Hlen.
  - apply Z.ltb_lt in Hlen. rewrite length_app in Hlen. cbn [length] in Hlen.
    rewrite drop_app_le by lia. apply last_snoc.
  - apply last_snoc.
Qed.

Lemma RecordDroppedPackets_entry m channelID count now c :
  Metrics.channelMetrics m !! channelID = Some c ->
  exists c',
    Metrics.channelMetrics (Metrics.RecordDroppedPackets m channelID count now)
      !! channelID = Some c' /\
    Metrics.Latencies c' = Metrics.Latencies c /\
    Metrics.totalLatencies (Metrics.RecordDroppedPackets m channelID count now)
      = Metrics.totalLatencies m.
Proof.
  intros H. unfold Metrics.RecordDroppedPackets, Metrics.store, Metrics.LoadOrStore.
  rewrite H. cbn [Metrics.channelMetrics Metrics.totalLatencies default].
  rewrite lookup_insert_eq. eexists. split; [reflexivity|]. split; reflexivity.
Qed.

Lemma RecordLatePacket_entry m channelID now c :
  Metrics.channelMetrics m !! channelID = Some c ->
  exists c',
    Metrics.channelMetrics (Metrics.RecordLatePacket m channelID now)
      !! channelID = Some c' /\
    Metrics.Latencies c' = Metrics.Latencies c /\
    Metrics.totalLatencies (Metrics.RecordLatePacket m channelID now)
      = Metrics.totalLatencies m.
Proof.
  intros H. unfold Metrics.RecordLatePacket, Metrics.store, Metrics.LoadOrStore.
  rewrite H. cbn [Metrics.channelMetrics Metrics.totalLatencies default].
  rewrite lookup_insert_eq. eexists. split; [reflexivity|]. split; reflexivity.
Qed.

(** [checkLatePacket] leaves the correlator alone. *)
Lemma checkLatePacket_latencyTracker w packet receiveTime now :
  Worker.latencyTracker (Worker.checkLatePacket w packet receiveTime now).1 =
  Worker.latencyTracker w.
Proof.
  unfold Worker.checkLatePacket.
  destruct (Worker.baseTimestamp w =? 0); reflexivity.
Qed.

End CorrelatorFacts.

(** The clock after a step of a handler is not before the clock before
    it, and a reading is the clock after it. *)
Lemma time_Now_step e t e1 :
  Runtime.time_Now e = (t, e1) ->
  Runtime.clock e <= Runtime.clock e1 /\ t = Runtime.clock e1.
Proof.
  unfold Runtime.time_Now. destruct (Runtime.ticks e); intros [= <- <-];
    cbn [Runtime.clock]; lia.
Qed.

Lemma optional_reading_step (b : bool) e t e1 :
  (if b then Runtime.time_Now else λ e0 : Runtime.Env, (0, e0)) e = (t, e1) ->
  Runtime.clock e <= Runtime.clock e1.
Proof.
  destruct b.
  - intros H. apply time_Now_step in H. lia.
  - intros [= <- <-]. lia.
Qed.

Lemma optional_sleep_step (b : bool) d e u e1 :
  (if b then Runtime.time_Sleep d else λ e0 : Runtime.Env, (tt, e0)) e
    = (u, e1) ->
  Runtime.clock e <= Runtime.clock e1.
Proof.
  destruct b; unfold Runtime.time_Sleep; intros [= <- <-];
    cbn [Runtime.clock]; lia.
Qed.

(** Name the result of every pair-returning step of a handler equation. *)
Ltac split_pairs H :=
  repeat match type of H with
  | context [match ?X with pair _ _ => _ end] =>
      let E := fresh "E" in destruct X eqn:E; cbn beta iota in H
  end.

Section IngressFacts.
Import Word GoTime Runtime LatencyTracker Worker.

Variable Unmarshal : list Z -> option rtpPacket.

(** The sample of the found branch stays the last sample of the channel
    through the drop and late counters. *)
Lemma found_branch_metrics m channelID v t1 (dropped : bool) count t2
    (isLate : bool) t3 :
  let m1 := Metrics.RecordLatency m channelID v t1 in
  let m2 := if dropped
            then Metrics.RecordDroppedPackets m1 channelID count t2 else m1 in
  let m3 := if isLate then Metrics.RecordLatePacket m2 channelID t3 else m2 in
  exists c,
    Metrics.channelMetrics m3 !! channelID = Some c /\
    last (Metrics.Latencies c) = Some v /\
    Metrics.totalLatencies m3 = wrap64 (Metrics.totalLatencies m + 1).
Proof.
  intros m1 m2 m3.
  destruct (RecordLatency_entry m channelID v t1) as (c1 & H1 & L1 & T1).
  fold m1 in H1, T1.
  assert (exists c2, Metrics.channelMetrics m2 !! channelID = Some c2 /\
            Metrics.Latencies c2 = Metrics.Latencies c1 /\
            Metrics.totalLatencies m2 = Metrics.totalLatencies m1)
    as (c2 & H2 & L2 & T2).
  { subst m2. destruct dropped.
    - apply RecordDroppedPackets_entry. exact H1.
    - exists c1. auto. }
  assert (exists c3, Metrics.channelMetrics m3 !! channelID = Some c3 /\
            Metrics.Latencies c3 = Metrics.Latencies c2 /\
            Metrics.totalLatencies m3 = Metrics.totalLatencies m2)
    as (c3 & H3 & L3 & T3).
  { subst m3. destruct isLate.
    - apply RecordLatePacket_entry. exact H2.
    - exists c2. auto. }
  exists c3. split; [exact H3|]. split; congruence.
Qed.

(** The ingress path when the correlator holds the sequence number: the
    entry is consumed and the round-trip time, measured at a reading [now]
    of the clock, is recorded as the latest sample of the channel. *)
Lemma handleIncomingPacket_found (w : Worker.t) (m : Metrics.t)
    (packet : Packet) (rtp : rtpPacket) (e : Env) (sent : Time) :
  Unmarshal (Data packet) = Some rtp ->
  latencyTracker w !! SequenceNumber rtp = Some sent ->
  let r := handleIncomingPacket Unmarshal w m packet e in
  exists now c,
    clock e <= now /\ now <= clock r.2 /\
    latencyTracker r.1.1 = delete (SequenceNumber rtp) (latencyTracker w) /\
    Metrics.channelMetrics r.1.2 !! channelID w = Some c /\
    last (Metrics.Latencies c) =
      Some (Float64.of_int (Milliseconds (Since now sent))) /\
    Metrics.totalLatencies r.1.2 = wrap64 (Metrics.totalLatencies m + 1).
Proof.
  intros Hp Hl r. set (seq := SequenceNumber rtp) in *.
  destruct r as [[w' m'] e'] eqn:Hr. subst r. cbn [fst snd].
  unfold handleIncomingPacket in Hr. rewrite Hp in Hr. fold seq in Hr.
  rewrite bool_decide_eq_true_2 in Hr by eauto.
  unfold bind at 1 in Hr.
  destruct (time_Now e) as [now e1] eqn:Hnow.
  apply time_Now_step in Hnow. destruct Hnow as [Hge ->].
  rewrite (GetLatency_found _ _ _ (clock e1) Hl) in Hr.
  unfold bind, ret, emit in Hr. split_pairs Hr.
  split_pairs E.
  match goal with
  | Hc : checkLatePacket _ _ _ _ = (?w1, ?late),
    Hd : SequenceTracker.TrackIncoming _ _ = (_, ?dropped),
    Hp : (?w1, ?m3, _) = (?p, _) |- _ =>
      assert (Hlt : latencyTracker w1 = delete seq (latencyTracker w))
        by (change w1 with (w1, late).1; rewrite <- Hc;
            apply checkLatePacket_latencyTracker);
      assert (Hm3 : exists c,
                Metrics.channelMetrics m3 !! channelID w = Some c /\
                last (Metrics.Latencies c) =
                  Some (Float64.of_int
                          (Milliseconds (Since (clock e1) sent))) /\
                Metrics.totalLatencies m3 =
                  wrap64 (Metrics.totalLatencies m + 1))
        by (destruct late, (0 <? dropped);
            first [ eapply (found_branch_metrics m _ _ _ true _ _ true)
                  | eapply (found_branch_metrics m _ _ _ false 0 0 true)
                  | eapply (found_branch_metrics m _ _ _ true _ _ false 0)
                  | eapply (found_branch_metrics m _ _ _ false 0 0 false 0) ]);
      injection Hp as <- <-
  end.
  repeat match goal with
  | H : time_Now _ = _ |- _ => apply time_Now_step in H
  | H : (if _ then time_Now else _) _ = _ |- _ =>
      apply optional_reading_step in H
  end.
  match goal with
  | H : match asteriskAddr w with _ => _ end ?e7 = (_, ?e2) |- _ =>
      assert (Hemit : clock e7 <= clock e2)
        by (destruct (asteriskAddr w); injection H as _ <-; cbn [clock]; lia)
  end.
  injection Hr as <- <- <-.
  destruct Hm3 as (c & Hc & Hlast & Htotal).
  exists (clock e1), c. split; [exact Hge|]. split; [lia|]. auto.
Qed.

(** The ingress path when the correlator does not hold the sequence
    number: the correlator and the metrics are left as they were. *)
Lemma handleIncomingPacket_missing (w : Worker.t) (m : Metrics.t)
    (packet : Packet) (rtp : rtpPacket) (e : Env) :
  Unmarshal (Data packet) = Some rtp ->
  latencyTracker w !! SequenceNumber rtp = None ->
  let r := handleIncomingPacket Unmarshal w m packet e in
  latencyTracker r.1.1 = latencyTracker w /\ r.1.2 = m /\
  clock e <= clock r.2.
Proof.
  intros Hp Hl r. set (seq := SequenceNumber rtp) in *.
  destruct r as [[w' m'] e'] eqn:Hr. subst r. cbn [fst snd].
  unfold handleIncomingPacket in Hr. rewrite Hp in Hr. fold seq in Hr.
  rewrite bool_decide_eq_false_2 in Hr by (intros [x Hx]; congruence).
  unfold bind at 1 in Hr. unfold ret at 1 in Hr.
  rewrite (GetLatency_missing _ _ 0 Hl) in Hr.
  unfold bind, ret, emit in Hr. split_pairs Hr.
  match goal with
  | H : match asteriskAddr w with _ => _ end ?e7 = (_, ?e2) |- _ =>
      assert (Hemit : clock e7 <= clock e2)
        by (destruct (asteriskAddr w); injection H as _ <-; cbn [clock]; lia)
  end.
  injection Hr as <- <- <-. cbn [latencyTracker set_processing].
  auto.
Qed.

End IngressFacts.

(** ** The bases in the worker *)

Section WorkerBaseFacts.
Import Word GoTime Runtime Worker.

Variable Unmarshal : list Z -> option rtpPacket.

(** Once both base timestamps are not 0, no packet changes a base. *)
Lemma process_keeps_bases w m packet e :
  baseTimestamp w <> 0 -> PacketPacer.baseTimestamp (pacer w) <> 0 ->
  let r := process Unmarshal w m packet e in
  base r.1.1 = base w /\ pacer r.1.1 = pacer w.
Proof.
  intros Hw Hp r. destruct r as [[w' m'] e'] eqn:Hr. subst r. cbn [fst snd].
  apply Z.eqb_neq in Hw.
  unfold process, handleOutgoingPacket, handleIncomingPacket in Hr.
  rewrite Hw in Hr.
  destruct (IsFromAsterisk packet);
    (destruct (Unmarshal (Data packet)) as [rtp|];
     [|injection Hr as <- _ _; split; reflexivity]).
  - unfold bind, ret, emit in Hr. split_pairs Hr. injection Hr as <- _ _.
    match goal with
    | H : PacketPacer.CalculateDelay _ ?ts ?now = (?p, _) |- _ =>
        rewrite <- (CalculateDelay_keeps_base (pacer w) ts now Hp), H
    end.
    split; reflexivity.
  - unfold bind at 1 in Hr.
    destruct ((if bool_decide _ then time_Now else ret 0) e) as [tSince e1].
    destruct (LatencyTracker.GetLatency _ _ tSince) as [lt [latency found]].
    destruct found.
    + unfold bind, ret, emit in Hr. split_pairs Hr.
      split_pairs E.
      match goal with
      | Hc : checkLatePacket ?x ?rtp ?rt ?now = (?w1, ?late),
        Hp : (?w1, _, _) = (?p, _) |- _ =>
          assert (Hx : baseTimestamp x <> 0)
            by (cbn [baseTimestamp set_processing]; apply Z.eqb_neq; exact Hw);
          pose proof (checkLatePacket_keeps_base x rtp rt now Hx) as Hkeep;
          rewrite Hc in Hkeep; cbn [fst] in Hkeep; subst w1;
          injection Hp as <- _
      end.
      injection Hr as <- _ _. split; reflexivity.
    + unfold bind, ret, emit in Hr. split_pairs Hr.
      injection Hr as <- _ _. split; reflexivity.
Qed.

Lemma process_all_keeps_bases packets : forall w m e,
  baseTimestamp w <> 0 -> PacketPacer.baseTimestamp (pacer w) <> 0 ->
  let r := process_all Unmarshal w m packets e in
  base r.1.1 = base w /\ pacer r.1.1 = pacer w.
Proof.
  induction packets as [|packet packets IH]; intros w m e Hw Hp;
    cbn [process_all].
  - split; reflexivity.
  - unfold bind.
    pose proof (process_keeps_bases w m packet e Hw Hp) as Hstep.
    cbv zeta in Hstep.
    destruct (process Unmarshal w m packet e) as [[w1 m1] e1].
    cbn [fst snd] in Hstep |- *. destruct Hstep as [Hb Hpc].
    assert (Hw1 : baseTimestamp w1 <> 0)
      by (unfold base in Hb; injection Hb as -> _; exact Hw).
    assert (Hp1 : PacketPacer.baseTimestamp (pacer w1) <> 0)
      by (rewrite Hpc; exact Hp).
    destruct (IH w1 m1 e1 Hw1 Hp1) as [Hb' Hpc'].
    split; congruence.
Qed.

End WorkerBaseFacts.

(** ** The clock and the correlator *)

Section ClockFacts.
Import Word GoTime Runtime LatencyTracker Worker.

Variable Unmarshal : list Z -> option rtpPacket.

(** The handlers keep every recorded send time at or before the clock:
    the egress path stores a reading of the clock, the ingress path only
    removes entries, and the clock does not go back. *)
Lemma handleOutgoingPacket_sent_before w m packet e :
  sent_before w e ->
  let r := handleOutgoingPacket Unmarshal w m packet e in
  sent_before r.1.1 r.2.
Proof.
  intros Hinv r. destruct r as [[w' m'] e'] eqn:Hr. subst r. cbn [fst snd].
  unfold handleOutgoingPacket in Hr.
  destruct (Unmarshal (Data packet)) as [rtp|].
  2:{ injection Hr as <- <- <-. exact Hinv. }
  unfold bind, ret, emit in Hr. split_pairs Hr.
  injection Hr as <- _ <-.
  repeat match goal with
  | H : time_Now _ = _ |- _ => apply time_Now_step in H
  | H : (if _ then time_Now else _) _ = _ |- _ =>
      apply optional_reading_step in H
  | H : (if _ then time_Sleep _ else _) _ = _ |- _ =>
      apply optional_sleep_step in H
  end.
  intros k sent. cbn [latencyTracker set_processing clock].
  match goal with |- context [latencyTracker (if ?b then ?x else w)] =>
    assert (Htr : latencyTracker (if b then x else w) = latencyTracker w)
      by (destruct b; reflexivity)
  end.
  rewrite Htr, RecordSent_lookup. intros [Hk _].
  destruct (decide (k = SequenceNumber rtp)).
  - lia.
  - specialize (Hinv _ _ Hk). lia.
Qed.

Lemma handleIncomingPacket_sent_before w m packet e :
  sent_before w e ->
  let r := handleIncomingPacket Unmarshal w m packet e in
  sent_before r.1.1 r.2.
Proof.
  intros Hinv r.
  destruct (Unmarshal (Data packet)) as [rtp|] eqn:Hp.
  2:{ subst r. unfold handleIncomingPacket. rewrite Hp. exact Hinv. }
  destruct (latencyTracker w !! SequenceNumber rtp) as [sent|] eqn:Hl.
  - destruct (handleIncomingPacket_found Unmarshal w m packet rtp e sent Hp Hl)
      as (now & c & Hge & Hle & Hlt & _).
    fold r in Hle, Hlt. intros k sent'. rewrite Hlt, lookup_delete_Some.
    intros [_ Hk]. specialize (Hinv _ _ Hk). lia.
  - destruct (handleIncomingPacket_missing Unmarshal w m packet rtp e Hp Hl)
      as (Hlt & _ & Hle).
    fold r in Hle, Hlt. intros k sent'. rewrite Hlt.
    intros Hk. specialize (Hinv _ _ Hk). lia.
Qed.

(** From a new worker, on any clock, after any packets: the hypothesis of
    the correlation theorem holds. *)
Lemma process_all_sent_before packets : forall w m e,
  sent_before w e ->
  let r := process_all Unmarshal w m packets e in
  sent_before r.1.1 r.2.
Proof.
  induction packets as [|packet packets IH]; intros w m e Hinv; cbn [process_all].
  - exact Hinv.
  - unfold bind.
    destruct (process Unmarshal w m packet e) as [[w1 m1] e1] eqn:Hstep.
    cbn [fst snd]. apply IH.
    unfold process in Hstep. destruct (IsFromAsterisk packet).
    + pose proof (handleOutgoingPacket_sent_before w m packet e Hinv) as H.
      cbv zeta in H. rewrite Hstep in H. exact H.
    + pose proof (handleIncomingPacket_sent_before w m packet e Hinv) as H.
      cbv zeta in H. rewrite Hstep in H. exact H.
Qed.

Lemma NewWorker_sent_before channelID port echoHost echoPort e :
  sent_before (NewWorker channelID port echoHost echoPort) e.
Proof. intros k sent H. discriminate. Qed.

End ClockFacts.

(** A packet is sent at 2 ms, returns at 6 ms, and returns a second
    time: one round-trip time of 4 ms is recorded, and the duplicate finds the correlator
    empty and records nothing. *)
Example duplicate_return_records_once :
  let r := Worker.process_all Worker.parse_header
             (Worker.NewWorker "c1" 4500 "127.0.0.1" 4000) Metrics.NewMetrics
             [Scenario.outgoing 1000 160; Scenario.incoming 1000 160;
              Scenario.incoming 1000 160]
             Scenario.every_millisecond in
  Worker.latencyTracker r.1.1 = ∅ /\
  Metrics.totalLatencies r.1.2 = 1 /\
  Metrics.samples r.1.2 = [4%float].
Proof. vm_compute. repeat split; reflexivity. Qed.

(** ** The channel lifecycle *)

Section LifecycleFacts.
Import GoTime Runtime ARIService.

Variable engine : list Effect -> Request -> Response.

(** A request changes nothing in the service but the trace. *)
Lemma call_fields s r :
  config (call engine s r).1 = config s /\
  portManager (call engine s r).1 = portManager s /\
  channels (call engine s r).1 = channels s /\
  metrics (call engine s r).1 = metrics s /\
  trace (call engine s r).1 = Sent r :: trace s.
Proof. repeat split. Qed.

Lemma answerChannelWithRetry_fields channelID retryDelay maxRetries :
  forall s lastErr,
  let r := answerChannelWithRetry engine s channelID maxRetries retryDelay
             lastErr in
  config r.1 = config s /\ portManager r.1 = portManager s /\
  channels r.1 = channels s /\ metrics r.1 = metrics s /\
  exists new, trace r.1 = new ++ trace s /\
              Forall (answer_effect channelID) new.
Proof.
  induction maxRetries as [|n IH]; intros s lastErr; cbn [answerChannelWithRetry].
  - do 4 (split; [reflexivity|]). exists []. split; [reflexivity|constructor].
  - unfold call. cbv zeta.
    destruct (engine (trace s) (AnswerChannel channelID)) as [id|err].
    + do 4 (split; [reflexivity|]). exists [Sent (AnswerChannel channelID)].
      split; [reflexivity|]. repeat constructor.
    + destruct (Contains err "Channel not found").
      * specialize (IH (log_effect (log_effect s (Sent (AnswerChannel channelID)))
                          (Slept retryDelay)) err).
        cbv zeta in IH. destruct IH as (H1 & H2 & H3 & H4 & new & H5 & H6).
        rewrite H1, H2, H3, H4. do 4 (split; [reflexivity|]).
        exists (new ++ [Slept retryDelay; Sent (AnswerChannel channelID)]).
        split.
        -- rewrite H5. cbn [trace log_effect]. rewrite <- app_assoc. reflexivity.
        -- apply Forall_app. split; [exact H6|].
           constructor; [right; eauto|]. constructor; [left; reflexivity|].
           constructor.
      * do 4 (split; [reflexivity|]). exists [Sent (AnswerChannel channelID)].
        split; [reflexivity|]. repeat constructor.
Qed.


(** No path of the end handler touches the metrics store. *)
Lemma run_cleanup_metrics c s :
  match run_cleanup engine c s with
  | Returned s1 => metrics s1 = metrics s
  | Panicked _ => True
  end.
Proof.
  unfold run_cleanup. destruct (Worker.Stop (c_worker c)); [|exact I].
  destruct (String.eqb (c_externalMediaID c) "");
    destruct (String.eqb (c_bridgeID c) ""); reflexivity.
Qed.

Lemma cleanupChannel_metrics s channelID :
  match cleanupChannel engine s channelID with
  | Returned s1 => metrics s1 = metrics s
  | Panicked _ => True
  end.
Proof.
  unfold cleanupChannel, LoadAndDelete.
  destruct (channels s !! channelID) as [h|]; [|reflexivity].
  destruct (cleanup h) as [c|]; [|reflexivity].
  apply (run_cleanup_metrics c (set_channels s (delete channelID (channels s)))).
Qed.

Lemma scrub_all_metrics ids : forall s,
  match scrub_all engine s ids with
  | Returned s1 => metrics s1 = metrics s
  | Panicked _ => True
  end.
Proof.
  induction ids as [|channelID ids IH]; intros s; cbn [scrub_all].
  - reflexivity.
  - unfold scrub_one. unfold call. cbv zeta.
    set (s0 := log_effect s (Sent (GetChannel channelID))).
    assert (Hs0 : metrics s0 = metrics s) by reflexivity.
    destruct (engine (trace s) (GetChannel channelID)) as [id|err].
    + specialize (IH s0). destruct (scrub_all engine s0 ids); [congruence|exact I].
    + destruct (is_not_found err).
      * pose proof (cleanupChannel_metrics s0 channelID) as Hc.
        destruct (cleanupChannel engine s0 channelID) as [s1|]; [|exact I].
        specialize (IH s1). destruct (scrub_all engine s1 ids); [congruence|exact I].
      * specialize (IH s0). destruct (scrub_all engine s0 ids); [congruence|exact I].
Qed.

End LifecycleFacts.

(** ** The port pool in the begin handler *)

Section PortFacts.
Import GoTime Runtime ARIService.

Variable engine : list Effect -> Request -> Response.

(** The pool keeps the shape [NewPortManager] gives it. *)
Lemma NewPortManager_wf minPort maxPort :
  PortManager.wf (PortManager.NewPortManager minPort maxPort).
Proof. unfold PortManager.wf. cbn. apply length_replicate. Qed.

Lemma GetPort_wf pm :
  PortManager.wf pm -> PortManager.wf (PortManager.GetPort pm).1.
Proof.
  unfold PortManager.wf, PortManager.GetPort. intros H.
  destruct (list_find _ (PortManager.ports pm)) as [[idx b]|]; cbn;
    [rewrite length_insert|]; exact H.
Qed.

Lemma ReleasePort_wf pm port :
  PortManager.wf pm -> PortManager.wf (PortManager.ReleasePort pm port).
Proof.
  unfold PortManager.wf, PortManager.ReleasePort. intros H.
  destruct (_ && _); cbn; [rewrite length_insert|]; exact H.
Qed.

(** Releasing the port that [GetPort] has just handed out gives the pool
    back as it was. *)
Lemma ReleasePort_GetPort pm pm1 port :
  PortManager.wf pm ->
  PortManager.GetPort pm = (pm1, Some port) ->
  PortManager.ReleasePort pm1 port = pm.
Proof.
  unfold PortManager.wf, PortManager.GetPort, PortManager.ReleasePort.
  intros Hwf Hget.
  destruct (list_find _ (PortManager.ports pm)) as [[idx b]|] eqn:Hfind;
    [|discriminate Hget].
  injection Hget as <- <-. cbn [PortManager.minPort PortManager.maxPort
    PortManager.ports].
  apply list_find_Some in Hfind. destruct Hfind as (Hidx & -> & _).
  pose proof (lookup_lt_Some _ _ _ Hidx) as Hlt.
  assert (Hin : (PortManager.minPort pm <=? PortManager.minPort pm + Z.of_nat idx)
                && (PortManager.minPort pm + Z.of_nat idx <=? PortManager.maxPort pm)
                = true).
  { apply andb_true_iff. split; [apply Z.leb_le; lia|apply Z.leb_le; lia]. }
  rewrite Hin.
  replace (Z.to_nat (PortManager.minPort pm + Z.of_nat idx - PortManager.minPort pm))
    with idx by lia.
  rewrite list_insert_insert_eq, (list_insert_id _ _ _ Hidx).
  destruct pm; reflexivity.
Qed.

(** Every error return of [createChannel] leaves the pool as it was before
    the call: the port it took is released. *)
Lemma createChannel_error_releases_port s channelID now listen_ok err :
  PortManager.wf (portManager s) ->
  (createChannel engine s channelID now listen_ok).2 = Some err ->
  portManager (createChannel engine s channelID now listen_ok).1 = portManager s.
Proof.
  intros Hwf. unfold createChannel.
  destruct (PortManager.GetPort (portManager s)) as [pm [port|]] eqn:Hget;
    [|reflexivity].
  pose proof (ReleasePort_GetPort _ _ _ Hwf Hget) as Hrel.
  destruct (EchoPort (config s)) as [echoPort|]; [|intros _; exact Hrel].
  unfold call. cbv zeta. cbn [trace set_portManager log_effect].
  destruct (engine _ CreateBridge) as [bridge|e1]; [|intros _; exact Hrel].
  destruct (engine _ (CreateExternalMedia _ _ _)) as [media|e2];
    [|intros _; exact Hrel].
  destruct (engine _ (AddChannelToBridge bridge channelID)) as [x|e3];
    [|intros _; exact Hrel].
  destruct (engine _ (AddChannelToBridge bridge media)) as [y|e4];
    [|intros _; exact Hrel].
  discriminate.
Qed.

(** No path of [createChannel] sends a request that deletes a bridge or
    hangs a channel up, whatever Asterisk answers. *)
Lemma createChannel_no_teardown s channelID now listen_ok e :
  In e (trace (createChannel engine s channelID now listen_ok).1) ->
  is_teardown e = true -> In e (trace s).
Proof.
  unfold createChannel.
  destruct (PortManager.GetPort (portManager s)) as [pm [port|]];
    [|intros H _; exact H].
  destruct (EchoPort (config s)) as [echoPort|]; [|intros H _; exact H].
  unfold call. cbv zeta. cbn [trace set_portManager log_effect].
  assert (Hdone : forall tr : list Effect,
            (forall x, In x tr -> is_teardown x = true -> In x (trace s)) ->
            In e tr -> is_teardown e = true -> In e (trace s))
    by (intros tr H; apply H).
  destruct (engine _ CreateBridge) as [bridge|e1].
  2:{ apply Hdone. cbn. intros x [<-|H] Ht; [discriminate|exact H]. }
  destruct (engine _ (CreateExternalMedia _ _ _)) as [media|e2].
  2:{ apply Hdone. cbn. intros x [<-|[<-|H]] Ht; try discriminate. exact H. }
  destruct (engine _ (AddChannelToBridge bridge channelID)) as [x1|e3].
  2:{ apply Hdone. cbn.
      intros x [<-|[<-|[<-|H]]] Ht; try discriminate. exact H. }
  destruct (engine _ (AddChannelToBridge bridge media)) as [x2|e4].
  2:{ apply Hdone. cbn.
      intros x [<-|[<-|[<-|[<-|H]]]] Ht; try discriminate. exact H. }
  apply Hdone. cbn.
  intros x [<-|[<-|[<-|[<-|[<-|H]]]]] Ht; try discriminate. exact H.
Qed.

End PortFacts.

Section BeginFacts.
Import GoTime Runtime ARIService Scenario.

(** C2 (the code at the failing inputs).  When the external media cannot
    be created, [createChannel] returns the error and releases the port,
    and the bridge it created is left in Asterisk: no [DeleteBridge] is
    sent.  When the first attach fails, the bridge and the external media
    channel are both left: neither [DeleteBridge] nor [HangupChannel] is
    sent. *)
Theorem createChannel_failure_leaves_bridge :
  let r1 := createChannel engine_no_media service0 "ch1" 0 true in
  let r2 := createChannel engine_no_attach service0 "ch1" 0 true in
  (r1.2 = Some (ErrCreateExternalMedia "ARI API error: 500 - ") /\
   portManager r1.1 = portManager service0 /\
   channels r1.1 = ∅ /\
   trace r1.1 =
     [Sent (CreateExternalMedia "127.0.0.1" 4500 "external-media-ch1");
      Sent CreateBridge]) /\
  (r2.2 = Some (ErrAddChannel "ARI API error: 500 - ") /\
   portManager r2.1 = portManager service0 /\
   channels r2.1 = ∅ /\
   trace r2.1 =
     [Sent (AddChannelToBridge "bridge-1" "ch1");
      Sent (CreateExternalMedia "127.0.0.1" 4500 "external-media-ch1");
      Sent CreateBridge]).
Proof. vm_compute. repeat split; reflexivity. Qed.

(** C5 (counterexample).  With the three ports taken, the begin event of a
    fourth call is answered and fails with the exhausted pool; nothing but
    the answer request is sent for it: the call is not hung up. *)
Lemma exhausted_begin_counterexample :
  let r := handleStasisStart engine_ok service3 "ch4" 0 true in
  PortManager.used (portManager service3) = 3%nat /\
  r.2 = Some ErrGetPort /\
  trace r.1 = Sent (AnswerChannel "ch4") :: trace service3 /\
  ~ In (Sent (HangupChannel "ch4")) (trace r.1).
Proof.
  vm_compute. repeat split; try reflexivity.
  intros H. repeat (destruct H as [H|H]; [discriminate H|]). exact H.
Qed.

End BeginFacts.

Section ExhaustedFacts.
Import GoTime Runtime ARIService.

Variable engine : list Effect -> Request -> Response.

Lemma createChannel_exhausted s channelID now listen_ok :
  (PortManager.GetPort (portManager s)).2 = None ->
  createChannel engine s channelID now listen_ok = (s, Some ErrGetPort).
Proof.
  intros H. unfold createChannel.
  destruct (PortManager.GetPort (portManager s)) as [pm [port|]];
    [discriminate H|reflexivity].
Qed.

(** C5 (amended).  When the port pool is exhausted, [createChannel]
    returns the error and leaves the service as it was; the begin handler
    returns an error, sends nothing but the answer requests of its retry
    loop (no hangup), and leaves the active map, the port pool and the
    metrics as they were: no handler is stored for the channel. *)
Theorem begin_on_exhausted_pool (s : ARIService.t) (channelID : string)
    (now : Time) (listen_ok : bool) :
  (PortManager.GetPort (portManager s)).2 = None ->
  let r := handleStasisStart engine s channelID now listen_ok in
  createChannel engine s channelID now listen_ok = (s, Some ErrGetPort) /\
  r.2 <> None /\
  channels r.1 = channels s /\ portManager r.1 = portManager s /\
  metrics r.1 = metrics s /\
  exists new, trace r.1 = new ++ trace s /\
              Forall (answer_effect channelID) new.
Proof.
  intros H r. split; [apply createChannel_exhausted; exact H|].
  subst r. unfold handleStasisStart.
  pose proof (answerChannelWithRetry_fields engine channelID
                (100 * Millisecond) 3 s "") as Ha.
  cbv zeta in Ha.
  destruct (answerChannelWithRetry engine s channelID 3 (100 * Millisecond) "")
    as [s1 [err|]]; cbn [fst snd] in Ha |- *;
    destruct Ha as (H1 & H2 & H3 & H4 & H5).
  - split; [discriminate|]. auto.
  - rewrite createChannel_exhausted by (rewrite H2; exact H).
    cbn [fst snd]. split; [discriminate|]. auto.
Qed.

End ExhaustedFacts.

(** The amended claim on the fourth call of a pool of three ports. *)
Lemma begin_on_exhausted_pool_witness :
  (PortManager.GetPort (ARIService.portManager Scenario.service3)).2 = None /\
  ARIService.channels
    (ARIService.handleStasisStart Scenario.engine_ok Scenario.service3 "ch4" 0 true).1 =
  ARIService.channels Scenario.service3.
Proof.
  assert (H : (PortManager.GetPort (ARIService.portManager Scenario.service3)).2 = None)
    by (vm_compute; reflexivity).
  split; [exact H|].
  exact (proj1 (proj2 (proj2
    (begin_on_exhausted_pool Scenario.engine_ok Scenario.service3 "ch4" 0 true H)))).
Defined.

(** C10.  The metrics store only gains per-channel entries: over any run
    of recording calls the number of active channels of the rollup does
    not decrease and the channels known before stay known; from the empty
    store it is the number of distinct channels that recorded a metric;
    and the end handler and the zombie scrub, when they return, leave the
    metrics store as it was. *)
Theorem active_channels_never_decrease :
  (forall m ops now now',
     Metrics.ActiveChannels (Metrics.GetGlobalStats m now) <=
     Metrics.ActiveChannels
       (Metrics.GetGlobalStats (Metrics.apply_ops m ops) now')) /\
  (forall m ops,
     dom (Metrics.channelMetrics m) ⊆
     dom (Metrics.channelMetrics (Metrics.apply_ops m ops))) /\
  (forall ops now,
     Metrics.ActiveChannels
       (Metrics.GetGlobalStats (Metrics.apply_ops Metrics.NewMetrics ops) now) =
     Z.of_nat (size (Metrics.recorded ops))) /\
  (forall engine s channelID,
     match ARIService.cleanupChannel engine s channelID with
     | Runtime.Returned s1 => ARIService.metrics s1 = ARIService.metrics s
     | Runtime.Panicked _ => True
     end) /\
  (forall engine s,
     match ARIService.cleanupZombieChannels engine s with
     | Runtime.Returned s1 => ARIService.metrics s1 = ARIService.metrics s
     | Runtime.Panicked _ => True
     end).
Proof.
  split; [|split; [|split; [|split]]].
  - intros m ops now now'. rewrite !GetGlobalStats_ActiveChannels.
    pose proof (size_channelMetrics_apply_ops m ops). lia.
  - intros m ops. rewrite dom_apply_ops. set_solver.
  - intros ops now. rewrite GetGlobalStats_ActiveChannels.
    rewrite <- (size_dom (D := gset string)), dom_apply_ops.
    cbn [Metrics.channelMetrics Metrics.NewMetrics].
    rewrite dom_empty_L, (left_id_L ∅ (∪)). reflexivity.
  - intros engine s channelID. apply cleanupChannel_metrics.
  - intros engine s. apply scrub_all_metrics.
Qed.

(** ** Racing end handlers *)

Section RaceFacts.
Import GoTime Runtime ARIService.

Variable engine : list Effect -> Request -> Response.












End RaceFacts.

(** ** Handlers as the begin handler stores them *)

Section StoredHandlerFacts.
Import GoTime Runtime ARIService.

Variable engine : list Effect -> Request -> Response.

(** [createChannel] either leaves the active map as it was or stores a
    handler with its cleanup closure for a worker that is not stopped. *)
Lemma createChannel_channels s channelID now listen_ok :
  let r := createChannel engine s channelID now listen_ok in
  channels r.1 = channels s \/
  exists h, handler_ok channelID h /\
            channels r.1 = <[channelID := h]> (channels s).
Proof.
  unfold createChannel.
  destruct (PortManager.GetPort (portManager s)) as [pm [port|]];
    [|left; reflexivity].
  destruct (EchoPort (config s)) as [echoPort|]; [|left; reflexivity].
  unfold call. cbv zeta. cbn [trace set_portManager log_effect].
  destruct (engine _ CreateBridge) as [bridge|err]; [|left; reflexivity].
  destruct (engine _ (CreateExternalMedia _ _ _)) as [media|err];
    [|left; reflexivity].
  destruct (engine _ (AddChannelToBridge bridge channelID)) as [x|err];
    [|left; reflexivity].
  destruct (engine _ (AddChannelToBridge bridge media)) as [y|err];
    [|left; reflexivity].
  right. eexists. split; [|reflexivity].
  eexists. split; [reflexivity|]. cbn [c_worker].
  destruct listen_ok; split; reflexivity.
Qed.

Lemma createChannel_wf s channelID now listen_ok :
  wf_channels s ->
  wf_channels (createChannel engine s channelID now listen_ok).1.
Proof.
  intros Hwf.
  destruct (createChannel_channels s channelID now listen_ok)
    as [Hsame | (h & Hok & Hins)]; intros id h'.
  - rewrite Hsame. apply Hwf.
  - rewrite Hins, lookup_insert_Some.
    intros [[<- <-] | [_ H]]; [exact Hok|by apply Hwf].
Qed.

Lemma handleStasisStart_wf s channelID now listen_ok :
  wf_channels s ->
  wf_channels (handleStasisStart engine s channelID now listen_ok).1.
Proof.
  intros Hwf. unfold handleStasisStart.
  pose proof (answerChannelWithRetry_fields engine channelID
                (100 * Millisecond) 3 s "") as Ha.
  cbv zeta in Ha.
  destruct (answerChannelWithRetry engine s channelID 3 (100 * Millisecond) "")
    as [s1 [err|]]; cbn [fst snd] in Ha |- *;
    destruct Ha as (_ & _ & Hch & _).
  - intros id h. rewrite Hch. apply Hwf.
  - apply createChannel_wf. intros id h. rewrite Hch. apply Hwf.
Qed.

(** [cleanupChannel] is the two steps of the handler of one end event. *)
Lemma cleanupChannel_as_thread s channelID :
  run engine [0; 0]%nat s [EndEvent (Ready channelID)] =
  match cleanupChannel engine s channelID with
  | Returned s1 => Returned (s1, [EndEvent Finished])
  | Panicked msg => Panicked msg
  end.
Proof.
  unfold cleanupChannel.
  cbn [run lookup list_lookup step_goroutine step_thread LoadAndDelete].
  cbn [insert list_insert lookup list_lookup].
  destruct (channels s !! channelID) as [h|];
    cbn [step_goroutine step_thread]; [|reflexivity].
  destruct (cleanup h) as [c|]; [|reflexivity].
  destruct (run_cleanup engine c _); reflexivity.
Qed.

(** A scrubber that has nothing left to visit takes no further step. *)
Lemma run_scrubber_done n : forall s,
  run engine (replicate n 0%nat) s [Scrubber [] Finished] =
  Returned (s, [Scrubber [] Finished]).
Proof.
  induction n as [|n IH]; intros s; [reflexivity|].
  cbn [replicate run lookup list_lookup step_goroutine insert list_insert].
  apply IH.
Qed.

(** [cleanupZombieChannels] is a scrubber that runs alone over the
    handlers tracked when it starts. *)
Lemma scrub_all_as_goroutine ids : forall s n,
  (3 * length ids <= n)%nat ->
  run engine (replicate n 0%nat) s [Scrubber ids Finished] =
  match scrub_all engine s ids with
  | Returned s1 => Returned (s1, [Scrubber [] Finished])
  | Panicked msg => Panicked msg
  end.
Proof.
  induction ids as [|id ids IH]; intros s n Hn.
  - cbn [scrub_all]. apply run_scrubber_done.
  - cbn [length] in Hn. destruct n as [|[|[|n]]]; try lia.
    cbn [scrub_all]. unfold scrub_one, cleanupChannel, LoadAndDelete.
    cbn [replicate run lookup list_lookup step_goroutine insert list_insert].
    destruct (call engine s (GetChannel id)) as [s1 [x|err]].
    + apply (IH s1 (S (S n))). lia.
    + destruct (is_not_found err); [|apply (IH s1 (S (S n))); lia].
      cbn [run lookup list_lookup step_goroutine step_thread LoadAndDelete
           insert list_insert].
      destruct (channels s1 !! id) as [h|];
        cbn [step_goroutine step_thread]; [|apply IH; lia].
      destruct (cleanup h) as [c|]; [|apply IH; lia].
      destruct (run_cleanup engine c _) as [s2|msg]; [apply IH; lia|reflexivity].
Qed.

Lemma cleanupZombieChannels_as_goroutine s n :
  (3 * length (map_to_list (channels s)) <= n)%nat ->
  run engine (replicate n 0%nat) s
    [Scrubber (map_to_list (channels s)).*1 Finished] =
  match cleanupZombieChannels engine s with
  | Returned s1 => Returned (s1, [Scrubber [] Finished])
  | Panicked msg => Panicked msg
  end.
Proof.
  intros Hn. apply scrub_all_as_goroutine. rewrite length_fmap. exact Hn.
Qed.

End StoredHandlerFacts.

Lemma wf_channels_service3 : ARIService.wf_channels Scenario.service3.
Proof.
  unfold Scenario.service3. cbv zeta.
  do 3 apply handleStasisStart_wf.
  intros id h H. discriminate.
Qed.


(** The race of the witness, run: every goroutine returns, the workers of
    ch2 and ch1 were stopped once each, and the handler of ch3, whose
    lookup failed with a server error, stays with its port. *)
Example race_on_service3 :
  match ARIService.run Scenario.engine_ch2_gone
          [1; 0; 1; 2; 1; 0; 3; 1; 2; 1; 3; 1; 1; 1; 1]%nat
          Scenario.service3
          [ARIService.EndEvent (ARIService.Ready "ch2");
           ARIService.Scrubber ["ch1"; "ch2"; "ch3"] ARIService.Finished;
           ARIService.EndEvent (ARIService.Ready "ch2");
           ARIService.EndEvent (ARIService.Ready "ch1")] with
  | Runtime.Returned (s1, gs1) =>
      gs1 = [ARIService.EndEvent ARIService.Finished;
             ARIService.Scrubber [] ARIService.Finished;
             ARIService.EndEvent ARIService.Finished;
             ARIService.EndEvent ARIService.Finished] /\
      ARIService.stops "ch2" (ARIService.trace s1) = 1%nat /\
      ARIService.stops "ch1" (ARIService.trace s1) = 1%nat /\
      ARIService.stops "ch3" (ARIService.trace s1) = 0%nat /\
      PortManager.used (ARIService.portManager s1) = 1%nat
  | Runtime.Panicked _ => False
  end.
Proof. vm_compute. repeat split; reflexivity. Qed.

(** ** The port pool *)

Section PortPoolFacts.
Import PortManager.

Lemma allocated_inside pm port :
  minPort pm <= port <= maxPort pm ->
  allocated pm port = default false (ports pm !! Z.to_nat (port - minPort pm)).
Proof.
  intros H. unfold allocated.
  replace (minPort pm <=? port) with true by (symmetry; apply Z.leb_le; lia).
  replace (port <=? maxPort pm) with true by (symmetry; apply Z.leb_le; lia).
  reflexivity.
Qed.

Lemma allocated_outside pm port :
  ~ (minPort pm <= port <= maxPort pm) -> allocated pm port = false.
Proof.
  unfold allocated. intros H.
  destruct (Z.leb_spec (minPort pm) port), (Z.leb_spec port (maxPort pm));
    try reflexivity.
  lia.
Qed.

Lemma allocated_true_inside pm port :
  allocated pm port = true -> minPort pm <= port <= maxPort pm.
Proof.
  intros H. destruct (decide (minPort pm <= port <= maxPort pm)) as [|Hn];
    [assumption|].
  rewrite (allocated_outside _ _ Hn) in H. discriminate.
Qed.

(** What a successful [GetPort] found and did, on the bitset. *)
Lemma GetPort_Some_inv pm pm1 port :
  GetPort pm = (pm1, Some port) ->
  exists idx, port = minPort pm + Z.of_nat idx /\
    ports pm !! idx = Some false /\
    (forall j, (j < idx)%nat -> ports pm !! j = Some true) /\
    pm1 = Build (minPort pm) (maxPort pm) (<[idx := true]> (ports pm)).
Proof.
  unfold GetPort.
  destruct (list_find _ (ports pm)) as [[idx b]|] eqn:Hfind; [|discriminate].
  intros [= <- <-]. apply list_find_Some in Hfind.
  destruct Hfind as (Hidx & -> & Hmin).
  exists idx. split; [reflexivity|]. split; [exact Hidx|]. split; [|reflexivity].
  intros j Hj. destruct (lookup_lt_is_Some_2 (ports pm) j) as [y Hy].
  { apply lookup_lt_Some in Hidx. lia. }
  specialize (Hmin j y Hy Hj). destruct y; [exact Hy|].
  contradiction Hmin. reflexivity.
Qed.

Lemma GetPort_Some_spec pm pm1 port :
  wf pm -> GetPort pm = (pm1, Some port) ->
  minPort pm <= port <= maxPort pm /\
  allocated pm port = false /\
  (forall q, minPort pm <= q < port -> allocated pm q = true) /\
  allocated pm1 port = true /\
  (forall q, q <> port -> allocated pm1 q = allocated pm q) /\
  minPort pm1 = minPort pm /\ maxPort pm1 = maxPort pm.
Proof.
  intros Hwf Hget. apply GetPort_Some_inv in Hget.
  destruct Hget as (idx & -> & Hidx & Hlow & ->).
  pose proof (lookup_lt_Some _ _ _ Hidx) as Hlt. unfold wf in Hwf.
  assert (Hin : minPort pm <= minPort pm + Z.of_nat idx <= maxPort pm) by lia.
  split; [exact Hin|]. split.
  { rewrite (allocated_inside _ _ Hin).
    replace (Z.to_nat (minPort pm + Z.of_nat idx - minPort pm)) with idx by lia.
    rewrite Hidx. reflexivity. }
  split.
  { intros q Hq. rewrite allocated_inside by lia.
    rewrite (Hlow (Z.to_nat (q - minPort pm))) by lia. reflexivity. }
  split.
  { rewrite allocated_inside by (cbn [minPort maxPort]; exact Hin).
    cbn [minPort ports].
    replace (Z.to_nat (minPort pm + Z.of_nat idx - minPort pm)) with idx by lia.
    rewrite list_lookup_insert_eq by exact Hlt. reflexivity. }
  split; [|split; reflexivity].
  intros q Hq. unfold allocated. cbn [minPort maxPort ports].
  destruct (Z.leb_spec (minPort pm) q); [|reflexivity].
  destruct (Z.leb_spec q (maxPort pm)); [|reflexivity].
  rewrite list_lookup_insert_ne by lia. reflexivity.
Qed.

Lemma GetPort_None_spec pm :
  wf pm ->
  ((GetPort pm).2 = None <->
   forall q, minPort pm <= q <= maxPort pm -> allocated pm q = true).
Proof.
  intros Hwf. split.
  - unfold GetPort.
    destruct (list_find _ (ports pm)) as [[idx b]|] eqn:Hfind; [discriminate|].
    intros _ q Hq. apply list_find_None in Hfind.
    rewrite (allocated_inside _ _ Hq). unfold wf in Hwf.
    destruct (lookup_lt_is_Some_2 (ports pm) (Z.to_nat (q - minPort pm)))
      as [y Hy]; [lia|].
    rewrite Hy. cbn.
    apply (proj1 (Forall_lookup _ _) Hfind) in Hy. destruct y; [reflexivity|].
    contradiction Hy. reflexivity.
  - intros Hall. destruct (GetPort pm) as [pm1 [port|]] eqn:Hget; [|reflexivity].
    destruct (GetPort_Some_spec _ _ _ Hwf Hget) as (Hin & Hfree & _).
    rewrite (Hall _ Hin) in Hfree. discriminate.
Qed.

Lemma ReleasePort_spec pm port :
  wf pm ->
  allocated (ReleasePort pm port) port = false /\
  (forall q, q <> port -> allocated (ReleasePort pm port) q = allocated pm q) /\
  (allocated pm port = false -> ReleasePort pm port = pm).
Proof.
  intros Hwf. unfold wf in Hwf.
  destruct (decide (minPort pm <= port <= maxPort pm)) as [Hin|Hout].
  - assert (Hrel : ReleasePort pm port =
              Build (minPort pm) (maxPort pm)
                (<[Z.to_nat (port - minPort pm) := false]> (ports pm))).
    { unfold ReleasePort.
      replace (minPort pm <=? port) with true by (symmetry; apply Z.leb_le; lia).
      replace (port <=? maxPort pm) with true by (symmetry; apply Z.leb_le; lia).
      reflexivity. }
    rewrite Hrel. split.
    { rewrite allocated_inside by (cbn [minPort maxPort]; exact Hin).
      cbn [minPort ports]. rewrite list_lookup_insert_eq by lia. reflexivity. }
    split.
    { intros q Hq. unfold allocated. cbn [minPort maxPort ports].
      destruct (Z.leb_spec (minPort pm) q); [|reflexivity].
      destruct (Z.leb_spec q (maxPort pm)); [|reflexivity].
      rewrite list_lookup_insert_ne by lia. reflexivity. }
    intros Hfree. rewrite (allocated_inside _ _ Hin) in Hfree.
    destruct (lookup_lt_is_Some_2 (ports pm) (Z.to_nat (port - minPort pm)))
      as [y Hy]; [lia|].
    rewrite Hy in Hfree. cbn in Hfree. subst y.
    rewrite (list_insert_id _ _ _ Hy). destruct pm; reflexivity.
  - assert (Hrel : ReleasePort pm port = pm).
    { unfold ReleasePort.
      destruct (Z.leb_spec (minPort pm) port), (Z.leb_spec port (maxPort pm));
        try reflexivity.
      lia. }
    rewrite Hrel. split; [apply allocated_outside; exact Hout|].
    split; [reflexivity|reflexivity].
Qed.

Lemma ReleasePort_bounds pm port :
  minPort (ReleasePort pm port) = minPort pm /\
  maxPort (ReleasePort pm port) = maxPort pm.
Proof. unfold ReleasePort. destruct (_ && _); split; reflexivity. Qed.

(** The number of marked slots after one slot is marked or cleared. *)
Lemma used_insert (l : list bool) i (b b' : bool) :
  l !! i = Some b ->
  (length (filter (λ x : bool, x = true) (<[i := b']> l)) + (if b then 1 else 0)
   = length (filter (λ x : bool, x = true) l) + (if b' then 1 else 0))%nat.
Proof.
  revert i. induction l as [|x l IH]; intros i Hi; [discriminate|].
  destruct i as [|i].
  - injection Hi as ->. cbn [insert list_insert]. rewrite !filter_cons.
    destruct b, b'; repeat case_decide; try congruence; cbn [length]; lia.
  - cbn [insert list_insert]. rewrite !filter_cons.
    specialize (IH i Hi).
    case_decide; cbn [length]; [|exact IH].
    rewrite !Nat.add_succ_l. f_equal. exact IH.
Qed.

Lemma used_all (l : list bool) :
  length (filter (λ x : bool, x = true) l) = length l <->
  Forall (λ x : bool, x = true) l.
Proof.
  induction l as [|x l IH].
  - split; [constructor|reflexivity].
  - rewrite filter_cons. pose proof (length_filter (λ x : bool, x = true) l).
    case_decide as Hx; cbn [length].
    + rewrite Forall_cons. split.
      * intros H'. split; [exact Hx|]. apply IH. lia.
      * intros [_ H']. apply IH in H'. lia.
    + split; [lia|]. intros H'. apply Forall_cons in H'. tauto.
Qed.

(** X1.  A successful [GetPort] hands out the lowest free port of the
    range: the port lies in [minPort, maxPort], it was free, every lower
    port of the range was allocated, and after the call the port is
    allocated and no other port changed its state. *)
Theorem GetPort_lowest_free pm pm1 port :
  wf pm -> GetPort pm = (pm1, Some port) ->
  minPort pm <= port <= maxPort pm /\
  allocated pm port = false /\
  (forall q, minPort pm <= q < port -> allocated pm q = true) /\
  allocated pm1 port = true /\
  (forall q, q <> port -> allocated pm1 q = allocated pm q) /\
  minPort pm1 = minPort pm /\ maxPort pm1 = maxPort pm.
Proof. apply GetPort_Some_spec. Qed.

(** X2.  [GetPort] fails with [ErrNoPortsAvailable] exactly when every
    port of the range is allocated (also for an empty range), and a
    failed call leaves the pool as it was. *)
Theorem GetPort_fails_iff_exhausted pm :
  wf pm ->
  ((GetPort pm).2 = None <->
   forall q, minPort pm <= q <= maxPort pm -> allocated pm q = true) /\
  ((GetPort pm).2 = None -> (GetPort pm).1 = pm).
Proof.
  intros Hwf. split; [apply GetPort_None_spec; exact Hwf|].
  unfold GetPort. destruct (list_find _ (ports pm)) as [[idx b]|];
    [discriminate|reflexivity].
Qed.

(** X3.  [ReleasePort] frees the port and changes the state of no other
    port; releasing a port that is not allocated (a port outside the
    range, or a second release of the same port) changes nothing. *)
Theorem ReleasePort_frees_one pm port :
  wf pm ->
  allocated (ReleasePort pm port) port = false /\
  (forall q, q <> port -> allocated (ReleasePort pm port) q = allocated pm q) /\
  (allocated pm port = false -> ReleasePort pm port = pm).
Proof. apply ReleasePort_spec. Qed.

(** X4.  After a port of the range is released, the next [GetPort]
    succeeds, and the port it hands out is the released one or a lower
    one. *)
Theorem GetPort_after_ReleasePort pm port :
  wf pm -> minPort pm <= port <= maxPort pm ->
  exists pm1 q,
    GetPort (ReleasePort pm port) = (pm1, Some q) /\ minPort pm <= q <= port.
Proof.
  intros Hwf Hin.
  pose proof (ReleasePort_wf pm port Hwf) as Hwf'.
  destruct (ReleasePort_bounds pm port) as [Hmin Hmax].
  destruct (ReleasePort_spec pm port Hwf) as (Hfree & _ & _).
  destruct (GetPort (ReleasePort pm port)) as [pm1 [q|]] eqn:Hget.
  - exists pm1, q. split; [reflexivity|].
    destruct (GetPort_Some_spec _ _ _ Hwf' Hget) as (Hq & _ & Hlow & _).
    rewrite Hmin, Hmax in Hq. split; [lia|].
    destruct (Z.le_gt_cases q port) as [|Hlt]; [assumption|].
    rewrite (Hlow port) in Hfree by (rewrite Hmin; lia). discriminate.
  - pose proof (proj1 (GetPort_None_spec _ Hwf')) as Hall.
    rewrite Hget in Hall. specialize (Hall eq_refl port).
    rewrite Hmin, Hmax in Hall. rewrite (Hall Hin) in Hfree. discriminate.
Qed.

(** X5.  The used-port count of the report: a successful [GetPort] raises
    it by one, the release of an allocated port lowers it by one, and
    [GetPort] fails exactly when it has reached the size of the range. *)
Theorem used_counts_allocated_ports pm :
  wf pm ->
  (forall pm1 port, GetPort pm = (pm1, Some port) -> used pm1 = S (used pm)) /\
  (forall port, allocated pm port = true ->
     S (used (ReleasePort pm port)) = used pm) /\
  ((GetPort pm).2 = None <->
   used pm = Z.to_nat (maxPort pm - minPort pm + 1)).
Proof.
  intros Hwf. split; [|split].
  - intros pm1 port Hget. apply GetPort_Some_inv in Hget.
    destruct Hget as (idx & _ & Hidx & _ & ->). unfold used. cbn [ports].
    pose proof (used_insert _ _ _ true Hidx) as Hu. cbv beta iota in Hu.
    rewrite Nat.add_0_r, Nat.add_1_r in Hu. exact Hu.
  - intros port Halloc. pose proof (allocated_true_inside _ _ Halloc) as Hin.
    rewrite (allocated_inside _ _ Hin) in Halloc.
    destruct (ports pm !! Z.to_nat (port - minPort pm)) as [y|] eqn:Hy;
      [|discriminate]. cbn in Halloc. subst y.
    unfold ReleasePort.
    replace (minPort pm <=? port) with true by (symmetry; apply Z.leb_le; lia).
    replace (port <=? maxPort pm) with true by (symmetry; apply Z.leb_le; lia).
    unfold used. cbn [andb ports].
    pose proof (used_insert _ _ _ false Hy) as Hu. cbv beta iota in Hu.
    rewrite Nat.add_0_r, Nat.add_1_r in Hu. exact Hu.
  - unfold wf in Hwf. unfold used. rewrite <- Hwf, used_all. unfold GetPort.
    destruct (list_find _ (ports pm)) as [[idx b]|] eqn:Hfind.
    + cbn [snd]. split; [discriminate|]. intros Hall.
      apply list_find_Some in Hfind. destruct Hfind as (Hidx & -> & _).
      apply (proj1 (Forall_lookup _ _) Hall) in Hidx. discriminate.
    + cbn [snd]. split; [|reflexivity]. intros _.
      apply list_find_None in Hfind. eapply Forall_impl; [exact Hfind|].
      intros [|] H; [reflexivity|]. contradiction H. reflexivity.
Qed.

(** X6.  Two successive successful calls of [GetPort] never hand out the
    same port: the second port is higher than the first. *)
Theorem GetPort_twice_increasing pm pm1 pm2 p q :
  GetPort pm = (pm1, Some p) -> GetPort pm1 = (pm2, Some q) -> p < q.
Proof.
  intros H1 H2. apply GetPort_Some_inv in H1, H2.
  destruct H1 as (i & -> & Hi & Hlow & ->).
  destruct H2 as (j & -> & Hj & _ & _). cbn [minPort ports] in *.
  pose proof (lookup_lt_Some _ _ _ Hi) as Hlt.
  destruct (lt_eq_lt_dec i j) as [[Hlt'| ->]|Hgt].
  - lia.
  - rewrite list_lookup_insert_eq in Hj by exact Hlt. discriminate.
  - rewrite list_lookup_insert_ne in Hj by lia.
    rewrite (Hlow j Hgt) in Hj. discriminate.
Qed.

End PortPoolFacts.

(** The theorems on pools of the three ports 4500-4502. *)
Lemma GetPort_lowest_free_witness :
  let pm := PortManager.Build 4500 4502 [true; false; false] in
  let pm1 := PortManager.Build 4500 4502 [true; true; false] in
  PortManager.wf pm /\
  PortManager.GetPort pm = (pm1, Some 4501) /\
  PortManager.allocated pm 4501 = false /\
  PortManager.allocated pm1 4501 = true.
Proof.
  intros pm pm1.
  assert (H1 : PortManager.wf pm) by reflexivity.
  assert (H2 : PortManager.GetPort pm = (pm1, Some 4501)) by reflexivity.
  split; [exact H1|]. split; [exact H2|].
  destruct (GetPort_lowest_free pm pm1 4501 H1 H2) as (_ & Hfree & _ & Hnow & _).
  split; [exact Hfree|exact Hnow].
Defined.

Lemma GetPort_fails_iff_exhausted_witness :
  let pm := PortManager.Build 4500 4501 [true; true] in
  PortManager.wf pm /\
  (forall q, 4500 <= q <= 4501 -> PortManager.allocated pm q = true) /\
  (PortManager.GetPort pm).1 = pm.
Proof.
  intros pm.
  assert (H1 : PortManager.wf pm) by reflexivity.
  split; [exact H1|]. split.
  - exact (proj1 (proj1 (GetPort_fails_iff_exhausted pm H1)) eq_refl).
  - exact (proj2 (GetPort_fails_iff_exhausted pm H1) eq_refl).
Defined.

Lemma ReleasePort_frees_one_witness :
  let pm := PortManager.Build 4500 4502 [true; true; false] in
  PortManager.wf pm /\
  PortManager.allocated (PortManager.ReleasePort pm 4501) 4501 = false /\
  PortManager.allocated (PortManager.ReleasePort pm 4501) 4500 = true.
Proof.
  intros pm.
  assert (H1 : PortManager.wf pm) by reflexivity.
  split; [exact H1|].
  destruct (ReleasePort_frees_one pm 4501 H1) as (Hfree & Hother & _).
  split; [exact Hfree|]. rewrite Hother by lia. reflexivity.
Defined.

Lemma GetPort_after_ReleasePort_witness :
  let pm := PortManager.Build 4500 4502 [true; true; true] in
  PortManager.wf pm /\ 4500 <= 4501 <= 4502 /\
  exists pm1 q,
    PortManager.GetPort (PortManager.ReleasePort pm 4501) = (pm1, Some q) /\
    4500 <= q <= 4501.
Proof.
  intros pm.
  assert (H1 : PortManager.wf pm) by reflexivity.
  assert (H2 : PortManager.minPort pm <= 4501 <= PortManager.maxPort pm)
    by (cbn; lia).
  split; [exact H1|]. split; [exact H2|].
  exact (GetPort_after_ReleasePort pm 4501 H1 H2).
Defined.

Lemma used_counts_allocated_ports_witness :
  let pm := PortManager.Build 4500 4502 [true; false; true] in
  PortManager.wf pm /\
  PortManager.used (PortManager.GetPort pm).1 = S (PortManager.used pm) /\
  S (PortManager.used (PortManager.ReleasePort pm 4502)) = PortManager.used pm.
Proof.
  intros pm.
  assert (H1 : PortManager.wf pm) by reflexivity.
  split; [exact H1|].
  destruct (used_counts_allocated_ports pm H1) as (Hget & Hrel & _).
  split.
  - exact (Hget (PortManager.GetPort pm).1 4501 eq_refl).
  - exact (Hrel 4502 eq_refl).
Defined.

Lemma GetPort_twice_increasing_witness :
  let pm := PortManager.NewPortManager 4500 4502 in
  let pm1 := PortManager.Build 4500 4502 [true; false; false] in
  let pm2 := PortManager.Build 4500 4502 [true; true; false] in
  PortManager.GetPort pm = (pm1, Some 4500) /\
  PortManager.GetPort pm1 = (pm2, Some 4501) /\
  4500 < 4501.
Proof.
  intros pm pm1 pm2.
  assert (H1 : PortManager.GetPort pm = (pm1, Some 4500)) by reflexivity.
  assert (H2 : PortManager.GetPort pm1 = (pm2, Some 4501)) by reflexivity.
  split; [exact H1|]. split; [exact H2|].
  exact (GetPort_twice_increasing pm pm1 pm2 4500 4501 H1 H2).
Defined.

(** ** The correlator as a map *)

Section CorrelatorMapFacts.
Import Word GoTime LatencyTracker.

(** X7.  Round trip of the correlator.  A lookup of the sequence number
    that [RecordSent] has just stored finds the stored send time, whatever
    the map held under that number before, returns the time since then
    and removes the entry; unless the send time is already more than 3 s
    before the clock of the sweep, in which case the sweep of the same
    call has removed the entry and the lookup finds nothing. *)
Theorem RecordSent_then_GetLatency (tr : LatencyTracker.t) seq sendTime now now' :
  GetLatency (RecordSent tr seq sendTime now) seq now' =
  if now - 3 * Second <=? sendTime
  then (delete seq (RecordSent tr seq sendTime now), (Since now' sendTime, true))
  else (RecordSent tr seq sendTime now, (0, false)).
Proof.
  destruct (Z.leb_spec (now - 3 * Second) sendTime) as [Hle|Hlt].
  - apply GetLatency_found. apply RecordSent_lookup.
    rewrite decide_True by reflexivity. split; [reflexivity|exact Hle].
  - apply GetLatency_missing.
    destruct (RecordSent tr seq sendTime now !! seq) as [sent|] eqn:E;
      [|reflexivity].
    apply RecordSent_lookup in E. rewrite decide_True in E by reflexivity.
    destruct E as [-> E]. lia.
Qed.

(** X8.  The memory of the correlator is bounded by age: after a
    [RecordSent] no entry is older than 3 s at the clock of the sweep, and
    the entries of the other sequence numbers are exactly the earlier
    entries that are not older than that. *)
Theorem RecordSent_keeps_recent_entries (tr : LatencyTracker.t) seq sendTime now :
  (forall k sent,
     RecordSent tr seq sendTime now !! k = Some sent ->
     now - 3 * Second <= sent) /\
  (forall k, k <> seq ->
     RecordSent tr seq sendTime now !! k =
     match tr !! k with
     | Some sent => if now - 3 * Second <=? sent then Some sent else None
     | None => None
     end).
Proof.
  split.
  - intros k sent H. apply RecordSent_lookup in H. tauto.
  - intros k Hne. apply option_eq. intros sent. rewrite RecordSent_lookup.
    rewrite decide_False by exact Hne.
    destruct (tr !! k) as [sent'|].
    + destruct (Z.leb_spec (now - 3 * Second) sent') as [Hle|Hlt].
      * split; [intros [H _]; exact H|].
        intros [= ->]. split; [reflexivity|exact Hle].
      * split; [|discriminate]. intros [[= ->] H]. lia.
    + split; [intros [H _]; discriminate|discriminate].
Qed.

End CorrelatorMapFacts.

(** ** The sequence meter over a run of packets *)

Section SequenceRunFacts.
Import Word SequenceTracker.

Lemma wrap32_add_l a b : wrap32 (wrap32 a + b) = wrap32 (a + b).
Proof. unfold wrap32. rewrite Zplus_mod_idemp_l. reflexivity. Qed.

Lemma wrap32_range z : is_u32 (wrap32 z).
Proof. unfold is_u32, wrap32. apply Z.mod_pos_bound. lia. Qed.

(** One update: the inbound count goes up by one, the drop count by the
    returned value, and the outbound side is not touched. *)
Lemma TrackIncoming_step s seq :
  is_u32 (droppedCount s) ->
  incomingCount (TrackIncoming s seq).1 = wrap32 (incomingCount s + 1) /\
  droppedCount (TrackIncoming s seq).1 =
    wrap32 (droppedCount s + (TrackIncoming s seq).2) /\
  lastOutgoingSeq (TrackIncoming s seq).1 = lastOutgoingSeq s /\
  outgoingCount (TrackIncoming s seq).1 = outgoingCount s.
Proof.
  intros Hd. unfold TrackIncoming. cbv zeta.
  destruct (negb (lastIncomingSeq s =? 0)).
  - destruct (negb (seq =? wrap16 (lastIncomingSeq s + 1)));
      cbn [fst snd incomingCount droppedCount lastOutgoingSeq outgoingCount];
      repeat split; rewrite Z.add_0_r; symmetry; apply wrap32_id; exact Hd.
  - cbn [fst snd incomingCount droppedCount lastOutgoingSeq outgoingCount].
    repeat split. rewrite Z.add_0_r. symmetry. apply wrap32_id. exact Hd.
Qed.

(** X9.  The counters of the sequence meter over a run of inbound
    updates: the inbound count is the number of updates and the drop
    count is the sum of the values the updates returned, both added to
    the earlier counts modulo 2^32; one value is returned per update and
    the outbound side of the meter is not touched. *)
Theorem TrackIncoming_all_counters seqs : forall s,
  is_u32 (incomingCount s) -> is_u32 (droppedCount s) ->
  let r := TrackIncoming_all s seqs in
  incomingCount r.1 = wrap32 (incomingCount s + Z.of_nat (length seqs)) /\
  droppedCount r.1 = wrap32 (droppedCount s + foldr Z.add 0 r.2) /\
  length r.2 = length seqs /\
  lastOutgoingSeq r.1 = lastOutgoingSeq s /\
  outgoingCount r.1 = outgoingCount s.
Proof.
  induction seqs as [|seq seqs IH]; intros s Hi Hd; cbn [TrackIncoming_all].
  - cbn [fst snd length foldr]. rewrite !Z.add_0_r.
    rewrite !wrap32_id by assumption. repeat split.
  - destruct (TrackIncoming_step s seq Hd) as (H1 & H2 & H3 & H4).
    destruct (TrackIncoming s seq) as [s1 d]. cbn [fst snd] in H1, H2, H3, H4.
    assert (Hi1 : is_u32 (incomingCount s1)) by (rewrite H1; apply wrap32_range).
    assert (Hd1 : is_u32 (droppedCount s1)) by (rewrite H2; apply wrap32_range).
    specialize (IH s1 Hi1 Hd1). cbv zeta in IH.
    destruct (TrackIncoming_all s1 seqs) as [s2 ds]. cbn [fst snd] in IH |- *.
    destruct IH as (I1 & I2 & I3 & I4 & I5).
    cbn [length foldr]. rewrite Nat2Z.inj_succ.
    split; [rewrite I1, H1, wrap32_add_l; f_equal; lia|].
    split; [rewrite I2, H2, wrap32_add_l; f_equal; lia|].
    split; [lia|]. split; congruence.
Qed.

(** X10.  A stream that arrives in order reports no loss, also across the
    wrap of the sequence number from 65535 to 0 and whatever number it
    starts with: from a meter that has seen nothing yet (or whose next
    expected number is the first of the stream), every update returns 0
    and the drop count stays as it was. *)
Theorem TrackIncoming_in_order_no_gap n : forall s first,
  lastIncomingSeq s = 0 \/ wrap16 (lastIncomingSeq s + 1) = first ->
  let r := TrackIncoming_all s (in_order first n) in
  r.2 = repeat 0 n /\ droppedCount r.1 = droppedCount s.
Proof.
  induction n as [|n IH]; intros s first Hs; cbn [in_order TrackIncoming_all].
  - split; reflexivity.
  - assert (Hstep : TrackIncoming s first =
              (Build (lastOutgoingSeq s) first (outgoingCount s)
                 (wrap32 (incomingCount s + 1)) (droppedCount s), 0)).
    { unfold TrackIncoming. cbv zeta.
      destruct (Z.eqb_spec (lastIncomingSeq s) 0) as [H0|H0]; cbn [negb];
        [reflexivity|].
      destruct Hs as [Hs|Hs]; [contradiction|].
      rewrite Hs, Z.eqb_refl. reflexivity. }
    rewrite Hstep.
    specialize (IH (Build (lastOutgoingSeq s) first (outgoingCount s)
                      (wrap32 (incomingCount s + 1)) (droppedCount s))
                   (wrap16 (first + 1)) (or_intror eq_refl)).
    cbv zeta in IH. destruct (TrackIncoming_all _ (in_order _ n)) as [s2 ds].
    cbn [fst snd] in IH |- *. destruct IH as [-> ->].
    split; reflexivity.
Qed.

End SequenceRunFacts.

Lemma TrackIncoming_all_counters_witness :
  let r := SequenceTracker.TrackIncoming_all
             SequenceTracker.NewSequenceTracker [5; 8; 9] in
  Word.is_u32 0 /\
  SequenceTracker.incomingCount r.1 = 3 /\
  SequenceTracker.droppedCount r.1 = foldr Z.add 0 r.2.
Proof.
  assert (H0 : Word.is_u32 0) by (unfold Word.is_u32; lia).
  split; [exact H0|].
  destruct (TrackIncoming_all_counters [5; 8; 9]
              SequenceTracker.NewSequenceTracker H0 H0) as (H1 & H2 & _).
  split; [exact H1|exact H2].
Defined.

(** The theorem on the four packets 65534, 65535, 0, 1 of a new call. *)
Lemma TrackIncoming_in_order_no_gap_witness :
  let r := SequenceTracker.TrackIncoming_all
             SequenceTracker.NewSequenceTracker
             (SequenceTracker.in_order 65534 4) in
  SequenceTracker.in_order 65534 4 = [65534; 65535; 0; 1] /\
  r.2 = [0; 0; 0; 0] /\ SequenceTracker.droppedCount r.1 = 0.
Proof.
  split; [reflexivity|].
  exact (TrackIncoming_in_order_no_gap 4 SequenceTracker.NewSequenceTracker
           65534 (or_introl eq_refl)).
Defined.

(** ** The schedule of the pacer and the deadline of the lateness check *)

Section ScheduleFacts.
Import Word GoTime.

(** At 8 kHz a sample lasts 125 microseconds, and the product does not
    leave [int64] for a 32-bit number of samples. *)
Lemma samples_to_duration_8000 k :
  is_u32 k -> samples_to_duration k 8000 = k * 125000.
Proof.
  intros Hk. unfold samples_to_duration, Second.
  rewrite wrap64_id by (unfold is_i64, is_u32 in *; lia).
  replace (k * 1000000000) with (k * 125000 * 8000) by lia.
  apply Z.quot_mul. lia.
Qed.

(** The [uint32] difference to the base of a timestamp [k] samples after
    it. *)
Lemma timestamp_diff b k : is_u32 k -> wrap32 (wrap32 (b + k) - b) = k.
Proof.
  intros Hk. unfold wrap32. rewrite Zminus_mod_idemp_l.
  replace (b + k - b) with k by lia. apply Z.mod_small. exact Hk.
Qed.

(** X11.  The schedule of the pacer (the worker's and the echo server's,
    which is the same code) at 8 kHz, once its base is set: a packet whose
    timestamp is [k] samples after the base timestamp, counted modulo
    2^32, is due [k] times 125 microseconds after the base time; the
    returned delay is the time from the clock reading to that instant, 0
    when the instant has passed, never negative, and the pacer is left as
    it was. *)
Theorem CalculateDelay_schedule (p : PacketPacer.t) (k : Z) (now : Time) :
  PacketPacer.sampleRate p = 8000 ->
  PacketPacer.baseTimestamp p <> 0 ->
  is_u32 k ->
  PacketPacer.CalculateDelay p (wrap32 (PacketPacer.baseTimestamp p + k)) now =
  (p, Z.max 0 (Z.min maxDuration (PacketPacer.baseTime p + k * 125000 - now))).
Proof.
  intros Hrate Hbase Hk. unfold PacketPacer.CalculateDelay.
  apply Z.eqb_neq in Hbase. rewrite Hbase. cbv zeta.
  rewrite (timestamp_diff _ _ Hk), Hrate, (samples_to_duration_8000 _ Hk).
  unfold After, Add, Sub, maxDuration, minDuration.
  destruct (Z.ltb_spec now (PacketPacer.baseTime p + k * 125000));
    f_equal; lia.
Qed.

(** X12.  The deadline of the lateness check, once the base of the worker
    is set: a returned packet whose timestamp is [k] samples after the
    base timestamp, counted modulo 2^32, is late exactly when it was
    received more than 3 ms after the base time plus [k] times 125
    microseconds; the check changes nothing in the worker. *)
Theorem checkLatePacket_deadline (w : Worker.t) (seq k : Z)
    (receiveTime now : Time) :
  Worker.baseTimestamp w <> 0 ->
  is_u32 k ->
  let r := Worker.checkLatePacket w
             (Worker.BuildRtp seq (wrap32 (Worker.baseTimestamp w + k)))
             receiveTime now in
  r.1 = w /\
  (r.2 = true <-> Worker.baseTime w + k * 125000 + 3000000 < receiveTime).
Proof.
  intros Hbase Hk. unfold Worker.checkLatePacket.
  apply Z.eqb_neq in Hbase. rewrite Hbase. cbv zeta.
  cbn [Worker.Timestamp fst snd].
  rewrite (timestamp_diff _ _ Hk), (samples_to_duration_8000 _ Hk).
  split; [reflexivity|]. unfold After, Add, Millisecond. rewrite Z.ltb_lt. lia.
Qed.

End ScheduleFacts.

(** The theorems on a stream whose base is the timestamp 4294967200 at
    1 s: the packet 160 samples later (timestamp 64, after the wrap) is due
    at 1.02 s, so 15 ms after a reading of 1.005 s, and it is late when it
    returns at 1.024 s. *)
Lemma CalculateDelay_schedule_witness :
  let p := PacketPacer.Build 4294967200 1000000000 8000 in
  PacketPacer.sampleRate p = 8000 /\ PacketPacer.baseTimestamp p <> 0 /\
  Word.is_u32 160 /\
  PacketPacer.CalculateDelay p 64 1005000000 = (p, 15000000).
Proof.
  intros p.
  assert (H1 : PacketPacer.sampleRate p = 8000) by reflexivity.
  assert (H2 : PacketPacer.baseTimestamp p <> 0) by (cbn; lia).
  assert (H3 : Word.is_u32 160) by (unfold Word.is_u32; lia).
  split; [exact H1|]. split; [exact H2|]. split; [exact H3|].
  exact (CalculateDelay_schedule p 160 1005000000 H1 H2 H3).
Defined.

Lemma checkLatePacket_deadline_witness :
  let w := Worker.set_base (Worker.NewWorker "c1" 4500 "127.0.0.1" 4000)
             4294967200 1000000000 in
  Worker.baseTimestamp w <> 0 /\ Word.is_u32 160 /\
  (Worker.checkLatePacket w (Worker.BuildRtp 7 64) 1024000000 0).2 = true.
Proof.
  intros w.
  assert (H1 : Worker.baseTimestamp w <> 0) by (cbn; lia).
  assert (H2 : Word.is_u32 160) by (unfold Word.is_u32; lia).
  split; [exact H1|]. split; [exact H2|].
  apply (proj2 (checkLatePacket_deadline w 7 160 1024000000 0 H1 H2)).
  cbn. lia.
Defined.

(** ** The metrics store over a run of calls *)

Section MetricsRunFacts.
Import Word GoTime Metrics.

(** A recording call replaces the entry of its channel and no other. *)
Lemma apply_op_other m op id :
  op_channel op <> Some id ->
  channelMetrics (apply_op m op) !! id = channelMetrics m !! id.
Proof.
  intros Hne.
  destruct op as [c v now|c count now|c now|c now|c]; cbn [apply_op];
    try reflexivity;
    cbn [op_channel] in Hne;
    unfold RecordLatency, RecordDroppedPackets, RecordOutgoingPacket,
      RecordLatePacket, store; cbn [channelMetrics];
    apply lookup_insert_ne; congruence.
Qed.

(** The entry a recording call works on has the counters of the stored
    entry, and those of a new entry (no sample, all counts 0) when the
    channel has none. *)
Lemma LoadOrStore_count (f : ChannelMetrics -> Z) m id now :
  f (BuildChannel id now [] 0 0 0) = 0 ->
  f (LoadOrStore m id now) = count_in f m id.
Proof.
  intros H0. unfold LoadOrStore, count_in.
  destruct (channelMetrics m !! id); [reflexivity|exact H0].
Qed.

Lemma LoadOrStore_bounded m id now :
  bounded m -> Z.of_nat (length (Latencies (LoadOrStore m id now))) <= 10000.
Proof.
  intros Hb. unfold LoadOrStore.
  destruct (channelMetrics m !! id) as [c|] eqn:E; cbn.
  - exact (Hb _ _ E).
  - lia.
Qed.

(** The samples of a channel after one more sample: the new one is
    appended, and when that makes 10001 the oldest 1000 are dropped. *)
Lemma RecordLatency_Latencies m id v now :
  bounded m ->
  exists c',
    channelMetrics (RecordLatency m id v now) !! id = Some c' /\
    Latencies c' =
      (if Z.of_nat (length (Latencies (LoadOrStore m id now))) <? 10000
       then Latencies (LoadOrStore m id now)
       else drop 1000 (Latencies (LoadOrStore m id now))) ++ [v].
Proof.
  intros Hb. pose proof (LoadOrStore_bounded m id now Hb) as Hlen.
  unfold RecordLatency, store. cbn [channelMetrics].
  rewrite lookup_insert_eq. eexists. split; [reflexivity|].
  cbn [Latencies]. set (l := Latencies (LoadOrStore m id now)) in *.
  rewrite length_app. cbn [length].
  destruct (Z.ltb_spec (Z.of_nat (length l)) 10000) as [Hlt|Hge].
  - destruct (Z.ltb_spec 10000 (Z.of_nat (length l + 1))); [lia|reflexivity].
  - destruct (Z.ltb_spec 10000 (Z.of_nat (length l + 1))); [|lia].
    apply drop_app_le. lia.
Qed.

Lemma apply_op_bounded m op : bounded m -> bounded (apply_op m op).
Proof.
  intros Hb id c' Hc'.
  destruct (decide (op_channel op = Some id)) as [Heq|Hne].
  2:{ rewrite (apply_op_other _ _ _ Hne) in Hc'. exact (Hb _ _ Hc'). }
  destruct op as [c v now|c count now|c now|c now|c];
    cbn [op_channel] in Heq; try discriminate; injection Heq as ->;
    cbn [apply_op] in Hc'.
  - destruct (RecordLatency_Latencies m id v now Hb) as (c2 & H2 & HL).
    rewrite H2 in Hc'. injection Hc' as <-. rewrite HL, length_app.
    pose proof (LoadOrStore_bounded m id now Hb) as Hlen. cbn [length].
    destruct (Z.ltb_spec (Z.of_nat (length (Latencies (LoadOrStore m id now))))
                10000); [lia|].
    rewrite length_drop. lia.
  - unfold RecordDroppedPackets, store in Hc'. cbn [channelMetrics] in Hc'.
    rewrite lookup_insert_eq in Hc'. injection Hc' as <-. cbn [Latencies].
    apply LoadOrStore_bounded. exact Hb.
  - unfold RecordOutgoingPacket, store in Hc'. cbn [channelMetrics] in Hc'.
    rewrite lookup_insert_eq in Hc'. injection Hc' as <-. cbn [Latencies].
    apply LoadOrStore_bounded. exact Hb.
  - unfold RecordLatePacket, store in Hc'. cbn [channelMetrics] in Hc'.
    rewrite lookup_insert_eq in Hc'. injection Hc' as <-. cbn [Latencies].
    apply LoadOrStore_bounded. exact Hb.
Qed.

(** X13.  The sample buffer of a channel is bounded: when no channel of
    the store holds more than 10000 latency samples (as in a new store),
    no run of recording calls makes any channel hold more than 10000. *)
Theorem apply_ops_bounded ops : forall m,
  bounded m -> bounded (apply_ops m ops).
Proof.
  induction ops as [|op ops IH]; intros m Hb; [exact Hb|].
  apply (IH (apply_op m op)). apply apply_op_bounded. exact Hb.
Qed.

(** What a new latency sample does to the buffer of its channel:
    below 10000 samples it is appended; at 10000 samples the oldest 1000
    are dropped and it is appended to the 9000 that stay, in their
    order. *)
Lemma RecordLatency_evicts_oldest m id v now c :
  channelMetrics m !! id = Some c ->
  Z.of_nat (length (Latencies c)) <= 10000 ->
  exists c',
    channelMetrics (RecordLatency m id v now) !! id = Some c' /\
    Latencies c' =
      (if Z.of_nat (length (Latencies c)) <? 10000 then Latencies c
       else drop 1000 (Latencies c)) ++ [v] /\
    Z.of_nat (length (Latencies c')) <= 10000.
Proof.
  intros Hc Hlen. unfold RecordLatency, store, LoadOrStore. rewrite Hc.
  change (default (BuildChannel id now [] 0 0 0) (Some c)) with c.
  cbn [channelMetrics]. rewrite lookup_insert_eq.
  eexists. split; [reflexivity|]. cbn [Latencies].
  rewrite length_app. cbn [length].
  destruct (Z.ltb_spec (Z.of_nat (length (Latencies c))) 10000) as [Hlt|Hge].
  - destruct (Z.ltb_spec 10000 (Z.of_nat (length (Latencies c) + 1))); [lia|].
    split; [reflexivity|]. rewrite length_app. cbn [length]. lia.
  - destruct (Z.ltb_spec 10000 (Z.of_nat (length (Latencies c) + 1))); [|lia].
    rewrite drop_app_le by lia. split; [reflexivity|].
    rewrite length_app, length_drop. cbn [length]. lia.
Qed.

(** X14.  The channels of the store are independent: a run of calls none
    of which records for the channel [id] leaves the entry of [id] (or
    its absence) as it was. *)
Theorem apply_ops_other_channel ops : forall m id,
  Forall (λ op, op_channel op <> Some id) ops ->
  channelMetrics (apply_ops m ops) !! id = channelMetrics m !! id.
Proof.
  induction ops as [|op ops IH]; intros m id Hall; [reflexivity|].
  apply Forall_cons in Hall. destruct Hall as [Hop Hall].
  cbn [apply_ops fold_left]. fold (apply_ops (apply_op m op) ops).
  rewrite (IH _ _ Hall). apply apply_op_other. exact Hop.
Qed.

Lemma apply_op_totals m op :
  totalLatencies (apply_op m op) =
    (if is_latency op then wrap64 (totalLatencies m + 1) else totalLatencies m) /\
  totalChannels (apply_op m op) =
    (if is_started op then wrap64 (totalChannels m + 1) else totalChannels m).
Proof. destruct op; split; reflexivity. Qed.

(** The two global counters over a run of calls. *)
Lemma apply_ops_totals ops : forall m,
  is_i64 (totalLatencies m) -> is_i64 (totalChannels m) ->
  totalLatencies (apply_ops m ops) =
    wrap64 (totalLatencies m + Z.of_nat (length (List.filter is_latency ops))) /\
  totalChannels (apply_ops m ops) =
    wrap64 (totalChannels m + Z.of_nat (length (List.filter is_started ops))).
Proof.
  induction ops as [|op ops IH]; intros m HL HC.
  - cbn [apply_ops fold_left List.filter length]. rewrite !Z.add_0_r.
    rewrite !wrap64_id by assumption. split; reflexivity.
  - cbn [apply_ops fold_left]. fold (apply_ops (apply_op m op) ops).
    destruct (apply_op_totals m op) as [H1 H2].
    assert (HL' : is_i64 (totalLatencies (apply_op m op)))
      by (rewrite H1; destruct (is_latency op);
          [apply wrap64_range|exact HL]).
    assert (HC' : is_i64 (totalChannels (apply_op m op)))
      by (rewrite H2; destruct (is_started op);
          [apply wrap64_range|exact HC]).
    destruct (IH _ HL' HC') as [I1 I2]. rewrite I1, I2, H1, H2.
    cbn [List.filter].
    split.
    + destruct (is_latency op); [|reflexivity].
      cbn [length]. rewrite Nat2Z.inj_succ, wrap64_add_l. f_equal. lia.
    + destruct (is_started op); [|reflexivity].
      cbn [length]. rewrite Nat2Z.inj_succ, wrap64_add_l. f_equal. lia.
Qed.

Lemma no_count_for_other_channel op id :
  op_channel op <> Some id ->
  outgoing_of id op = 0 /\ late_of id op = 0 /\ dropped_of id op = 0.
Proof.
  intros Hne.
  destruct op as [c v now|c count now|c now|c now|c];
    cbn [op_channel outgoing_of late_of dropped_of] in *;
    try (repeat split; reflexivity);
    (destruct (String.eqb_spec c id) as [->|Hc];
     [congruence|repeat split; reflexivity]).
Qed.

Lemma apply_op_counts m op id :
  is_i64 (count_in OutgoingPackets m id) ->
  is_i64 (count_in LatePackets m id) ->
  is_i64 (count_in DroppedPackets m id) ->
  count_in OutgoingPackets (apply_op m op) id =
    wrap64 (count_in OutgoingPackets m id + outgoing_of id op) /\
  count_in LatePackets (apply_op m op) id =
    wrap64 (count_in LatePackets m id + late_of id op) /\
  count_in DroppedPackets (apply_op m op) id =
    wrap64 (count_in DroppedPackets m id + dropped_of id op).
Proof.
  intros HO HL HD.
  destruct (decide (op_channel op = Some id)) as [Heq|Hne].
  - destruct op as [c v now|c count now|c now|c now|c];
      cbn [op_channel] in Heq; try discriminate; injection Heq as ->;
      cbn [apply_op outgoing_of late_of dropped_of];
      rewrite ?String.eqb_refl, ?Z.add_0_r;
      rewrite <- !(LoadOrStore_count _ m id now) by reflexivity;
      unfold count_in at 1 2 3;
      unfold RecordLatency, RecordDroppedPackets, RecordOutgoingPacket,
        RecordLatePacket, store; cbn [channelMetrics];
      rewrite !lookup_insert_eq;
      cbn [from_option OutgoingPackets LatePackets DroppedPackets];
      rewrite !(LoadOrStore_count _ m id now) by reflexivity;
      repeat split;
      first [reflexivity | symmetry; apply wrap64_id; assumption].
  - destruct (no_count_for_other_channel op id Hne) as (-> & -> & ->).
    unfold count_in. rewrite (apply_op_other _ _ _ Hne). rewrite !Z.add_0_r.
    fold (count_in OutgoingPackets m id). fold (count_in LatePackets m id).
    fold (count_in DroppedPackets m id).
    rewrite !wrap64_id by assumption. repeat split; reflexivity.
Qed.

(** The counters of a channel over a run of calls. *)
Lemma apply_ops_channel_counters ops : forall m id,
  is_i64 (count_in OutgoingPackets m id) ->
  is_i64 (count_in LatePackets m id) ->
  is_i64 (count_in DroppedPackets m id) ->
  count_in OutgoingPackets (apply_ops m ops) id =
    wrap64 (count_in OutgoingPackets m id + total (outgoing_of id) ops) /\
  count_in LatePackets (apply_ops m ops) id =
    wrap64 (count_in LatePackets m id + total (late_of id) ops) /\
  count_in DroppedPackets (apply_ops m ops) id =
    wrap64 (count_in DroppedPackets m id + total (dropped_of id) ops).
Proof.
  induction ops as [|op ops IH]; intros m id HO HL HD.
  - unfold total. cbn [apply_ops fold_left fmap list_fmap foldr].
    rewrite !Z.add_0_r, !wrap64_id by assumption. repeat split; reflexivity.
  - cbn [apply_ops fold_left]. fold (apply_ops (apply_op m op) ops).
    destruct (apply_op_counts m op id HO HL HD) as (H1 & H2 & H3).
    assert (HO' : is_i64 (count_in OutgoingPackets (apply_op m op) id))
      by (rewrite H1; apply wrap64_range).
    assert (HL' : is_i64 (count_in LatePackets (apply_op m op) id))
      by (rewrite H2; apply wrap64_range).
    assert (HD' : is_i64 (count_in DroppedPackets (apply_op m op) id))
      by (rewrite H3; apply wrap64_range).
    destruct (IH _ id HO' HL' HD') as (I1 & I2 & I3).
    rewrite I1, I2, I3, H1, H2, H3. unfold total. rewrite !fmap_cons.
    cbn [foldr]. rewrite !wrap64_add_l.
    repeat split; f_equal; lia.
Qed.

(** X15.  The counters of the store over a run of calls, in [int64]
    arithmetic.  The total of latency samples goes up by the number of
    [RecordLatency] calls (the eviction of old samples does not lower it)
    and the total of channels by the number of [MarkChannelStarted] calls.
    For a channel, the outbound count goes up by the number of
    [RecordOutgoingPacket] calls for it, the late count by the number of
    [RecordLatePacket] calls for it, and the drop count by the sum of the
    counts that [RecordDroppedPackets] was called with for it; a channel
    without an entry counts as 0, and calls for other channels do not
    count. *)
Theorem apply_ops_counters ops m id :
  is_i64 (totalLatencies m) -> is_i64 (totalChannels m) ->
  is_i64 (count_in OutgoingPackets m id) ->
  is_i64 (count_in LatePackets m id) ->
  is_i64 (count_in DroppedPackets m id) ->
  totalLatencies (apply_ops m ops) =
    wrap64 (totalLatencies m + Z.of_nat (length (List.filter is_latency ops))) /\
  totalChannels (apply_ops m ops) =
    wrap64 (totalChannels m + Z.of_nat (length (List.filter is_started ops))) /\
  count_in OutgoingPackets (apply_ops m ops) id =
    wrap64 (count_in OutgoingPackets m id + total (outgoing_of id) ops) /\
  count_in LatePackets (apply_ops m ops) id =
    wrap64 (count_in LatePackets m id + total (late_of id) ops) /\
  count_in DroppedPackets (apply_ops m ops) id =
    wrap64 (count_in DroppedPackets m id + total (dropped_of id) ops).
Proof.
  intros HL HC HO HLa HD.
  destruct (apply_ops_totals ops m HL HC) as [H1 H2].
  destruct (apply_ops_channel_counters ops m id HO HLa HD) as (H3 & H4 & H5).
  auto.
Qed.

Lemma insert_sorted_Permutation x l :
  Permutation (Float64.insert_sorted x l) (x :: l).
Proof.
  induction l as [|y l IH]; cbn [Float64.insert_sorted]; [reflexivity|].
  destruct (Float64.less y x); [|reflexivity].
  rewrite IH. apply perm_swap.
Qed.

Lemma sort_Permutation l : Permutation (Float64.sort l) l.
Proof.
  induction l as [|x l IH]; [reflexivity|].
  unfold Float64.sort. cbn [fold_right]. fold (Float64.sort l).
  rewrite insert_sorted_Permutation, IH. reflexivity.
Qed.

(** When the store holds a latency sample, the maximum that the rollup
    reports is one of the samples the store holds. *)
Lemma GetGlobalStats_MaxLatency_is_sample m now :
  samples m <> [] ->
  In (MaxLatency (GetGlobalStats m now)) (samples m).
Proof.
  intros Hne. unfold GetGlobalStats. cbv zeta. rewrite collect_samples.
  destruct (samples m) as [|x l] eqn:E; [contradiction|].
  replace (0 <? length (x :: l))%nat with true
    by (symmetry; apply Nat.ltb_lt; cbn [length]; lia).
  cbn [MaxLatency].
  apply (Permutation_in _ (sort_Permutation (x :: l))).
  apply nth_In. rewrite (Permutation_length (sort_Permutation (x :: l))).
  cbn [length]. lia.
Qed.

End MetricsRunFacts.

Lemma NewMetrics_bounded : Metrics.bounded Metrics.NewMetrics.
Proof. intros id c H. discriminate. Qed.

Lemma apply_ops_bounded_witness :
  Metrics.bounded Metrics.NewMetrics /\
  Metrics.bounded
    (Metrics.apply_ops Metrics.NewMetrics
       [Metrics.OpLatency "c1" 4 0; Metrics.OpOutgoing "c2" 0;
        Metrics.OpLatency "c1" 5 0]).
Proof.
  split; [exact NewMetrics_bounded|].
  exact (apply_ops_bounded _ Metrics.NewMetrics NewMetrics_bounded).
Defined.

Lemma apply_ops_other_channel_witness :
  let ops := [Metrics.OpOutgoing "c2" 0; Metrics.OpStarted "c2";
              Metrics.OpLatency "c2" 4 0] in
  Forall (λ op, Metrics.op_channel op <> Some "c1") ops /\
  Metrics.channelMetrics
    (Metrics.apply_ops Scenario.counts_without_samples ops) !! "c1" =
  Metrics.channelMetrics Scenario.counts_without_samples !! "c1".
Proof.
  intros ops.
  assert (H : Forall (λ op, Metrics.op_channel op <> Some "c1") ops)
    by (repeat constructor; discriminate).
  split; [exact H|].
  exact (apply_ops_other_channel ops Scenario.counts_without_samples "c1" H).
Defined.

Lemma apply_ops_counters_witness :
  let ops := [Metrics.OpStarted "c1"; Metrics.OpOutgoing "c1" 0;
              Metrics.OpOutgoing "c2" 0; Metrics.OpOutgoing "c1" 0;
              Metrics.OpLatency "c1" 4 0; Metrics.OpDropped "c1" 3 0;
              Metrics.OpLate "c1" 0; Metrics.OpLatency "c1" 5 0] in
  let m := Metrics.apply_ops Metrics.NewMetrics ops in
  Word.is_i64 0 /\
  Metrics.totalLatencies m = 2 /\ Metrics.totalChannels m = 1 /\
  Metrics.count_in Metrics.OutgoingPackets m "c1" = 2 /\
  Metrics.count_in Metrics.LatePackets m "c1" = 1 /\
  Metrics.count_in Metrics.DroppedPackets m "c1" = 3.
Proof.
  intros ops m.
  assert (H0 : Word.is_i64 0) by (unfold Word.is_i64; lia).
  split; [exact H0|].
  exact (apply_ops_counters ops Metrics.NewMetrics "c1" H0 H0 H0 H0 H0).
Defined.

(** ** The begin and end handlers *)

Section BeginEndFacts.
Import GoTime Runtime ARIService.

Variable engine : list Effect -> Request -> Response.

(** X16.  The answer loop sends at most [maxRetries] answer requests and
    nothing but answer requests and sleeps of [retryDelay]; when it
    returns without error, the latest thing it did is an answer request
    that Asterisk granted. *)
Theorem answerChannelWithRetry_attempts channelID retryDelay maxRetries :
  forall s lastErr,
  let r := answerChannelWithRetry engine s channelID maxRetries retryDelay
             lastErr in
  exists new,
    trace r.1 = new ++ trace s /\
    Forall (λ e, e = Sent (AnswerChannel channelID) \/ e = Slept retryDelay) new /\
    (length (List.filter is_answer new) <= maxRetries)%nat /\
    (r.2 = None ->
     exists rest id,
       new = Sent (AnswerChannel channelID) :: rest /\
       engine (rest ++ trace s) (AnswerChannel channelID) = Success id).
Proof.
  induction maxRetries as [|n IH]; intros s lastErr; cbn [answerChannelWithRetry].
  - exists []. cbn [fst snd]. split; [reflexivity|]. split; [constructor|].
    split; [cbn; lia|discriminate].
  - unfold call. cbv zeta.
    destruct (engine (trace s) (AnswerChannel channelID)) as [id|err] eqn:He.
    + exists [Sent (AnswerChannel channelID)]. cbn [fst snd].
      split; [reflexivity|]. split; [repeat constructor|].
      split; [cbn; lia|]. intros _. exists [], id. split; [reflexivity|exact He].
    + destruct (Contains err "Channel not found").
      * specialize (IH (log_effect (log_effect s (Sent (AnswerChannel channelID)))
                          (Slept retryDelay)) err).
        cbv zeta in IH. destruct IH as (new & H1 & H2 & H3 & H4).
        exists (new ++ [Slept retryDelay; Sent (AnswerChannel channelID)]).
        split; [rewrite H1; cbn [trace log_effect]; rewrite <- app_assoc;
                reflexivity|].
        split.
        { apply Forall_app. split; [exact H2|].
          constructor; [right; reflexivity|].
          constructor; [left; reflexivity|constructor]. }
        split.
        { rewrite List.filter_app, length_app. cbn [List.filter is_answer length].
          lia. }
        intros Hnone. destruct (H4 Hnone) as (rest & id & -> & Hid).
        exists (rest ++ [Slept retryDelay; Sent (AnswerChannel channelID)]), id.
        split; [reflexivity|]. rewrite <- app_assoc. exact Hid.
      * exists [Sent (AnswerChannel channelID)]. cbn [fst snd].
        split; [reflexivity|]. split; [repeat constructor|].
        split; [cbn; lia|discriminate].
Qed.

(** X17.  When Asterisk answers every answer request for the channel with
    a [Channel not found] error, the answer loop makes exactly
    [maxRetries] attempts, sleeps [retryDelay] after each of them (also
    after the last one) and returns the retries-exhausted error. *)
Theorem answerChannelWithRetry_gives_up channelID retryDelay maxRetries :
  (forall tr, exists err,
     engine tr (AnswerChannel channelID) = Failure err /\
     Contains err "Channel not found" = true) ->
  forall s lastErr,
  let r := answerChannelWithRetry engine s channelID maxRetries retryDelay
             lastErr in
  (exists err, r.2 = Some (ErrAnswerRetries err)) /\
  trace r.1 =
    mjoin (replicate maxRetries
             [Slept retryDelay; Sent (AnswerChannel channelID)]) ++ trace s.
Proof.
  intros Hnf.
  induction maxRetries as [|n IH]; intros s lastErr; cbn [answerChannelWithRetry].
  - split; [eauto|reflexivity].
  - unfold call. cbv zeta. destruct (Hnf (trace s)) as (err & -> & ->).
    specialize (IH (log_effect (log_effect s (Sent (AnswerChannel channelID)))
                      (Slept retryDelay)) err).
    cbv zeta in IH. destruct IH as [H1 H2]. split; [exact H1|].
    rewrite H2. cbn [trace log_effect].
    replace (S n) with (n + 1)%nat by lia. rewrite replicate_add, join_app.
    rewrite <- app_assoc. reflexivity.
Qed.

(** X18.  A call that could not be answered is not set up: when the
    answer loop of the begin handler fails, the handler returns that
    error; it has sent nothing but answer requests, and the port pool, the
    active map and the metrics are as before. *)
Theorem handleStasisStart_unanswered s channelID now listen_ok err :
  (answerChannelWithRetry engine s channelID 3 (100 * Millisecond) "").2
    = Some err ->
  let r := handleStasisStart engine s channelID now listen_ok in
  r.2 = Some err /\
  portManager r.1 = portManager s /\ channels r.1 = channels s /\
  metrics r.1 = metrics s /\
  exists new, trace r.1 = new ++ trace s /\
              Forall (answer_effect channelID) new.
Proof.
  intros Herr. unfold handleStasisStart.
  pose proof (answerChannelWithRetry_fields engine channelID
                (100 * Millisecond) 3 s "") as Ha.
  cbv zeta in Ha.
  destruct (answerChannelWithRetry engine s channelID 3 (100 * Millisecond) "")
    as [s1 [err'|]]; cbn [fst snd] in Ha, Herr |- *; [|discriminate].
  injection Herr as ->. destruct Ha as (_ & H2 & H3 & H4 & H5).
  split; [reflexivity|]. auto.
Qed.

(** What [createChannel] returns is decided by the pool, the echo port of
    the configuration and the four replies of Asterisk. *)
Lemma createChannel_cases s channelID now listen_ok :
  let r := createChannel engine s channelID now listen_ok in
  (exists err new,
     r.2 = Some err /\ config r.1 = config s /\
     channels r.1 = channels s /\ metrics r.1 = metrics s /\
     trace r.1 = new ++ trace s /\ Forall (λ e, is_request e = true) new)
  \/
  (exists pm port echoPort bridge media,
     PortManager.GetPort (portManager s) = (pm, Some port) /\
     EchoPort (config s) = Some echoPort /\
     r = (Build (config s) pm
            (<[channelID :=
                 let w := Worker.Start
                            (Worker.NewWorker channelID port
                               (EchoHost (config s)) echoPort) listen_ok in
                 BuildHandler channelID media bridge port w now
                   (Some (BuildClosure w port media bridge))]> (channels s))
            (Metrics.MarkChannelStarted (metrics s) channelID)
            ([WorkerStarted channelID;
              Sent (AddChannelToBridge bridge media);
              Sent (AddChannelToBridge bridge channelID);
              Sent (CreateExternalMedia (BindIP (config s)) port
                      ("external-media-" +:+ channelID));
              Sent CreateBridge] ++ trace s),
          None)).
Proof.
  unfold createChannel.
  destruct (PortManager.GetPort (portManager s)) as [pm [port|]] eqn:Hget.
  2:{ left. exists ErrGetPort, []. cbn. repeat split; constructor. }
  destruct (EchoPort (config s)) as [echoPort|] eqn:Hecho.
  2:{ left. exists ErrEchoPort, []. cbn. repeat split; constructor. }
  unfold call. cbv zeta. cbn [trace set_portManager log_effect].
  destruct (engine _ CreateBridge) as [bridge|e1].
  2:{ left. exists (ErrCreateBridge e1), [Sent CreateBridge]. cbn.
      repeat split; repeat constructor. }
  destruct (engine _ (CreateExternalMedia _ _ _)) as [media|e2].
  2:{ left. eexists _, [_; _]. cbn. repeat split; repeat constructor. }
  destruct (engine _ (AddChannelToBridge bridge channelID)) as [x|e3].
  2:{ left. eexists _, [_; _; _]. cbn. repeat split; repeat constructor. }
  destruct (engine _ (AddChannelToBridge bridge media)) as [y|e4].
  2:{ left. eexists _, [_; _; _; _]. cbn. repeat split; repeat constructor. }
  right. exists pm, port, echoPort, bridge, media.
  split; [reflexivity|]. split; [reflexivity|]. reflexivity.
Qed.

(** X19.  What a successful [createChannel] has done: it took the port
    that [GetPort] hands out, sent the four requests (bridge, external
    media on that port, and the two attachments to the bridge) and nothing
    else, started a worker for the channel on that port towards the echo
    address of the configuration, stored under the channel id a handler
    with the ids Asterisk returned and a cleanup closure over them, and
    counted one started channel. *)
Theorem createChannel_success s channelID now listen_ok s1 :
  createChannel engine s channelID now listen_ok = (s1, None) ->
  exists port echoPort bridge media h,
    PortManager.GetPort (portManager s) = (portManager s1, Some port) /\
    EchoPort (config s) = Some echoPort /\
    channels s1 = <[channelID := h]> (channels s) /\
    ARIService.channelID h = channelID /\ rtpPort h = port /\
    bridgeID h = bridge /\ externalMediaID h = media /\ startTime h = now /\
    worker h =
      Worker.Start
        (Worker.NewWorker channelID port (EchoHost (config s)) echoPort)
        listen_ok /\
    cleanup h = Some (BuildClosure (worker h) port media bridge) /\
    metrics s1 = Metrics.MarkChannelStarted (metrics s) channelID /\
    config s1 = config s /\
    trace s1 =
      [WorkerStarted channelID;
       Sent (AddChannelToBridge bridge media);
       Sent (AddChannelToBridge bridge channelID);
       Sent (CreateExternalMedia (BindIP (config s)) port
               ("external-media-" +:+ channelID));
       Sent CreateBridge] ++ trace s.
Proof.
  intros Hr.
  destruct (createChannel_cases s channelID now listen_ok)
    as [(err & new & Herr & _) | (pm & port & echoPort & bridge & media &
                                  Hget & Hecho & Hs1)].
  - rewrite Hr in Herr. discriminate.
  - rewrite Hr in Hs1. injection Hs1 as ->.
    exists port, echoPort, bridge, media. eexists.
    cbn [portManager channels metrics config trace].
    split; [exact Hget|]. split; [exact Hecho|]. split; [reflexivity|].
    cbv zeta. cbn [ARIService.channelID rtpPort bridgeID externalMediaID
      startTime worker cleanup]. repeat split; reflexivity.
Qed.

(** X20.  A failed [createChannel] holds nothing in the service: it has
    only sent requests (no worker was started), and the configuration,
    the port pool, the active map and the metrics are as before the
    call; in particular only a successful call counts a started
    channel. *)
Theorem createChannel_failure_holds_nothing s channelID now listen_ok err :
  PortManager.wf (portManager s) ->
  (createChannel engine s channelID now listen_ok).2 = Some err ->
  let r := createChannel engine s channelID now listen_ok in
  config r.1 = config s /\ portManager r.1 = portManager s /\
  channels r.1 = channels s /\ metrics r.1 = metrics s /\
  exists new, trace r.1 = new ++ trace s /\
              Forall (λ e, is_request e = true) new.
Proof.
  intros Hwf Herr r.
  pose proof (createChannel_error_releases_port engine s channelID now
                listen_ok err Hwf Herr) as Hpm.
  destruct (createChannel_cases s channelID now listen_ok)
    as [(err' & new & _ & H1 & H2 & H3 & H4 & H5) | (pm & port & echoPort &
          bridge & media & _ & _ & Hs1)].
  - subst r. split; [exact H1|]. split; [exact Hpm|]. split; [exact H2|].
    split; [exact H3|]. exists new. split; [exact H4|exact H5].
  - rewrite Hs1 in Herr. discriminate.
Qed.

Lemma cleanupChannel_untracked s channelID :
  channels s !! channelID = None ->
  cleanupChannel engine s channelID = Returned s.
Proof.
  intros H. unfold cleanupChannel, LoadAndDelete. rewrite H.
  unfold set_channels. rewrite (delete_id _ _ H). destruct s; reflexivity.
Qed.

(** X21.  An end event for a channel that the active map does not hold
    does nothing: the service is left exactly as it was and nothing is
    sent. *)
Theorem cleanupChannel_unknown s channelID :
  channels s !! channelID = None ->
  cleanupChannel engine s channelID = Returned s.
Proof. apply cleanupChannel_untracked. Qed.

(** The cleanup closure of a worker that has not been stopped, in full:
    its result does not depend on what Asterisk replies. *)
Lemma run_cleanup_result c s :
  Worker.stopChan (c_worker c) = ChanOpen ->
  run_cleanup engine c s =
  Returned
    (Build (config s)
       (PortManager.ReleasePort (portManager s) (c_rtpPort c))
       (channels s) (metrics s)
       (teardown_requests (c_externalMediaID c) (c_bridgeID c) ++
        WorkerStopped (Worker.channelID (c_worker c)) :: trace s)).
Proof.
  intros Hopen. unfold run_cleanup, Worker.Stop, teardown_requests.
  rewrite Hopen. cbn [close].
  destruct (String.eqb (c_externalMediaID c) "");
    destruct (String.eqb (c_bridgeID c) ""); reflexivity.
Qed.

Lemma cleanupChannel_tracked s channelID h c :
  channels s !! channelID = Some h ->
  cleanup h = Some c ->
  Worker.stopChan (c_worker c) = ChanOpen ->
  cleanupChannel engine s channelID =
  Returned
    (Build (config s)
       (PortManager.ReleasePort (portManager s) (c_rtpPort c))
       (delete channelID (channels s)) (metrics s)
       (teardown_requests (c_externalMediaID c) (c_bridgeID c) ++
        WorkerStopped (Worker.channelID (c_worker c)) :: trace s)).
Proof.
  intros Hh Hc Hopen. unfold cleanupChannel, LoadAndDelete.
  rewrite Hh, Hc. rewrite (run_cleanup_result _ _ Hopen). reflexivity.
Qed.

(** X22.  The end handler for a tracked channel whose worker is running:
    the handler leaves the active map, the worker is stopped, the port of
    the handler is released, and the external media channel is hung up
    and then the bridge deleted (each when its id is not empty).  The
    replies of Asterisk to the two requests are ignored, and the metrics
    are not touched. *)
Theorem cleanupChannel_tears_down s channelID h c :
  channels s !! channelID = Some h ->
  cleanup h = Some c ->
  Worker.stopChan (c_worker c) = ChanOpen ->
  cleanupChannel engine s channelID =
  Returned
    (Build (config s)
       (PortManager.ReleasePort (portManager s) (c_rtpPort c))
       (delete channelID (channels s)) (metrics s)
       (teardown_requests (c_externalMediaID c) (c_bridgeID c) ++
        WorkerStopped (Worker.channelID (c_worker c)) :: trace s)).
Proof. apply cleanupChannel_tracked. Qed.

Lemma Start_stopChan w listen_ok :
  Worker.stopChan (Worker.Start w listen_ok) = Worker.stopChan w /\
  Worker.channelID (Worker.Start w listen_ok) = Worker.channelID w.
Proof. destruct listen_ok; split; reflexivity. Qed.

(** A successful [createChannel] followed by the end handler of the
    channel. *)
Lemma begin_then_end s channelID now listen_ok s1 :
  PortManager.wf (portManager s) ->
  createChannel engine s channelID now listen_ok = (s1, None) ->
  exists s2,
    cleanupChannel engine s1 channelID = Returned s2 /\
    portManager s2 = portManager s /\
    channels s2 = delete channelID (channels s) /\
    metrics s2 = metrics s1 /\
    stops channelID (trace s2) = S (stops channelID (trace s1)).
Proof.
  intros Hwf Hr.
  destruct (createChannel_cases s channelID now listen_ok)
    as [(err & new & Herr & _) | (pm & port & echoPort & bridge & media &
                                  Hget & Hecho & Hs1)].
  { rewrite Hr in Herr. discriminate. }
  rewrite Hr in Hs1. injection Hs1 as ->. cbv zeta.
  set (w := Worker.Start _ listen_ok).
  set (h := BuildHandler channelID media bridge port w now
              (Some (BuildClosure w port media bridge))).
  assert (Hopen : Worker.stopChan w = ChanOpen)
    by (subst w; rewrite (proj1 (Start_stopChan _ _)); reflexivity).
  assert (Hid : Worker.channelID w = channelID)
    by (subst w; rewrite (proj2 (Start_stopChan _ _)); reflexivity).
  eexists. split.
  { apply (cleanupChannel_tracked _ channelID h
             (BuildClosure w port media bridge)).
    - cbn [channels]. apply lookup_insert_eq.
    - reflexivity.
    - exact Hopen. }
  cbn [portManager channels metrics trace c_rtpPort c_worker
       c_externalMediaID c_bridgeID].
  split; [exact (ReleasePort_GetPort _ _ _ Hwf Hget)|].
  split; [apply delete_insert_eq|]. split; [reflexivity|].
  rewrite Hid. unfold stops, teardown_requests.
  rewrite !List.filter_app. cbn [List.filter is_stop].
  rewrite String.eqb_refl.
  destruct (String.eqb bridge ""), (String.eqb media "");
    cbn [List.filter is_stop app length]; reflexivity.
Qed.


(** X23.  Round trip of a call: after a successful [createChannel], the
    end handler of the channel returns, stops the worker of the channel
    once, gives the port pool back exactly as it was before the call
    began, and leaves no handler for the channel in the active map. *)
Theorem begin_then_end_restores s channelID now listen_ok s1 :
  PortManager.wf (portManager s) ->
  createChannel engine s channelID now listen_ok = (s1, None) ->
  exists s2,
    cleanupChannel engine s1 channelID = Returned s2 /\
    portManager s2 = portManager s /\
    channels s2 = delete channelID (channels s) /\
    metrics s2 = metrics s1 /\
    stops channelID (trace s2) = S (stops channelID (trace s1)).
Proof. apply begin_then_end. Qed.

(** X24.  A second begin for a channel that is already tracked replaces
    its handler without running the cleanup of the old one: after the
    second [createChannel] and the end handler of the channel, the active
    map holds no handler for the channel, one worker was stopped, and
    the port of the replaced handler is still allocated. *)
Theorem begin_twice_keeps_first_port s channelID now listen_ok s1 h0 :
  PortManager.wf (portManager s) ->
  channels s !! channelID = Some h0 ->
  PortManager.allocated (portManager s) (rtpPort h0) = true ->
  createChannel engine s channelID now listen_ok = (s1, None) ->
  exists h s2,
    channels s1 !! channelID = Some h /\ rtpPort h <> rtpPort h0 /\
    cleanupChannel engine s1 channelID = Returned s2 /\
    channels s2 !! channelID = None /\
    stops channelID (trace s2) = S (stops channelID (trace s)) /\
    PortManager.allocated (portManager s2) (rtpPort h0) = true.
Proof.
  intros Hwf Hh0 Halloc Hr.
  destruct (begin_then_end s channelID now listen_ok s1 Hwf Hr)
    as (s2 & Hend & Hpm & Hch & _ & Hstops).
  destruct (createChannel_cases s channelID now listen_ok)
    as [(err & new & Herr & _) | (pm & port & echoPort & bridge & media &
                                  Hget & Hecho & Hs1)].
  { rewrite Hr in Herr. discriminate. }
  rewrite Hr in Hs1. injection Hs1 as Hs1.
  destruct (GetPort_Some_spec _ _ _ Hwf Hget) as (_ & Hfree & _).
  eexists _, s2. split.
  { rewrite Hs1. cbn [channels]. apply lookup_insert_eq. }
  cbv zeta. cbn [rtpPort].
  split; [intros ->; rewrite Hfree in Halloc; discriminate|].
  split; [exact Hend|]. split; [rewrite Hch; apply lookup_delete_eq|].
  split; [|rewrite Hpm; exact Halloc].
  rewrite Hstops, Hs1. unfold stops. cbn [trace app List.filter is_stop].
  reflexivity.
Qed.

End BeginEndFacts.

(** ** The zombie scrub *)

Section ZombieFacts.
Import GoTime Runtime ARIService.

Variable engine : list Effect -> Request -> Response.

(** The reply of Asterisk to the lookup of a channel does not depend on
    what the service did before. *)
Hypothesis lookup_stable : forall tr tr' channelID,
  engine tr (GetChannel channelID) = engine tr' (GetChannel channelID).

Lemma wf_channels_delete s s' channelID :
  wf_channels s -> channels s' = delete channelID (channels s) ->
  wf_channels s'.
Proof.
  intros Hwf Hch id h. rewrite Hch, lookup_delete_Some.
  intros [_ H]. exact (Hwf _ _ H).
Qed.

(** One visit of the scrub: the handler of a channel that is gone is
    removed, every other handler stays. *)
Lemma scrub_one_channels s channelID :
  wf_channels s ->
  exists s1,
    scrub_one engine s channelID = Returned s1 /\
    metrics s1 = metrics s /\
    channels s1 =
      if gone (engine [] (GetChannel channelID))
      then delete channelID (channels s) else channels s.
Proof.
  intros Hwf. unfold scrub_one, call. cbv zeta.
  rewrite (lookup_stable (trace s) [] channelID). unfold gone.
  destruct (engine [] (GetChannel channelID)) as [id|err].
  { eexists. split; [reflexivity|]. split; reflexivity. }
  destruct (is_not_found err).
  2:{ eexists. split; [reflexivity|]. split; reflexivity. }
  set (s0 := log_effect s (Sent (GetChannel channelID))).
  destruct (channels s !! channelID) as [h|] eqn:Hh.
  - destruct (Hwf _ _ Hh) as (c & Hc & _ & Hopen).
    rewrite (cleanupChannel_tracked engine s0 channelID h c Hh Hc Hopen).
    eexists. split; [reflexivity|]. split; reflexivity.
  - rewrite (cleanupChannel_untracked engine s0 channelID Hh).
    eexists. split; [reflexivity|]. split; [reflexivity|].
    cbn [channels log_effect s0]. symmetry. apply delete_id. exact Hh.
Qed.

Lemma scrub_all_channels ids : forall s,
  wf_channels s -> NoDup ids ->
  exists s1,
    scrub_all engine s ids = Returned s1 /\
    metrics s1 = metrics s /\
    forall channelID,
      channels s1 !! channelID =
      if bool_decide (channelID ∈ ids) && gone (engine [] (GetChannel channelID))
      then None else channels s !! channelID.
Proof.
  induction ids as [|id0 ids IH]; intros s Hwf Hnd; cbn [scrub_all].
  - exists s. split; [reflexivity|]. split; [reflexivity|].
    intros channelID. rewrite bool_decide_eq_false_2 by set_solver.
    reflexivity.
  - apply NoDup_cons in Hnd. destruct Hnd as [Hnotin Hnd].
    destruct (scrub_one_channels s id0 Hwf) as (s1 & -> & Hm1 & Hch1).
    assert (Hwf1 : wf_channels s1).
    { destruct (gone (engine [] (GetChannel id0))).
      - exact (wf_channels_delete s s1 id0 Hwf Hch1).
      - intros id h. rewrite Hch1. apply Hwf. }
    destruct (IH s1 Hwf1 Hnd) as (s2 & Hrun & Hm2 & Hch2).
    exists s2. split; [exact Hrun|]. split; [congruence|].
    intros channelID. rewrite Hch2, Hch1.
    destruct (decide (channelID = id0)) as [->|Hne].
    + rewrite (bool_decide_eq_false_2 (id0 ∈ ids)) by exact Hnotin.
      rewrite (bool_decide_eq_true_2 (id0 ∈ id0 :: ids)) by set_solver.
      cbn [andb]. destruct (gone (engine [] (GetChannel id0)));
        [apply lookup_delete_eq|reflexivity].
    + assert (Hiff : bool_decide (channelID ∈ id0 :: ids)
                     = bool_decide (channelID ∈ ids))
        by (apply bool_decide_ext; set_solver).
      rewrite Hiff.
      destruct (bool_decide (channelID ∈ ids) &&
                gone (engine [] (GetChannel channelID))); [reflexivity|].
      destruct (gone (engine [] (GetChannel id0)));
        [apply lookup_delete_ne; congruence|reflexivity].
Qed.

(** X25.  The zombie scrub, when every tracked handler has its cleanup
    closure and a running worker and the replies of Asterisk to the
    channel lookups do not depend on the earlier requests: the scrub
    returns, and the active map then holds exactly the handlers of the
    channels whose lookup did not fail with a not-found error (a
    successful lookup and any other error keep the handler); the metrics
    are not touched. *)
Theorem cleanupZombieChannels_removes_gone s :
  wf_channels s ->
  exists s1,
    cleanupZombieChannels engine s = Returned s1 /\
    metrics s1 = metrics s /\
    channels s1 =
      filter (λ kv, gone (engine [] (GetChannel kv.1)) = false) (channels s).
Proof.
  intros Hwf. unfold cleanupZombieChannels.
  destruct (scrub_all_channels (map_to_list (channels s)).*1 s Hwf
              (NoDup_fst_map_to_list _)) as (s1 & Hrun & Hm & Hch).
  exists s1. split; [exact Hrun|]. split; [exact Hm|].
  apply map_eq. intros id. rewrite Hch.
  destruct (channels s !! id) as [h|] eqn:Hh.
  - assert (Hin : id ∈ (map_to_list (channels s)).*1).
    { apply list_elem_of_fmap. exists (id, h). split; [reflexivity|].
      apply elem_of_map_to_list. exact Hh. }
    rewrite (bool_decide_eq_true_2 _ Hin). cbn [andb].
    destruct (gone (engine [] (GetChannel id))) eqn:Hg; symmetry.
    + apply map_lookup_filter_None. right. intros h' _. cbn [fst].
      rewrite Hg. discriminate.
    + apply map_lookup_filter_Some. split; [exact Hh|exact Hg].
  - destruct (_ && _); symmetry; apply map_lookup_filter_None; left; exact Hh.
Qed.

End ZombieFacts.

(** The theorems of the begin and end handlers on the services of
    [Scenario]. *)
Lemma answerChannelWithRetry_gives_up_witness :
  let r := ARIService.answerChannelWithRetry Scenario.engine_not_found
             Scenario.service0 "ch1" 3 (100 * GoTime.Millisecond) "" in
  (forall tr, exists err,
     Scenario.engine_not_found tr (ARIService.AnswerChannel "ch1")
       = ARIService.Failure err /\
     ARIService.Contains err "Channel not found" = true) /\
  (exists err, r.2 = Some (ARIService.ErrAnswerRetries err)) /\
  length (ARIService.trace r.1) = 6%nat.
Proof.
  assert (H : forall tr, exists err,
            Scenario.engine_not_found tr (ARIService.AnswerChannel "ch1")
              = ARIService.Failure err /\
            ARIService.Contains err "Channel not found" = true)
    by (intros tr; eexists; split; reflexivity).
  split; [exact H|].
  destruct (answerChannelWithRetry_gives_up Scenario.engine_not_found "ch1"
              (100 * GoTime.Millisecond) 3 H Scenario.service0 "")
    as [H1 H2].
  split; [exact H1|]. cbv zeta. rewrite H2. reflexivity.
Defined.

Lemma handleStasisStart_unanswered_witness :
  let err := ARIService.ErrAnswerRetries
               "ARI API error: 404 - Channel not found" in
  let r := ARIService.handleStasisStart Scenario.engine_not_found
             Scenario.service0 "ch1" 0 true in
  (ARIService.answerChannelWithRetry Scenario.engine_not_found
     Scenario.service0 "ch1" 3 (100 * GoTime.Millisecond) "").2 = Some err /\
  r.2 = Some err /\
  ARIService.portManager r.1 = ARIService.portManager Scenario.service0 /\
  ARIService.channels r.1 = ARIService.channels Scenario.service0.
Proof.
  intros err r.
  assert (H : (ARIService.answerChannelWithRetry Scenario.engine_not_found
                 Scenario.service0 "ch1" 3 (100 * GoTime.Millisecond) "").2
              = Some err) by reflexivity.
  split; [exact H|].
  destruct (handleStasisStart_unanswered Scenario.engine_not_found
              Scenario.service0 "ch1" 0 true err H) as (H1 & H2 & H3 & _).
  split; [exact H1|]. split; [exact H2|exact H3].
Defined.

Lemma createChannel_service1 :
  ARIService.createChannel Scenario.engine_ok Scenario.service0 "ch1" 0 true
  = (Scenario.service1, None).
Proof. reflexivity. Qed.

Lemma createChannel_success_witness :
  ARIService.createChannel Scenario.engine_ok Scenario.service0 "ch1" 0 true
    = (Scenario.service1, None) /\
  exists h,
    ARIService.channels Scenario.service1 =
      <["ch1" := h]> (ARIService.channels Scenario.service0) /\
    ARIService.channelID h = "ch1" /\ ARIService.startTime h = 0.
Proof.
  split; [exact createChannel_service1|].
  destruct (createChannel_success Scenario.engine_ok Scenario.service0 "ch1" 0
              true Scenario.service1 createChannel_service1)
    as (port & echoPort & bridge & media & h & _ & _ & Hch & Hid & _ & _ & _ &
        Hstart & _).
  exists h. split; [exact Hch|]. split; [exact Hid|exact Hstart].
Defined.

Lemma createChannel_failure_holds_nothing_witness :
  let r := ARIService.createChannel Scenario.engine_no_media
             Scenario.service0 "ch1" 0 true in
  PortManager.wf (ARIService.portManager Scenario.service0) /\
  r.2 = Some (ARIService.ErrCreateExternalMedia "ARI API error: 500 - ") /\
  ARIService.portManager r.1 = ARIService.portManager Scenario.service0 /\
  ARIService.channels r.1 = ARIService.channels Scenario.service0 /\
  ARIService.metrics r.1 = ARIService.metrics Scenario.service0.
Proof.
  intros r.
  assert (H1 : PortManager.wf (ARIService.portManager Scenario.service0))
    by reflexivity.
  assert (H2 : r.2 = Some (ARIService.ErrCreateExternalMedia
                             "ARI API error: 500 - ")) by reflexivity.
  split; [exact H1|]. split; [exact H2|].
  destruct (createChannel_failure_holds_nothing Scenario.engine_no_media
              Scenario.service0 "ch1" 0 true _ H1 H2) as (_ & H3 & H4 & H5 & _).
  split; [exact H3|]. split; [exact H4|exact H5].
Defined.

Lemma cleanupChannel_unknown_witness :
  ARIService.channels Scenario.service3 !! "ch9" = None /\
  ARIService.cleanupChannel Scenario.engine_ok Scenario.service3 "ch9"
    = Runtime.Returned Scenario.service3.
Proof.
  assert (H : ARIService.channels Scenario.service3 !! "ch9" = None)
    by reflexivity.
  split; [exact H|].
  exact (cleanupChannel_unknown Scenario.engine_ok Scenario.service3 "ch9" H).
Defined.

Lemma service1_handler :
  ARIService.channels Scenario.service1 !! "ch1" = Some Scenario.handler1.
Proof. reflexivity. Qed.

Lemma cleanupChannel_tears_down_witness :
  let w := Worker.Start (Worker.NewWorker "ch1" 4500 "127.0.0.1" 4000) true in
  let c := ARIService.BuildClosure w 4500 "external-media-ch1" "bridge-1" in
  ARIService.channels Scenario.service1 !! "ch1" = Some Scenario.handler1 /\
  ARIService.cleanup Scenario.handler1 = Some c /\
  Worker.stopChan (ARIService.c_worker c) = Runtime.ChanOpen /\
  exists s2,
    ARIService.cleanupChannel Scenario.engine_no_media Scenario.service1 "ch1"
      = Runtime.Returned s2 /\
    ARIService.trace s2 =
      [ARIService.Sent (ARIService.DeleteBridge "bridge-1");
       ARIService.Sent (ARIService.HangupChannel "external-media-ch1");
       ARIService.WorkerStopped "ch1"] ++ ARIService.trace Scenario.service1 /\
    PortManager.used (ARIService.portManager s2) = 0%nat.
Proof.
  intros w c.
  assert (H2 : ARIService.cleanup Scenario.handler1 = Some c) by reflexivity.
  assert (H3 : Worker.stopChan (ARIService.c_worker c) = Runtime.ChanOpen)
    by reflexivity.
  split; [exact service1_handler|]. split; [exact H2|]. split; [exact H3|].
  eexists. split.
  - exact (cleanupChannel_tears_down Scenario.engine_no_media Scenario.service1
             "ch1" Scenario.handler1 c service1_handler H2 H3).
  - split; reflexivity.
Defined.

Lemma begin_then_end_restores_witness :
  PortManager.wf (ARIService.portManager Scenario.service0) /\
  ARIService.createChannel Scenario.engine_ok Scenario.service0 "ch1" 0 true
    = (Scenario.service1, None) /\
  exists s2,
    ARIService.cleanupChannel Scenario.engine_ok Scenario.service1 "ch1"
      = Runtime.Returned s2 /\
    ARIService.portManager s2 = ARIService.portManager Scenario.service0 /\
    ARIService.channels s2 = ARIService.channels Scenario.service0.
Proof.
  assert (H1 : PortManager.wf (ARIService.portManager Scenario.service0))
    by reflexivity.
  split; [exact H1|]. split; [exact createChannel_service1|].
  destruct (begin_then_end_restores Scenario.engine_ok Scenario.service0 "ch1"
              0 true Scenario.service1 H1 createChannel_service1)
    as (s2 & Hend & Hpm & Hch & _).
  exists s2. split; [exact Hend|]. split; [exact Hpm|].
  rewrite Hch. reflexivity.
Defined.

(** The theorem on a second begin for the call ch1: the service then holds
    the ports 4500 and 4501 for it, and its end frees only 4501. *)
Lemma begin_twice_keeps_first_port_witness :
  let s1 := (ARIService.createChannel Scenario.engine_ok Scenario.service1
               "ch1" 1 true).1 in
  PortManager.wf (ARIService.portManager Scenario.service1) /\
  ARIService.channels Scenario.service1 !! "ch1" = Some Scenario.handler1 /\
  PortManager.allocated (ARIService.portManager Scenario.service1)
    (ARIService.rtpPort Scenario.handler1) = true /\
  ARIService.createChannel Scenario.engine_ok Scenario.service1 "ch1" 1 true
    = (s1, None) /\
  exists s2,
    ARIService.cleanupChannel Scenario.engine_ok s1 "ch1"
      = Runtime.Returned s2 /\
    ARIService.channels s2 !! "ch1" = None /\
    PortManager.allocated (ARIService.portManager s2) 4500 = true.
Proof.
  intros s1.
  assert (H1 : PortManager.wf (ARIService.portManager Scenario.service1))
    by reflexivity.
  assert (H3 : PortManager.allocated (ARIService.portManager Scenario.service1)
                 (ARIService.rtpPort Scenario.handler1) = true)
    by reflexivity.
  assert (H4 : ARIService.createChannel Scenario.engine_ok Scenario.service1
                 "ch1" 1 true = (s1, None)) by reflexivity.
  split; [exact H1|]. split; [exact service1_handler|]. split; [exact H3|].
  split; [exact H4|].
  destruct (begin_twice_keeps_first_port Scenario.engine_ok Scenario.service1
              "ch1" 1 true s1 Scenario.handler1 H1 service1_handler H3 H4)
    as (h & s2 & _ & _ & Hend & Hnone & _ & Halloc).
  exists s2. split; [exact Hend|]. split; [exact Hnone|exact Halloc].
Defined.

(** The theorem on the three calls of [Scenario.service3], when ch2 has
    ended on Asterisk and the lookup of ch3 fails with a server error:
    the scrub removes the handler of ch2 and keeps those of ch1 and
    ch3. *)
Lemma cleanupZombieChannels_removes_gone_witness :
  (forall tr tr' channelID,
     Scenario.engine_ch2_gone tr (ARIService.GetChannel channelID) =
     Scenario.engine_ch2_gone tr' (ARIService.GetChannel channelID)) /\
  ARIService.wf_channels Scenario.service3 /\
  exists s1,
    ARIService.cleanupZombieChannels Scenario.engine_ch2_gone Scenario.service3
      = Runtime.Returned s1 /\
    ARIService.channels s1 !! "ch2" = None /\
    ARIService.channels s1 !! "ch1" = ARIService.channels Scenario.service3 !! "ch1" /\
    ARIService.channels s1 !! "ch3" = ARIService.channels Scenario.service3 !! "ch3".
Proof.
  assert (H1 : forall tr tr' channelID,
            Scenario.engine_ch2_gone tr (ARIService.GetChannel channelID) =
            Scenario.engine_ch2_gone tr' (ARIService.GetChannel channelID))
    by reflexivity.
  split; [exact H1|]. split; [exact wf_channels_service3|].
  destruct (cleanupZombieChannels_removes_gone Scenario.engine_ch2_gone H1
              Scenario.service3 wf_channels_service3) as (s1 & Hrun & _ & Hch).
  exists s1. split; [exact Hrun|]. rewrite Hch.
  split; [|split].
  - apply map_lookup_filter_None. right. intros h _. cbn. discriminate.
  - destruct (ARIService.channels Scenario.service3 !! "ch1") as [h|] eqn:E.
    + apply map_lookup_filter_Some. split; [exact E|reflexivity].
    + apply map_lookup_filter_None. left. exact E.
  - destruct (ARIService.channels Scenario.service3 !! "ch3") as [h|] eqn:E.
    + apply map_lookup_filter_Some. split; [exact E|reflexivity].
    + apply map_lookup_filter_None. left. exact E.
Defined.

(** ** The egress path and the echo *)

Section EgressFacts.
Import Word GoTime Runtime LatencyTracker Worker.

Variable Unmarshal : list Z -> option rtpPacket.

(** A clock reading moves the clock by at most the next tick and writes
    nothing. *)
Lemma time_Now_bounded B e t e1 :
  time_Now e = (t, e1) ->
  0 <= B -> Forall (λ d, d <= B) (ticks e) ->
  clock e <= clock e1 <= clock e + B /\ t = clock e1 /\
  Forall (λ d, d <= B) (ticks e1) /\ events e1 = events e.
Proof.
  unfold time_Now. intros H HB Hall. destruct (ticks e) as [|d rest] eqn:Ht.
  - injection H as <- <-. rewrite Ht. repeat split; try lia. exact Hall.
  - injection H as <- <-. cbn [clock ticks events].
    apply Forall_cons in Hall. destruct Hall as [Hd Hall].
    repeat split; try lia. exact Hall.
Qed.

Lemma optional_reading_bounded (b : bool) B e t e1 :
  (if b then time_Now else ret 0) e = (t, e1) ->
  0 <= B -> Forall (λ d, d <= B) (ticks e) ->
  clock e <= clock e1 /\ Forall (λ d, d <= B) (ticks e1) /\
  events e1 = events e.
Proof.
  destruct b.
  - intros H HB Hall. destruct (time_Now_bounded B e t e1 H HB Hall)
      as (H1 & _ & H2 & H3). repeat split; [lia|exact H2|exact H3].
  - intros [= <- <-] _ Hall. repeat split; [lia|exact Hall].
Qed.

Lemma optional_sleep_bounded (b : bool) d e u e1 :
  (if b then time_Sleep d else ret tt) e = (u, e1) ->
  clock e <= clock e1 /\ ticks e1 = ticks e /\
  writes (events e1) = writes (events e).
Proof.
  destruct b; unfold time_Sleep, ret; intros [= <- <-];
    cbn [clock ticks events]; repeat split; lia.
Qed.

Lemma handleOutgoingPacket_parsed w m packet rtp e B :
  Unmarshal (Data packet) = Some rtp ->
  0 <= B -> Forall (λ d, d <= B) (ticks e) ->
  let r := handleOutgoingPacket Unmarshal w m packet e in
  exists sendTime tSweep tStore,
    clock e <= sendTime /\ sendTime <= tSweep <= sendTime + B /\
    tSweep <= clock r.2 /\ Forall (λ d, d <= B) (ticks r.2) /\
    latencyTracker r.1.1 =
      RecordSent (latencyTracker w) (SequenceNumber rtp) sendTime tSweep /\
    sequenceTracker r.1.1 =
      SequenceTracker.TrackOutgoing (sequenceTracker w) (SequenceNumber rtp) /\
    r.1.2 = Metrics.RecordOutgoingPacket m (channelID w) tStore /\
    writes (events r.2) = (Data packet, echoAddr w) :: writes (events e) /\
    channelID r.1.1 = channelID w /\ echoAddr r.1.1 = echoAddr w /\
    asteriskAddr r.1.1 = asteriskAddr w /\ stopChan r.1.1 = stopChan w.
Proof.
  intros Hp HB Hall. unfold handleOutgoingPacket. rewrite Hp.
  unfold bind.
  destruct ((if baseTimestamp w =? 0 then time_Now else ret 0) e)
    as [tBase e0] eqn:H0.
  destruct (time_Now e0) as [sendTime e1] eqn:H1.
  destruct (time_Now e1) as [tSweep e2] eqn:H2.
  destruct (time_Now e2) as [tStore e3] eqn:H3.
  destruct (time_Now e3) as [tPace e4] eqn:H4.
  destruct (PacketPacer.CalculateDelay _ (Timestamp rtp) tPace) as [p delay].
  destruct ((if 0 <? delay then time_Sleep delay else ret tt) e4)
    as [u e5] eqn:H5.
  unfold emit, ret. cbn [fst snd clock ticks events].
  destruct (optional_reading_bounded _ B _ _ _ H0 HB Hall) as (C0 & T0 & V0).
  destruct (time_Now_bounded B _ _ _ H1 HB T0) as (C1 & -> & T1 & V1).
  destruct (time_Now_bounded B _ _ _ H2 HB T1) as (C2 & -> & T2 & V2).
  destruct (time_Now_bounded B _ _ _ H3 HB T2) as (C3 & -> & T3 & V3).
  destruct (time_Now_bounded B _ _ _ H4 HB T3) as (C4 & -> & T4 & V4).
  destruct (optional_sleep_bounded _ _ _ _ _ H5) as (C5 & T5 & V5).
  exists (clock e1), (clock e2), (clock e3).
  split; [lia|]. split; [lia|]. split; [lia|].
  split; [rewrite T5; exact T4|].
  cbn [writes omap list_omap]. fold (writes (events e5)).
  rewrite V5, V4, V3, V2, V1, V0.
  destruct (baseTimestamp w =? 0); repeat split; reflexivity.
Qed.

Lemma checkLatePacket_addresses w packet receiveTime now :
  let r := checkLatePacket w packet receiveTime now in
  asteriskAddr r.1 = asteriskAddr w /\ echoAddr r.1 = echoAddr w /\
  channelID r.1 = channelID w.
Proof.
  unfold checkLatePacket. destruct (baseTimestamp w =? 0);
    repeat split; reflexivity.
Qed.

Lemma optional_reading_writes (b : bool) e t e1 :
  (if b then time_Now else ret 0) e = (t, e1) -> events e1 = events e.
Proof.
  destruct b; [|intros [= <- <-]; reflexivity].
  unfold time_Now. destruct (ticks e); intros [= <- <-]; reflexivity.
Qed.

(** What the ingress path writes: the datagram to the Asterisk address of
    the worker when that is set, and nothing otherwise. *)
Lemma handleIncomingPacket_writes w m packet e :
  let r := handleIncomingPacket Unmarshal w m packet e in
  writes (events r.2) =
    match Unmarshal (Data packet), asteriskAddr w with
    | Some _, Some addr => (Data packet, addr) :: writes (events e)
    | _, _ => writes (events e)
    end /\
  asteriskAddr r.1.1 = asteriskAddr w /\ echoAddr r.1.1 = echoAddr w /\
  channelID r.1.1 = channelID w.
Proof.
  unfold handleIncomingPacket.
  destruct (Unmarshal (Data packet)) as [rtp|].
  2:{ cbn. destruct (asteriskAddr w); repeat split; reflexivity. }
  unfold bind.
  destruct ((if bool_decide _ then time_Now else ret 0) e) as [tSince e0] eqn:H0.
  apply (optional_reading_writes _ e tSince e0) in H0.
  destruct (LatencyTracker.GetLatency _ _ tSince) as [lt [latency found]].
  destruct found.
  - destruct (time_Now e0) as [tStore e1] eqn:H1.
    apply (optional_reading_writes true) in H1.
    destruct (SequenceTracker.TrackIncoming _ _) as [st dropped].
    destruct ((if 0 <? dropped then time_Now else ret 0) e1)
      as [tDrop e2] eqn:H2.
    apply (optional_reading_writes _ e1 tDrop e2) in H2.
    destruct (time_Now e2) as [receiveTime e3] eqn:H3.
    apply (optional_reading_writes true) in H3.
    destruct ((if baseTimestamp w =? 0 then time_Now else ret 0) e3)
      as [tBase e4] eqn:H4.
    apply (optional_reading_writes _ e3 tBase e4) in H4.
    pose proof (checkLatePacket_addresses
                  (set_processing w lt st (pacer w) (baseTimestamp w) (baseTime w))
                  rtp receiveTime tBase) as Hc.
    cbv zeta in Hc.
    destruct (checkLatePacket _ rtp receiveTime tBase) as [w1 isLate].
    cbn [fst snd asteriskAddr echoAddr channelID set_processing] in Hc.
    destruct ((if isLate then time_Now else ret 0) e4) as [tLate e5] eqn:H5.
    apply (optional_reading_writes _ e4 tLate e5) in H5.
    unfold ret, emit.
    destruct (asteriskAddr w) as [addr|]; cbn [fst snd events writes omap list_omap];
      fold (writes (events e5)); rewrite H5, H4, H3, H2, H1, H0;
      (split; [reflexivity|exact Hc]).
  - unfold ret, emit.
    destruct (asteriskAddr w) as [addr|] eqn:Ha;
      cbn [fst snd events writes omap list_omap asteriskAddr echoAddr channelID
           set_processing];
      fold (writes (events e0)); rewrite H0, ?Ha; repeat split; reflexivity.
Qed.

Lemma ticks_bound (l : list Z) : exists B, 0 <= B /\ Forall (λ d, d <= B) l.
Proof.
  induction l as [|d l (B & HB & Hall)].
  - exists 0. split; [lia|constructor].
  - exists (Z.max B d). split; [lia|]. constructor; [lia|].
    eapply Forall_impl; [exact Hall|]. cbn. intros. lia.
Qed.

(** X26.  The egress path.  A datagram from Asterisk that does not parse
    is dropped: the worker and the metrics are left as they were and
    nothing is written.  A datagram that parses is passed once, byte for
    byte, to [WriteToUDP] for the echo address; it is counted once as an
    outbound packet of the channel in the metrics and in the sequence
    meter, which keeps its sequence number as the last one sent. *)
Theorem handleOutgoingPacket_forwards w m packet e :
  let r := handleOutgoingPacket Unmarshal w m packet e in
  match Unmarshal (Data packet) with
  | None => r.1 = (w, m) /\ writes (events r.2) = writes (events e)
  | Some rtp =>
      writes (events r.2) = (Data packet, echoAddr w) :: writes (events e) /\
      SequenceTracker.lastOutgoingSeq (sequenceTracker r.1.1)
        = SequenceNumber rtp /\
      SequenceTracker.outgoingCount (sequenceTracker r.1.1)
        = wrap32 (SequenceTracker.outgoingCount (sequenceTracker w) + 1) /\
      (exists now, r.1.2 = Metrics.RecordOutgoingPacket m (channelID w) now) /\
      channelID r.1.1 = channelID w /\ echoAddr r.1.1 = echoAddr w
  end.
Proof.
  destruct (Unmarshal (Data packet)) as [rtp|] eqn:Hp.
  2:{ unfold handleOutgoingPacket. rewrite Hp. split; reflexivity. }
  destruct (ticks_bound (ticks e)) as (B & HB & Hall).
  destruct (handleOutgoingPacket_parsed w m packet rtp e B Hp HB Hall)
    as (sendTime & tSweep & tStore & _ & _ & _ & _ & _ & Hst & Hm & Hw & Hid &
        Hecho & _).
  cbv zeta. rewrite Hst. cbn [SequenceTracker.TrackOutgoing
    SequenceTracker.lastOutgoingSeq SequenceTracker.outgoingCount].
  split; [exact Hw|]. split; [reflexivity|]. split; [reflexivity|].
  split; [exists tStore; exact Hm|]. split; [exact Hid|exact Hecho].
Qed.

(** One packet of the processor, for a worker without Asterisk address. *)
Lemma process_writes w m packet e :
  asteriskAddr w = None ->
  let r := process Unmarshal w m packet e in
  writes (events r.2) =
    (if is_egress Unmarshal packet then [(Data packet, echoAddr w)] else [])
    ++ writes (events e) /\
  asteriskAddr r.1.1 = None /\ echoAddr r.1.1 = echoAddr w.
Proof.
  intros Hnone. unfold process, is_egress.
  destruct (IsFromAsterisk packet); cbn [andb].
  - destruct (Unmarshal (Data packet)) as [rtp|] eqn:Hp.
    + destruct (ticks_bound (ticks e)) as (B & HB & Hall).
      destruct (handleOutgoingPacket_parsed w m packet rtp e B Hp HB Hall)
        as (sendTime & tSweep & tStore & _ & _ & _ & _ & _ & _ & _ & Hw & _ &
            Hecho & Ha & _).
      cbv zeta. split; [exact Hw|]. split; [congruence|exact Hecho].
    + unfold handleOutgoingPacket. rewrite Hp. cbn. auto.
  - destruct (handleIncomingPacket_writes w m packet e) as (Hw & Ha & Hecho & _).
    cbv zeta. rewrite Hnone in Hw, Ha.
    split; [|split; [exact Ha|exact Hecho]].
    rewrite Hw. destruct (Unmarshal (Data packet)); reflexivity.
Qed.

(** X27.  A worker never writes a datagram towards Asterisk.  Its
    Asterisk address is nil when it is built and no code sets it, so over
    any run of packets the datagrams it writes are exactly the packets
    from Asterisk that parse, in their order, each byte for byte and each
    to the echo address; a packet that returns from the echo server is
    measured and then dropped. *)
Theorem process_all_writes_only_to_echo packets : forall w m e,
  asteriskAddr w = None ->
  let r := process_all Unmarshal w m packets e in
  writes (events r.2) =
    rev ((λ p, (Data p, echoAddr w))
           <$> List.filter (is_egress Unmarshal) packets)
    ++ writes (events e).
Proof.
  induction packets as [|packet packets IH]; intros w m e Hnone;
    cbn [process_all]; [reflexivity|].
  unfold bind.
  destruct (process_writes w m packet e Hnone) as (Hw & Ha & Hecho).
  destruct (process Unmarshal w m packet e) as [[w1 m1] e1].
  cbn [fst snd] in Hw, Ha, Hecho |- *.
  specialize (IH w1 m1 e1 Ha). cbv zeta in IH. rewrite IH, Hw, Hecho.
  cbn [List.filter]. destruct (is_egress Unmarshal packet).
  - rewrite fmap_cons. cbn [rev]. rewrite <- app_assoc. reflexivity.
  - reflexivity.
Qed.


End EgressFacts.

(** ** An egress packet and its return *)

Section CorrelationFacts.
Import Word GoTime Runtime LatencyTracker Worker.

Variable Unmarshal : list Z -> option rtpPacket.






End CorrelationFacts.


(** The theorems on a new worker and two calls' worth of packets, on a
    clock that moves 1 ms between two readings. *)
Lemma process_all_writes_only_to_echo_witness :
  let w := Worker.NewWorker "c1" 4500 "127.0.0.1" 4000 in
  let r := Worker.process_all Worker.parse_header w Metrics.NewMetrics
             [Scenario.outgoing 1000 160; Scenario.incoming 1000 160;
              Scenario.outgoing 1001 320]
             Scenario.every_millisecond in
  Worker.asteriskAddr w = None /\
  Worker.writes (Runtime.events r.2) =
    [(Worker.datagram 1001 320, ("127.0.0.1", 4000));
     (Worker.datagram 1000 160, ("127.0.0.1", 4000))].
Proof.
  intros w r.
  assert (H : Worker.asteriskAddr w = None) by reflexivity.
  split; [exact H|].
  exact (process_all_writes_only_to_echo Worker.parse_header _ w
           Metrics.NewMetrics Scenario.every_millisecond H).
Defined.


(** ** The echo server *)

Section EchoFacts.
Import Word GoTime Runtime EchoServer.

Variable Unmarshal : list Z -> option Worker.rtpPacket.

Lemma CalculateDelay_sampleRate p timestamp now :
  PacketPacer.sampleRate (PacketPacer.CalculateDelay p timestamp now).1
  = PacketPacer.sampleRate p.
Proof.
  unfold PacketPacer.CalculateDelay.
  destruct (PacketPacer.baseTimestamp p =? 0); [reflexivity|].
  cbv zeta. destruct (After _ now); reflexivity.
Qed.

(** One datagram, on a server whose sample rate is not 0. *)
Lemma processEchoWithPacing_step s data clientAddr write_ok e :
  PacketPacer.sampleRate (pacer s) <> 0 ->
  let r := processEchoWithPacing Unmarshal s data clientAddr write_ok e in
  let echoed := is_echoed Unmarshal (data, clientAddr, write_ok) in
  exists s1,
    r.1 = Returned s1 /\
    PacketPacer.sampleRate (pacer s1) = PacketPacer.sampleRate (pacer s) /\
    Worker.writes (events r.2) =
      (if echoed then [(data, clientAddr)] else []) ++ Worker.writes (events e) /\
    packetsEchoed (metrics s1) =
      (if echoed then wrap64 (packetsEchoed (metrics s) + 1)
       else packetsEchoed (metrics s)) /\
    bytesEchoed (metrics s1) =
      (if echoed then wrap64 (bytesEchoed (metrics s) + Z.of_nat (length data))
       else bytesEchoed (metrics s)) /\
    echoErrors (metrics s1) =
      (if echoed then echoErrors (metrics s)
       else wrap64 (echoErrors (metrics s) + 1)).
Proof.
  intros Hrate. apply Z.eqb_neq in Hrate.
  unfold processEchoWithPacing, is_echoed. cbn [fst snd]. unfold bind.
  destruct (time_Now e) as [startTime e0] eqn:H0.
  apply (optional_reading_writes true) in H0.
  destruct (Unmarshal data) as [packet|].
  2:{ unfold ret. cbn [fst snd]. eexists. split; [reflexivity|].
      rewrite H0. repeat split; reflexivity. }
  rewrite Hrate, andb_false_r.
  destruct (time_Now e0) as [now e1] eqn:H1.
  apply (optional_reading_writes true) in H1.
  pose proof (CalculateDelay_sampleRate (pacer s) (Worker.Timestamp packet) now)
    as Hp.
  destruct (PacketPacer.CalculateDelay _ _ now) as [p delay]. cbn [fst] in Hp.
  destruct ((if 0 <? delay then time_Sleep delay else ret tt) e1)
    as [u e2] eqn:H2.
  apply optional_sleep_bounded in H2. destruct H2 as (_ & _ & H2).
  destruct write_ok.
  - unfold emit.
    destruct ((if Z.rem _ 10000 =? 0 then time_Now else ret 0) _)
      as [t3 e3] eqn:H3.
    apply optional_reading_writes in H3. cbn [events] in H3.
    unfold ret. cbn [fst snd]. eexists. split; [reflexivity|].
    cbn [pacer metrics packetsEchoed bytesEchoed echoErrors].
    rewrite H3. cbn [Worker.writes omap list_omap].
    fold (Worker.writes (events e2)). rewrite H2, H1, H0.
    repeat split; try reflexivity. exact Hp.
  - unfold ret. cbn [fst snd]. eexists. split; [reflexivity|].
    cbn [count_error pacer metrics packetsEchoed bytesEchoed echoErrors].
    rewrite H2, H1, H0. repeat split; try reflexivity. exact Hp.
Qed.

(** X29.  The echo server with a sample rate other than 0, over any run
    of datagrams: it returns, the datagrams it writes are exactly the
    datagrams that parse and whose write succeeds, in their order, each
    byte for byte and each to the address it came from; and every
    datagram is counted once, as echoed (with its length added to the
    byte count) or as an error (when it does not parse or its write
    fails). *)
Theorem serve_echoes_each_datagram inputs : forall s e,
  PacketPacer.sampleRate (pacer s) <> 0 ->
  is_i64 (packetsEchoed (metrics s)) ->
  is_i64 (bytesEchoed (metrics s)) ->
  is_i64 (echoErrors (metrics s)) ->
  let r := serve Unmarshal s inputs e in
  let echoed := List.filter (is_echoed Unmarshal) inputs in
  exists s1,
    r.1 = Returned s1 /\
    Worker.writes (events r.2) =
      rev ((λ i : list Z * (string * Z) * bool, i.1) <$> echoed)
      ++ Worker.writes (events e) /\
    packetsEchoed (metrics s1) =
      wrap64 (packetsEchoed (metrics s) + Z.of_nat (length echoed)) /\
    bytesEchoed (metrics s1) =
      wrap64 (bytesEchoed (metrics s)
              + foldr Z.add 0
                  ((λ i : list Z * (string * Z) * bool,
                      Z.of_nat (length i.1.1)) <$> echoed)) /\
    echoErrors (metrics s1) =
      wrap64 (echoErrors (metrics s)
              + (Z.of_nat (length inputs) - Z.of_nat (length echoed))).
Proof.
  induction inputs as [|[[data clientAddr] write_ok] inputs IH];
    intros s e Hrate HP HB HE; cbn [serve].
  - exists s. cbn [fst snd ret List.filter fmap list_fmap rev app length foldr].
    rewrite !Z.add_0_r, !wrap64_id by assumption. repeat split; reflexivity.
  - unfold bind.
    destruct (processEchoWithPacing_step s data clientAddr write_ok e Hrate)
      as (s1 & Hr & Hrate1 & Hw & H1 & H2 & H3).
    destruct (processEchoWithPacing Unmarshal s data clientAddr write_ok e)
      as [o e1]. cbn [fst snd] in Hr, Hw. subst o.
    assert (HP1 : is_i64 (packetsEchoed (metrics s1)))
      by (rewrite H1; destruct (is_echoed _ _); [apply wrap64_range|exact HP]).
    assert (HB1 : is_i64 (bytesEchoed (metrics s1)))
      by (rewrite H2; destruct (is_echoed _ _); [apply wrap64_range|exact HB]).
    assert (HE1 : is_i64 (echoErrors (metrics s1)))
      by (rewrite H3; destruct (is_echoed _ _); [exact HE|apply wrap64_range]).
    rewrite <- Hrate1 in Hrate.
    destruct (IH s1 e1 Hrate HP1 HB1 HE1) as (s2 & I0 & Iw & I1 & I2 & I3).
    exists s2. split; [exact I0|]. rewrite Iw, Hw, I1, I2, I3, H1, H2, H3.
    cbn [List.filter]. destruct (is_echoed Unmarshal (data, clientAddr, write_ok)).
    + rewrite !fmap_cons. cbn [rev foldr length fst snd].
      rewrite <- app_assoc, !wrap64_add_l, Nat2Z.inj_succ.
      repeat split; f_equal; lia.
    + cbn [length app]. rewrite wrap64_add_l, Nat2Z.inj_succ.
      repeat split; f_equal; lia.
Qed.

(** The first datagram that parses sets the base of a new pacer. *)
Lemma processEchoWithPacing_sets_base s data clientAddr write_ok packet e :
  Unmarshal data = Some packet ->
  PacketPacer.baseTimestamp (pacer s) = 0 ->
  exists s1,
    (processEchoWithPacing Unmarshal s data clientAddr write_ok e).1
      = Returned s1 /\
    PacketPacer.baseTimestamp (pacer s1) = Worker.Timestamp packet /\
    PacketPacer.sampleRate (pacer s1) = PacketPacer.sampleRate (pacer s).
Proof.
  intros Hp Hbase. unfold processEchoWithPacing. rewrite Hp. unfold bind.
  destruct (time_Now e) as [t0 e0]. rewrite Hbase. cbn [Z.eqb negb andb].
  destruct (time_Now e0) as [t1 e1].
  unfold PacketPacer.CalculateDelay. rewrite Hbase. cbn [Z.eqb].
  change (0 <? 0) with false. cbv iota. unfold ret at 1.
  destruct write_ok.
  - unfold emit.
    destruct ((if Z.rem _ 10000 =? 0 then time_Now else ret 0) _) as [t2 e2].
    unfold ret. cbn [fst]. eexists. split; [reflexivity|].
    split; reflexivity.
  - unfold ret. cbn [fst]. eexists. split; [reflexivity|]. split; reflexivity.
Qed.

Lemma processEchoWithPacing_divides_by_zero s data clientAddr write_ok packet e :
  Unmarshal data = Some packet ->
  PacketPacer.baseTimestamp (pacer s) <> 0 ->
  PacketPacer.sampleRate (pacer s) = 0 ->
  (processEchoWithPacing Unmarshal s data clientAddr write_ok e).1
  = Panicked "runtime error: integer divide by zero".
Proof.
  intros Hp Hbase Hrate. apply Z.eqb_neq in Hbase.
  unfold processEchoWithPacing. rewrite Hp. unfold bind.
  destruct (time_Now e) as [t0 e0]. rewrite Hbase, Hrate. reflexivity.
Qed.

(** X30.  The echo server started with the sample rate 0: the first
    datagram that parses, when its timestamp is not 0, sets the base of
    the pacer, and the next datagram that parses makes the pacer divide
    by the rate, which is a run-time panic. *)
Theorem serve_zero_sample_rate_panics d1 a1 ok1 d2 a2 ok2 rest p1 p2 e :
  Unmarshal d1 = Some p1 -> Worker.Timestamp p1 <> 0 ->
  Unmarshal d2 = Some p2 ->
  (serve Unmarshal (NewEchoServer 0) ((d1, a1, ok1) :: (d2, a2, ok2) :: rest) e).1
  = Panicked "runtime error: integer divide by zero".
Proof.
  intros H1 Hts H2. cbn [serve]. unfold bind.
  destruct (processEchoWithPacing_sets_base (NewEchoServer 0) d1 a1 ok1 p1 e
              H1 eq_refl) as (s1 & Hr & Hbase & Hrate).
  destruct (processEchoWithPacing Unmarshal (NewEchoServer 0) d1 a1 ok1 e)
    as [o e1]. cbn [fst] in Hr. subst o.
  rewrite <- Hbase in Hts.
  pose proof (processEchoWithPacing_divides_by_zero s1 d2 a2 ok2 p2 e1 H2 Hts
                Hrate) as Hpanic.
  destruct (processEchoWithPacing Unmarshal s1 d2 a2 ok2 e1) as [o e2].
  cbn [fst] in Hpanic. subst o. reflexivity.
Qed.

End EchoFacts.

(** The theorems on three datagrams: the second is not an RTP packet and
    the write of the third fails. *)
Lemma serve_echoes_each_datagram_witness :
  let s := EchoServer.NewEchoServer 8000 in
  let inputs := [(Worker.datagram 1000 160, ("10.0.0.1", 5000), true);
                 ([1; 2; 3], ("10.0.0.2", 5001), true);
                 (Worker.datagram 1001 320, ("10.0.0.1", 5000), false)] in
  let r := EchoServer.serve Worker.parse_header s inputs
             Scenario.every_millisecond in
  PacketPacer.sampleRate (EchoServer.pacer s) <> 0 /\ Word.is_i64 0 /\
  exists s1,
    r.1 = Runtime.Returned s1 /\
    Worker.writes (Runtime.events r.2) =
      [(Worker.datagram 1000 160, ("10.0.0.1", 5000))] /\
    EchoServer.packetsEchoed (EchoServer.metrics s1) = 1 /\
    EchoServer.bytesEchoed (EchoServer.metrics s1) = 12 /\
    EchoServer.echoErrors (EchoServer.metrics s1) = 2.
Proof.
  intros s inputs r.
  assert (H1 : PacketPacer.sampleRate (EchoServer.pacer s) <> 0) by (cbn; lia).
  assert (H0 : Word.is_i64 0) by (unfold Word.is_i64; lia).
  split; [exact H1|]. split; [exact H0|].
  exact (serve_echoes_each_datagram Worker.parse_header inputs s
           Scenario.every_millisecond H1 H0 H0 H0).
Defined.

Lemma serve_zero_sample_rate_panics_witness :
  Worker.parse_header (Worker.datagram 1000 160)
    = Some (Worker.BuildRtp 1000 160) /\
  Worker.Timestamp (Worker.BuildRtp 1000 160) <> 0 /\
  Worker.parse_header (Worker.datagram 1001 320)
    = Some (Worker.BuildRtp 1001 320) /\
  (EchoServer.serve Worker.parse_header (EchoServer.NewEchoServer 0)
     [(Worker.datagram 1000 160, ("10.0.0.1", 5000), true);
      (Worker.datagram 1001 320, ("10.0.0.1", 5000), true)]
     Scenario.every_millisecond).1
  = Runtime.Panicked "runtime error: integer divide by zero".
Proof.
  assert (H1 : Worker.parse_header (Worker.datagram 1000 160)
               = Some (Worker.BuildRtp 1000 160)) by reflexivity.
  assert (H2 : Worker.Timestamp (Worker.BuildRtp 1000 160) <> 0)
    by (cbn; lia).
  assert (H3 : Worker.parse_header (Worker.datagram 1001 320)
               = Some (Worker.BuildRtp 1001 320)) by reflexivity.
  split; [exact H1|]. split; [exact H2|]. split; [exact H3|].
  exact (serve_zero_sample_rate_panics Worker.parse_header _ _ _ _ _ _ []
           _ _ Scenario.every_millisecond H1 H2 H3).
Defined.
